(** * AD9523 low-jitter clock generator driver (drivers/iio/frequency/ad9523.c)

    A shallow embedding of the PLL2 divider solver, the clock-source router,
    the attribute write path and the register protocols of the driver,
    together with the properties its design description states about them.

    Conventions.  C integers are values in [Z]; every conversion and every
    wrap-around of the source is written out ([u32], [ulong], [s32],
    [slong]).  The driver's [unsigned long] is 64 bits wide (LP64 kernel).
    A C operation without defined behaviour (division by zero, an array
    index outside its bounds) yields [Fault]; a loop is run on fuel and
    yields [OutOfFuel] when the fuel does not suffice. *)

From Stdlib Require Import ZArith Lia Bool List Reals Lra.
From stdpp Require Import base tactics option list numbers gmap strings.

Local Open Scope Z_scope.

(** ** C integer types *)

Definition BITS_PER_LONG : Z := 64.

Definition u32 (x : Z) : Z := x mod 2 ^ 32.
Definition ulong (x : Z) : Z := x mod 2 ^ BITS_PER_LONG.
Definition s32 (x : Z) : Z := (x + 2 ^ 31) mod 2 ^ 32 - 2 ^ 31.
Definition slong (x : Z) : Z :=
  (x + 2 ^ (BITS_PER_LONG - 1)) mod 2 ^ BITS_PER_LONG - 2 ^ (BITS_PER_LONG - 1).

(** errno values of the kernel *)
Definition EIO : Z := 5.
Definition EINVAL : Z := 22.

(** ** Results of running a piece of C *)

Inductive outcome (A : Type) : Type :=
| Done (a : A)
| Fault
| OutOfFuel.
Arguments Done {A} a.
Arguments Fault {A}.
Arguments OutOfFuel {A}.

#[global] Instance outcome_ret : MRet outcome := fun _ a => Done a.
#[global] Instance outcome_bind : MBind outcome := fun _ _ f m =>
  match m with
  | Done a => f a
  | Fault => Fault
  | OutOfFuel => OutOfFuel
  end.

(** unsigned division, undefined for a zero divisor *)
Definition udiv (a b : Z) : outcome Z :=
  if b =? 0 then Fault else Done (a / b).

(** the kernel's [abs()] on an [int] *)
Definition abs_int (x : Z) : Z := s32 (Z.abs x).

(** ** PLL2 divider solver *)

Definition AD9523_VCO_FREQ_MIN : Z := 2940000.
Definition AD9523_VCO_FREQ_MAX : Z := 3100000.

(** The PLL2 members of [struct ad9523_platform_data] that the solver
    assigns.  The structure is declared in a header outside this file; the
    record keeps each value as the solver assigns it. *)
Record ad9523_platform_data : Type := mk_pdata {
  pll2_ndiv_a_cnt : Z;
  pll2_ndiv_b_cnt : Z;
  pll2_freq_doubler_en : bool;
  pll2_r2_div : Z;
  pll2_vco_div_m1 : Z;
  pll2_vco_div_m2 : Z
}.

Definition AD9523_PLL2_FB_NDIV (a b : Z) : Z := 4 * b + a.

Definition vco_in_range (v : Z) : Prop :=
  AD9523_VCO_FREQ_MIN <= v <= AD9523_VCO_FREQ_MAX.

(** [st->vco_freq] as [ad9523_setup] computes it from the platform data:
    [div_u64((unsigned long long)pdata->vcxo_freq * (doubler ? 2 : 1) *
    AD9523_PLL2_FB_NDIV(a, b), pdata->pll2_r2_div)], in Hz. *)
Definition setup_vco_freq (vcxo_freq : Z) (pdata : ad9523_platform_data) : outcome Z :=
  udiv ((vcxo_freq * (if pll2_freq_doubler_en pdata then 2 else 1) *
         AD9523_PLL2_FB_NDIV (pll2_ndiv_a_cnt pdata) (pll2_ndiv_b_cnt pdata)) mod 2 ^ 64)
       (u32 (pll2_r2_div pdata)).

Definition ad9523_pll2_valid_div (div : Z) : bool :=
  if div <? 16 then false
  else if (div =? 18) || (div =? 19) || (div =? 23) || (div =? 27) then false
  else true.

(** [for (m = 3; m <= 5; m++) { vco_freq = m_freq * m; if (...) break; }]
    returns the values of [m] and [vco_freq] when the loop is left. *)
Fixpoint vco_search (fuel : nat) (m_freq m vco_freq : Z) : outcome (Z * Z) :=
  match fuel with
  | O => OutOfFuel
  | S fuel' =>
      if m <=? 5 then
        let vco_freq := u32 (m_freq * m) in
        if (AD9523_VCO_FREQ_MIN <=? vco_freq) && (AD9523_VCO_FREQ_MAX >=? vco_freq)
        then Done (m, vco_freq)
        else vco_search fuel' m_freq (m + 1) vco_freq
      else Done (m, vco_freq)
  end.

(** The assignment of [m1] and [m2]; [None] is the [return -EINVAL]. *)
Definition vco_dividers (m1_freq m2_freq m vco_freq : Z) : option (Z * Z) :=
  if negb (m1_freq =? 0) then
    if negb (m2_freq =? 0) then
      let m2 := vco_freq / m2_freq in
      if (m2 <? 3) || (m2 >? 5) || (vco_freq mod m2_freq >? 1)
      then None
      else Some (m, m2)
    else Some (m, 3)
  else Some (3, m).

(** [while (fpfd > 259000 || !ad9523_pll2_valid_div(n2[0]))]: returns
    [fpfd], [n2[0]] and [r2[0]] when the loop is left. *)
Fixpoint pfd_loop (fuel : nat) (fpfd n2 r2 : Z) : outcome (Z * Z * Z) :=
  match fuel with
  | O => OutOfFuel
  | S fuel' =>
      if (fpfd >? 259000) || negb (ad9523_pll2_valid_div (u32 n2))
      then pfd_loop fuel' (fpfd / 2) (ulong (n2 * 2)) (ulong (r2 * 2))
      else Done (fpfd, n2, r2)
  end.

Section Solver.

(** [rational_best_approximation] of <linux/rational.h>: given numerator,
    given denominator, largest numerator, largest denominator; returns
    the best numerator and the best denominator. *)
Variable rational_best_approximation : Z -> Z -> Z -> Z -> Z * Z.

(** The second approximation and the choice between the two candidates
    (the body of [if (vco_freq != vcxo_freq * n2[0] / r2[0])]); returns
    [n2[0]], [r2[0]] and the doubler flag. *)
Definition doubler_choice (vco_freq vcxo_freq n20 r20 : Z) : outcome (Z * Z * bool) :=
  let '(n21, r21) :=
    rational_best_approximation vco_freq (u32 (vcxo_freq * 2)) 255 31 in
  q0 ← udiv vco_freq n20;
  x0 ← udiv vcxo_freq r20;
  q1 ← udiv vco_freq n21;
  x1 ← udiv vcxo_freq r21;
  if abs_int (s32 (s32 q0 - s32 x0)) >? abs_int (s32 (s32 (q1 / 2) - s32 x1))
  then Done (n21, r21, true)
  else Done (n20, r20, false).

(** The two calls of the approximator and what the solver keeps of them
    (from the first call to the end of the [if] that follows it);
    returns [n2[0]], [r2[0]] and [pdata->pll2_freq_doubler_en]. *)
Definition pll2_ratio (vco_freq vcxo_freq : Z) : outcome (Z * Z * bool) :=
  let '(n20, r20) := rational_best_approximation vco_freq vcxo_freq 255 31 in
  back ← udiv (ulong (vcxo_freq * n20)) r20;
  if negb (vco_freq =? back)
  then doubler_choice vco_freq vcxo_freq n20 r20
  else Done (n20, r20, false).

(** The fractions that the solver receives for the VCO frequency [vco]
    and the oscillator frequency [vcxo], in kHz, are usable: numerators
    from 1 to 255 and denominators that are not zero.  The solver
    divides by every one of them. *)
Definition usable_fractions (vco vcxo : Z) : Prop :=
  let a0 := rational_best_approximation vco vcxo 255 31 in
  let a1 := rational_best_approximation vco (u32 (vcxo * 2)) 255 31 in
  (1 <= a0.1 <= 255 /\ a0.2 <> 0) /\ (1 <= a1.1 <= 255 /\ a1.2 <> 0).

(** Returns the C return value and the platform data as left behind. *)
Definition ad9523_calc_dividers (fuel : nat) (vcxo_freq m1_freq m2_freq : Z)
    (pdata : ad9523_platform_data) : outcome (Z * ad9523_platform_data) :=
  let m1_freq := m1_freq / 1000 in
  let m2_freq := m2_freq / 1000 in
  let vcxo_freq := vcxo_freq / 1000 in
  let m_freq := if negb (m1_freq =? 0) then m1_freq else m2_freq in
  '(m, vco_freq) ← vco_search fuel m_freq 3 0;
  if m =? 6 then Done (- EINVAL, pdata) else
  match vco_dividers m1_freq m2_freq m vco_freq with
  | None => Done (- EINVAL, pdata)
  | Some (m1, m2) =>
      '(n20, r20, doubler) ← pll2_ratio vco_freq vcxo_freq;
      fpfd ← udiv (u32 (vcxo_freq * (if doubler then 2 else 1))) r20;
      '(fpfd, n20, r20) ← pfd_loop fuel (u32 fpfd) n20 r20;
      Done (0, {| pll2_ndiv_a_cnt := n20 mod 4;
                  pll2_ndiv_b_cnt := n20 / 4;
                  pll2_freq_doubler_en := doubler;
                  pll2_r2_div := r20;
                  pll2_vco_div_m1 := m1;
                  pll2_vco_div_m2 := m2 |})
  end.

End Solver.

(** ** The rational approximator *)

(** Modelled from the spec: the comparison of two candidate fractions of
    the approximator below; [c] is strictly closer to [num/den] than
    [best] (absolute errors compared by cross-multiplication, all
    denominators positive). *)
Definition approx_closer (num den : Z) (c best : Z * Z) : bool :=
  Z.abs (num * c.2 - c.1 * den) * best.2 <? Z.abs (num * best.2 - best.1 * den) * c.2.

(** Modelled from the spec: the candidates [n/d] of the approximator below,
    [0 <= n <= maxNum] and [1 <= d <= maxDen], by increasing denominator,
    then increasing numerator. *)
Definition approx_candidates (max_num max_den : Z) : list (Z * Z) :=
  d ← seqZ 1 max_den; n ← seqZ 0 (max_num + 1); [(n, d)].

(** Modelled from the spec: [rational_best_approximation] (lib/math/rational.c
    is not part of the driver's file).  The design description gives its
    contract: the fraction [n/d] with [n <= maxNum] and [d <= maxDen] that
    minimises the absolute error to [numerator/denominator], ties broken by
    the smallest denominator, and [(maxNum, 1)] for a zero denominator.
    A candidate replaces the best so far only when it is strictly closer,
    so that among equally close fractions the first in the enumeration,
    the one of smallest denominator, is returned. *)
Definition approximate (num den max_num max_den : Z) : Z * Z :=
  if den =? 0 then (max_num, 1)
  else fold_left (fun best c => if approx_closer num den c best then c else best)
                 (approx_candidates max_num max_den) (0, 1).

(** ** Register map *)

Definition AD9523_READ : Z := Z.shiftl 1 15.
Definition AD9523_WRITE : Z := Z.shiftl 0 15.
Definition AD9523_CNT (x : Z) : Z := Z.shiftl (x - 1) 13.
Definition AD9523_ADDR (x : Z) : Z := Z.land x 0xFFF.

Definition AD9523_R1B : Z := Z.shiftl 1 16.
Definition AD9523_R2B : Z := Z.shiftl 2 16.
Definition AD9523_R3B : Z := Z.shiftl 3 16.
Definition AD9523_TRANSF_LEN (x : Z) : Z := Z.shiftr x 16.

Definition AD9523_EEPROM_CUSTOMER_VERSION_ID : Z := Z.lor AD9523_R2B 0x6.
Definition AD9523_CHANNEL_CLOCK_DIST (ch : Z) : Z := Z.lor AD9523_R3B (0x192 + 3 * ch).
Definition AD9523_PLL1_OUTPUT_CTRL : Z := Z.lor AD9523_R1B 0x1BA.
Definition AD9523_PLL1_OUTPUT_CHANNEL_CTRL : Z := Z.lor AD9523_R1B 0x1BB.
Definition AD9523_STATUS_SIGNALS : Z := Z.lor AD9523_R3B 0x232.
Definition AD9523_IO_UPDATE : Z := Z.lor AD9523_R1B 0x234.
Definition AD9523_EEPROM_DATA_XFER_STATUS : Z := Z.lor AD9523_R1B 0xB00.
Definition AD9523_EEPROM_ERROR_READBACK : Z := Z.lor AD9523_R1B 0xB01.
Definition AD9523_EEPROM_CTRL1 : Z := Z.lor AD9523_R1B 0xB02.
Definition AD9523_EEPROM_CTRL2 : Z := Z.lor AD9523_R1B 0xB03.

(** AD9523_CHANNEL_CLOCK_DIST; the two [_REV] macros of the source read
    the variable [ret], here their argument. *)
Definition AD9523_CLK_DIST_DIV_PHASE (x : Z) : Z := Z.shiftl (Z.land x 0x3F) 18.
Definition AD9523_CLK_DIST_DIV_PHASE_REV (ret : Z) : Z := Z.land (Z.shiftr ret 18) 0x3F.
Definition AD9523_CLK_DIST_DIV (x : Z) : Z := Z.shiftl (Z.land (x - 1) 0x3FF) 8.
Definition AD9523_CLK_DIST_DIV_REV (ret : Z) : Z := Z.land (Z.shiftr ret 8) 0x3FF + 1.
Definition AD9523_CLK_DIST_PWR_DOWN_EN : Z := Z.shiftl 1 5.

Definition AD9523_PLL1_OUTP_CTRL_VCO_DIV_SEL_CH4_M2 : Z := Z.shiftl 1 5.
Definition AD9523_PLL1_OUTP_CH_CTRL_VCO_DIV_SEL_CH7_M2 : Z := Z.shiftl 1 4.
Definition AD9523_PLL1_OUTP_CH_CTRL_VCXO_SRC_SEL_CH0 : Z := Z.shiftl 1 0.

Definition AD9523_STATUS_SIGNALS_SYNC_MAN_CTRL : Z := Z.shiftl 1 16.
Definition AD9523_IO_UPDATE_EN : Z := Z.shiftl 1 0.
Definition AD9523_EEPROM_DATA_XFER_IN_PROGRESS : Z := Z.shiftl 1 0.
Definition AD9523_EEPROM_ERROR_READBACK_FAIL : Z := Z.shiftl 1 0.
Definition AD9523_EEPROM_CTRL1_EEPROM_WRITE_PROT_DIS : Z := Z.shiftl 1 0.
Definition AD9523_EEPROM_CTRL2_REG2EEPROM : Z := Z.shiftl 1 0.

Definition AD9523_NUM_CHAN : Z := 14.
Definition AD9523_NUM_CHAN_ALT_CLK_SRC : Z := 10.

(** [enum { AD9523_VCO1, AD9523_VCO2, AD9523_VCXO, AD9523_NUM_CLK_SRC }] *)
Definition AD9523_VCO1 : Z := 0.
Definition AD9523_VCO2 : Z := 1.
Definition AD9523_VCXO : Z := 2.

(** The [mask] argument of [read_raw] and [write_raw]. *)
Inductive iio_chan_info : Type :=
| IIO_CHAN_INFO_RAW
| IIO_CHAN_INFO_FREQUENCY
| IIO_CHAN_INFO_PHASE
| IIO_CHAN_INFO_OTHER.

(** ** The SPI bus and the driver state *)

(** What [spi_sync_transfer] does with the two message shapes the driver
    builds: a 16-bit instruction word followed by [len] bytes that are
    received, or sent.  Each returns the new state of the peripheral and
    the status of the transfer (negative: an errno); a read also returns
    the bytes received, as a big-endian number. *)
Class SpiBus (bus : Type) : Type := {
  spi_sync_read : bus -> Z -> Z -> bus * (Z * Z);
  spi_sync_write : bus -> Z -> Z -> Z -> bus * Z
}.

(** A register access as the driver issued it, with its result, and the
    sleeps in between.  The list of these accesses is a ghost field of the
    driver state: the source has no such record. *)
Inductive access : Type :=
| Rd (addr ret : Z)
| Wr (addr val ret : Z)
| Sleep (ms : Z).

(** [struct ad9523_state], as far as the functions below use it. *)
Record ad9523_state {bus : Type} : Type := mk_state {
  spi : bus;
  is_enabled : list bool;      (* output[AD9523_NUM_CHAN].is_enabled *)
  vco_out_freq : list Z;       (* [AD9523_NUM_CLK_SRC] *)
  vco_out_map : list Z;        (* [AD9523_NUM_CHAN_ALT_CLK_SRC] *)
  trace : list access
}.
Arguments ad9523_state bus : clear implicits.
Arguments mk_state {bus}.

(** Driver code: a function of the driver state that returns a value and
    the new state, faults or runs out of fuel. *)
Definition drv (bus A : Type) : Type :=
  ad9523_state bus -> outcome (A * ad9523_state bus).

#[global] Instance drv_ret {bus} : MRet (drv bus) := fun _ a st => Done (a, st).
#[global] Instance drv_bind {bus} : MBind (drv bus) := fun _ _ f m st =>
  match m st with
  | Done (a, st') => f a st'
  | Fault => Fault
  | OutOfFuel => OutOfFuel
  end.

Definition fault {bus A} : drv bus A := fun _ => Fault.

(** array reads; an index outside the array has no defined result *)
Definition array_get {bus A} (arr : ad9523_state bus -> list A) (i : Z) : drv bus A :=
  fun st =>
    if i <? 0 then Fault
    else match arr st !! Z.to_nat i with
         | Some x => Done (x, st)
         | None => Fault
         end.

(** [st->vco_out_map[i] = x] and [st->output[i].is_enabled = x] *)
Definition set_vco_out_map {bus} (i x : Z) : drv bus unit := fun st =>
  if (i <? 0) || (Z.of_nat (length (vco_out_map st)) <=? i) then Fault
  else Done (tt, mk_state (spi st) (is_enabled st) (vco_out_freq st)
                          (<[Z.to_nat i := x]> (vco_out_map st)) (trace st)).

Definition set_is_enabled {bus} (i : Z) (x : bool) : drv bus unit := fun st =>
  if (i <? 0) || (Z.of_nat (length (is_enabled st)) <=? i) then Fault
  else Done (tt, mk_state (spi st) (<[Z.to_nat i := x]> (is_enabled st))
                          (vco_out_freq st) (vco_out_map st) (trace st)).

(** [ret = f(...); if (ret < 0) return ret;] followed by the rest *)
Definition or_return {bus} (m : drv bus Z) (k : Z -> drv bus Z) : drv bus Z :=
  ret ← m; if ret <? 0 then mret ret else k ret.

Notation "x ←! y ; z" := (or_return y (fun x => z))
  (at level 20, y at level 100, z at level 200, only parsing) : stdpp_scope.

(** the kernel's [abs()] on a [long] and [clamp()] *)
Definition abs_long (x : Z) : Z := slong (Z.abs (slong x)).
Definition clamp (v lo hi : Z) : Z := Z.min (Z.max v lo) hi.

Section Driver.

Context {bus : Type} `{SpiBus bus}.

Definition msleep (ms : Z) : drv bus unit := fun st =>
  Done (tt, mk_state (spi st) (is_enabled st) (vco_out_freq st) (vco_out_map st)
                     (trace st ++ [Sleep ms])).

Definition ad9523_read (addr : Z) : drv bus Z := fun st =>
  let len := AD9523_TRANSF_LEN addr in
  let insn := Z.lor (Z.lor AD9523_READ (AD9523_CNT len)) (AD9523_ADDR addr) in
  let '(b, (ret, rx)) := spi_sync_read (spi st) insn len in
  let ret := if ret <? 0 then ret
             else Z.land rx (Z.shiftr 0xFFFFFF (8 * (3 - len))) in
  Done (ret, mk_state b (is_enabled st) (vco_out_freq st) (vco_out_map st)
                      (trace st ++ [Rd addr ret])).

Definition ad9523_write (addr val : Z) : drv bus Z := fun st =>
  let len := AD9523_TRANSF_LEN addr in
  let insn := Z.lor (Z.lor AD9523_WRITE (AD9523_CNT len)) (AD9523_ADDR addr) in
  let '(b, ret) := spi_sync_write (spi st) insn len (u32 val mod 2 ^ (8 * len)) in
  Done (ret, mk_state b (is_enabled st) (vco_out_freq st) (vco_out_map st)
                      (trace st ++ [Wr addr val ret])).

Definition ad9523_io_update : drv bus Z :=
  ad9523_write AD9523_IO_UPDATE AD9523_IO_UPDATE_EN.

(** The three register cases of [ad9523_vco_out_map] share this
    read-modify-write of one select bit; [vcxo] tells the case of the
    channels 0 to 3, where a set bit selects [AD9523_VCXO]. *)
Definition select_bit (reg mask : Z) (vcxo : bool) (ch out : Z) : drv bus Z :=
  ret ← ad9523_read reg;
  '(ret, out) ←
    (if ret <? 0 then mret (ret, out)
     else
       let '(ret, out) :=
         if negb (out =? 0)
         then (Z.lor ret mask, if vcxo then AD9523_VCXO else out)
         else (Z.land ret (Z.lnot mask), out) in
       ret ← ad9523_write reg ret;
       mret (ret, out));
  _ ← set_vco_out_map ch out;
  mret ret.

Definition ad9523_vco_out_map (ch out : Z) : drv bus Z :=
  if (0 <=? ch) && (ch <=? 3) then
    select_bit AD9523_PLL1_OUTPUT_CHANNEL_CTRL
      (u32 (Z.shiftl AD9523_PLL1_OUTP_CH_CTRL_VCXO_SRC_SEL_CH0 ch)) true ch out
  else if (4 <=? ch) && (ch <=? 6) then
    select_bit AD9523_PLL1_OUTPUT_CTRL
      (u32 (Z.shiftl AD9523_PLL1_OUTP_CTRL_VCO_DIV_SEL_CH4_M2 (ch - 4))) false ch out
  else if (7 <=? ch) && (ch <=? 9) then
    select_bit AD9523_PLL1_OUTPUT_CHANNEL_CTRL
      (u32 (Z.shiftl AD9523_PLL1_OUTP_CH_CTRL_VCO_DIV_SEL_CH7_M2 (ch - 7))) false ch out
  else mret 0.

(** [use_alt_clk_src] for the channels 4 to 9 *)
Definition use_alt_clk_src_4_9 (vco1 vco2 freq : Z) : bool :=
  let tmp1 := slong (vco1 / freq) in
  let tmp2 := slong (vco2 / freq) in
  let tmp1 := slong (ulong (tmp1 * freq)) in
  let tmp2 := slong (ulong (tmp2 * freq)) in
  abs_long (ulong (tmp1 - freq)) >? abs_long (ulong (tmp2 - freq)).

Definition ad9523_set_clock_provider (ch freq : Z) : drv bus Z :=
  if (0 <=? ch) && (ch <=? 3) then
    vcxo ← array_get vco_out_freq AD9523_VCXO;
    ad9523_vco_out_map ch (if freq =? vcxo then 1 else 0)
  else if (4 <=? ch) && (ch <=? 9) then
    vco1 ← array_get vco_out_freq AD9523_VCO1;
    vco2 ← array_get vco_out_freq AD9523_VCO2;
    if freq =? 0 then fault
    else ad9523_vco_out_map ch (if use_alt_clk_src_4_9 vco1 vco2 freq then 1 else 0)
  else mret 0.

(** The [do ... while] of [ad9523_store_eeprom]; [Some ret] is the
    [return ret] inside the loop, [None] the loop left. *)
Fixpoint eeprom_poll (fuel : nat) (tmp : Z) : drv bus (option Z) :=
  match fuel with
  | O => fun _ => OutOfFuel
  | S fuel' =>
      _ ← msleep 20;
      ret ← ad9523_read AD9523_EEPROM_DATA_XFER_STATUS;
      if ret <? 0 then mret (Some ret)
      else if negb (Z.land ret AD9523_EEPROM_DATA_XFER_IN_PROGRESS =? 0)
      then (if negb (tmp =? 0) then eeprom_poll fuel' (s32 (tmp - 1)) else mret None)
      else mret None
  end.

Definition ad9523_store_eeprom (fuel : nat) : drv bus Z :=
  _ ←! ad9523_write AD9523_EEPROM_CTRL1 AD9523_EEPROM_CTRL1_EEPROM_WRITE_PROT_DIS;
  _ ←! ad9523_write AD9523_EEPROM_CTRL2 AD9523_EEPROM_CTRL2_REG2EEPROM;
  early ← eeprom_poll fuel 4;
  match early with
  | Some ret => mret ret
  | None =>
      _ ←! ad9523_write AD9523_EEPROM_CTRL1 0;
      ret ←! ad9523_read AD9523_EEPROM_ERROR_READBACK;
      if negb (Z.land ret AD9523_EEPROM_ERROR_READBACK_FAIL =? 0)
      then mret (- EIO)
      else mret ret
  end.

Definition ad9523_sync : drv bus Z :=
  ret ←! ad9523_read AD9523_STATUS_SIGNALS;
  let tmp := ret in
  let tmp := Z.lor tmp AD9523_STATUS_SIGNALS_SYNC_MAN_CTRL in
  _ ←! ad9523_write AD9523_STATUS_SIGNALS tmp;
  _ ← ad9523_io_update;
  let tmp := Z.land tmp (Z.lnot AD9523_STATUS_SIGNALS_SYNC_MAN_CTRL) in
  _ ←! ad9523_write AD9523_STATUS_SIGNALS tmp;
  ad9523_io_update.

(** The phase code of [IIO_CHAN_INFO_PHASE]: [ret] is the channel
    register as read, [val] and [val2] the phase in rad and in
    millionths of a rad. *)
Definition phase_code (ret val val2 : Z) : Z :=
  let code := s32 (s32 (val * 1000000) + Z.rem val2 1000000) in
  let tmp := Z.quot (s32 (code * AD9523_CLK_DIST_DIV_REV ret)) 3141592 in
  clamp tmp 0 63.

(** The [switch] of [ad9523_write_raw]: [inl ret] is a [goto out] with
    that [ret], [inr reg] the register value to be written. *)
Definition write_raw_reg (channel val val2 : Z) (mask : iio_chan_info) (ret : Z)
    : drv bus (Z + Z) :=
  let reg := ret in
  match mask with
  | IIO_CHAN_INFO_RAW =>
      let reg := if negb (val =? 0)
                 then Z.land reg (Z.lnot AD9523_CLK_DIST_PWR_DOWN_EN)
                 else Z.lor reg AD9523_CLK_DIST_PWR_DOWN_EN in
      _ ← set_is_enabled channel (negb (val =? 0));
      mret (inr reg)
  | IIO_CHAN_INFO_FREQUENCY =>
      if val <=? 0 then mret (inl (- EINVAL))
      else
        ret ← ad9523_set_clock_provider (u32 channel) val;
        if ret <? 0 then mret (inl ret)
        else
          src ← array_get vco_out_map channel;
          f ← array_get vco_out_freq src;
          let tmp := s32 (ulong (f + val / 2) / val) in
          let tmp := clamp tmp 1 1024 in
          let reg := Z.land reg (Z.lnot (Z.shiftl 0x3FF 8)) in
          mret (inr (Z.lor reg (AD9523_CLK_DIST_DIV tmp)))
  | IIO_CHAN_INFO_PHASE =>
      let tmp := phase_code ret val val2 in
      let reg := Z.land reg (Z.lnot (AD9523_CLK_DIST_DIV_PHASE (Z.lnot 0))) in
      mret (inr (Z.lor reg (AD9523_CLK_DIST_DIV_PHASE tmp)))
  | IIO_CHAN_INFO_OTHER => mret (inl (- EINVAL))
  end.

(** [chan->channel] is the argument [channel]; the mutex taken around
    the body has no effect on a single caller and is left out. *)
Definition ad9523_write_raw (channel val val2 : Z) (mask : iio_chan_info) : drv bus Z :=
  ret ←! ad9523_read (AD9523_CHANNEL_CLOCK_DIST channel);
  r ← write_raw_reg channel val val2 mask ret;
  match r with
  | inl ret => mret ret
  | inr reg =>
      ret ←! ad9523_write (AD9523_CHANNEL_CLOCK_DIST channel) reg;
      _ ← ad9523_io_update;
      mret ret
  end.

(** The read/write check of [ad9523_setup] on the customer version ID
    register; a result that is not negative lets the setup go on. *)
Definition setup_spi_verify : drv bus Z :=
  i ←! ad9523_read AD9523_EEPROM_CUSTOMER_VERSION_ID;
  _ ←! ad9523_write AD9523_EEPROM_CUSTOMER_VERSION_ID 0xAD95;
  ret ←! ad9523_read AD9523_EEPROM_CUSTOMER_VERSION_ID;
  if negb (ret =? 0xAD95) then mret (- EIO)
  else ad9523_write AD9523_EEPROM_CUSTOMER_VERSION_ID i.

End Driver.

(** ** A register-file peripheral *)

(** A device to run the driver against: one cell per register address,
    and a list of statuses for the coming transfers.  A negative status
    makes the transfer fail with it and leaves the registers alone; with
    any other status, or none left, a write stores its bytes and a read
    returns the cell (zero when never written). *)
Record mock_bus : Type := mk_mock {
  regs : gmap Z Z;
  faults : list Z
}.

Definition next_status (b : mock_bus) : Z * list Z :=
  match faults b with
  | c :: rest => (c, rest)
  | [] => (0, [])
  end.

Definition mock_cell (b : mock_bus) (addr : Z) : Z :=
  default 0 (regs b !! AD9523_ADDR addr).

#[global] Instance mock_spi : SpiBus mock_bus := {|
  spi_sync_read b insn len :=
    let '(c, rest) := next_status b in
    if c <? 0 then (mk_mock (regs b) rest, (c, 0))
    else (mk_mock (regs b) rest, (0, mock_cell b insn));
  spi_sync_write b insn len data :=
    let '(c, rest) := next_status b in
    if c <? 0 then (mk_mock (regs b) rest, c)
    else (mk_mock (<[AD9523_ADDR insn := data]> (regs b)) rest, 0)
|}.

(** The value a read of register [addr] returns from the peripheral. *)
Definition mock_reg (b : mock_bus) (addr : Z) : Z :=
  Z.land (mock_cell b addr) (Z.shiftr 0xFFFFFF (8 * (3 - AD9523_TRANSF_LEN addr))).

(** A driver state over the peripheral: all outputs disabled, every
    channel mapped to [AD9523_VCO1], an empty trace. *)
Definition mock_state (b : mock_bus) (freqs : list Z) : ad9523_state mock_bus :=
  mk_state b (replicate 14 false) freqs (replicate 10 AD9523_VCO1) [].

(** [pdata] as [devm_kzalloc] returns it *)
Definition pdata_zalloc : ad9523_platform_data := mk_pdata 0 0 false 0 0 0.

(** ** Two formulas of the design description *)

(** The phase code as the design description words it:
    round(phaseRadians * divider / (2 pi)) clamped to [0, 63]; the nearest
    integer is the floor of the value plus one half. *)
Definition phase_code_spec (phase : R) (divider : Z) : Z :=
  clamp (Zfloor (phase * IZR divider / (2 * PI) + / 2)) 0 63.

(** The residual of a source for a requested rate as the design
    description words it: what is left between the source and the
    requested rate re-multiplied by the rounded quotient. *)
Definition rounded_divider_residual (source requested : Z) : Z :=
  Z.abs (source - (source + requested / 2) / requested * requested).

(** ** The attribute reads, the debug access and the clock operations *)

Definition ENODEV : Z := 19.

(** return codes of <linux/iio/types.h> *)
Definition IIO_VAL_INT : Z := 1.
Definition IIO_VAL_INT_PLUS_MICRO : Z := 2.

Definition AD9523_READBACK_0 : Z := Z.lor AD9523_R1B 0x22C.

(** [enum { AD9523_STAT_PLL1_LD, ..., AD9523_STAT_PLL2_REF_CLK,
    AD9523_SYNC, AD9523_EEPROM }]: the last two *)
Definition AD9523_SYNC : Z := 8.
Definition AD9523_EEPROM : Z := 9.

(** The arrays of [struct ad9523_state] have the sizes the structure
    declares, and every entry of [vco_out_map] is one of [AD9523_VCO1],
    [AD9523_VCO2], [AD9523_VCXO]. *)
Definition state_sized {bus} (st : ad9523_state bus) : Prop :=
  length (is_enabled st) = 14%nat /\
  length (vco_out_freq st) = 3%nat /\
  length (vco_out_map st) = 10%nat /\
  Forall (fun src => 0 <= src < 3) (vco_out_map st).

(** [st->vco_out_freq[i] = x] *)
Definition set_vco_out_freq {bus} (i x : Z) : drv bus unit := fun st =>
  if (i <? 0) || (Z.of_nat (length (vco_out_freq st)) <=? i) then Fault
  else Done (tt, mk_state (spi st) (is_enabled st)
                          (<[Z.to_nat i := x]> (vco_out_freq st))
                          (vco_out_map st) (trace st)).

(** a computation without effect on the driver state *)
Definition lift_outcome {bus A} (m : outcome A) : drv bus A := fun st =>
  match m with
  | Done a => Done (a, st)
  | Fault => Fault
  | OutOfFuel => OutOfFuel
  end.

(** [use_alt_clk_src] of [ad9523_clk_round_rate] for the channels 4 to 9,
    where [tmp1] and [tmp2] are [unsigned long] *)
Definition round_rate_use_vco2 (vco1 vco2 rate : Z) : bool :=
  let tmp1 := vco1 / rate in
  let tmp2 := vco2 / rate in
  let tmp1 := ulong (tmp1 * rate) in
  let tmp2 := ulong (tmp2 * rate) in
  abs_long (ulong (tmp1 - rate)) >? abs_long (ulong (tmp2 - rate)).

Section DriverOps.

Context {bus : Type} `{SpiBus bus}.

(** [ssize_t ad9523_store(dev, attr, buf, len)]: [address] is
    [this_attr->address], [kstrtobool] the pair of the return value of
    [kstrtobool(buf, &state)] and of the [state] it stored. *)
Definition ad9523_store (fuel : nat) (address : Z) (kstrtobool : Z * bool) (len : Z)
    : drv bus Z :=
  let '(ret, state) := kstrtobool in
  if ret <? 0 then mret ret
  else if negb state then mret (slong len)
  else
    ret ← (if u32 address =? AD9523_SYNC then ad9523_sync
           else if u32 address =? AD9523_EEPROM then ad9523_store_eeprom fuel
           else mret (- ENODEV));
    mret (slong (ulong (if negb (ret =? 0) then ret else len))).

(** [ad9523_show]: [inl ret] is the [return ret] of a failed read,
    [inr d] the call of [sysfs_emit] with the number [d], whose result
    the function returns. *)
Definition ad9523_show (address : Z) : drv bus (Z + Z) :=
  ret ← ad9523_read AD9523_READBACK_0;
  if 0 <=? ret
  then mret (inr (if negb (Z.land ret (Z.shiftl 1 (u32 address)) =? 0) then 1 else 0))
  else mret (inl ret).

(** [ad9523_read_raw]: returns the C return value with [*val] and
    [*val2] as the function leaves them ([None]: not stored to).
    [val2] tells whether the pointer [val2] is not NULL. *)
Definition ad9523_read_raw (channel : Z) (val2 : bool) (m : iio_chan_info)
    : drv bus (Z * option Z * option Z) :=
  ret ← ad9523_read (AD9523_CHANNEL_CLOCK_DIST channel);
  if ret <? 0 then mret (ret, None, None)
  else
    match m with
    | IIO_CHAN_INFO_RAW =>
        mret (IIO_VAL_INT,
              Some (if Z.land ret AD9523_CLK_DIST_PWR_DOWN_EN =? 0 then 1 else 0),
              None)
    | IIO_CHAN_INFO_FREQUENCY =>
        src ← array_get vco_out_map channel;
        f ← array_get vco_out_freq src;
        mret (IIO_VAL_INT, Some (s32 (f / AD9523_CLK_DIST_DIV_REV ret)), None)
    | IIO_CHAN_INFO_PHASE =>
        let code := u32 (Z.quot (s32 (AD9523_CLK_DIST_DIV_PHASE_REV ret * 3141592))
                                (AD9523_CLK_DIST_DIV_REV ret)) in
        if val2
        then mret (IIO_VAL_INT_PLUS_MICRO,
                   Some (s32 (code / 1000000)), Some (s32 (code mod 1000000)))
        else fault
    | IIO_CHAN_INFO_OTHER => mret (- EINVAL, None, None)
    end.

(** [ad9523_reg_access]: [readval] tells whether the pointer [readval]
    is not NULL; returns the C return value and [*readval] when stored.
    [ad9523_read] and [ad9523_write] above stand for transfers of one to
    three bytes: a register number with a bit above bit 17 set makes the
    length taken from the address exceed the four bytes of
    [st->data[1]], for which the source has no defined result. *)
Definition ad9523_reg_access (reg writeval : Z) (readval : bool)
    : drv bus (Z * option Z) :=
  let addr := Z.lor reg AD9523_R1B in
  if 3 <? AD9523_TRANSF_LEN addr then fault
  else if negb readval then
    ret ← ad9523_write addr writeval;
    _ ← ad9523_io_update;
    mret (ret, None)
  else
    ret ← ad9523_read addr;
    if ret <? 0 then mret (ret, None)
    else mret (0, Some (u32 ret)).

(** The clock operations take the [struct clk_hw] of [st->output[num]]
    as registered by [ad9523_clk_register], whose member [num] is the
    index [num]. *)
Definition ad9523_get_clk_attr (num : Z) (mask : iio_chan_info) : drv bus Z :=
  '(ret, val, _) ← ad9523_read_raw (s32 num) false mask;
  if ret =? IIO_VAL_INT
  then match val with
       | Some v => mret v
       | None => fault
       end
  else mret ret.

Definition ad9523_clk_recalc_rate (num : Z) : drv bus Z :=
  ret ← ad9523_get_clk_attr num IIO_CHAN_INFO_FREQUENCY;
  mret (ulong ret).

Definition ad9523_clk_is_enabled (num : Z) : drv bus Z :=
  en ← array_get is_enabled num;
  mret (if en : bool then 1 else 0).

Definition ad9523_set_clk_attr (num : Z) (mask : iio_chan_info) (val : Z) : drv bus Z :=
  ad9523_write_raw (s32 num) (s32 val) 0 mask.

Definition ad9523_clk_prepare (num : Z) : drv bus Z :=
  ad9523_set_clk_attr num IIO_CHAN_INFO_RAW 1.

Definition ad9523_clk_unprepare (num : Z) : drv bus unit :=
  _ ← ad9523_set_clk_attr num IIO_CHAN_INFO_RAW 0;
  mret tt.

Definition ad9523_clk_round_rate (num rate : Z) : drv bus Z :=
  if rate =? 0 then mret 0
  else
    clk ← (if (0 <=? num) && (num <=? 3) then
             vcxo ← array_get vco_out_freq AD9523_VCXO;
             if rate =? vcxo then mret vcxo
             else array_get vco_out_freq AD9523_VCO1
           else if (4 <=? num) && (num <=? 9) then
             vco1 ← array_get vco_out_freq AD9523_VCO1;
             vco2 ← array_get vco_out_freq AD9523_VCO2;
             if round_rate_use_vco2 vco1 vco2 rate
             then mret vco2
             else mret vco1
           else array_get vco_out_freq AD9523_VCO1);
    let tmp1 := ulong (clk + rate / 2) / rate in
    let tmp1 := clamp tmp1 1 1024 in
    mret (slong (clk / tmp1)).

Definition ad9523_clk_set_rate (num rate : Z) : drv bus Z :=
  ad9523_set_clk_attr num IIO_CHAN_INFO_FREQUENCY rate.

End DriverOps.

(** ** The PLL2 part of the device-tree parser and of the setup *)

(** The range checks of [ad9523_parse_dt] on the PLL2 dividers: 0 when
    all of them pass, otherwise the errno of the [ERR_PTR] returned. *)
Definition parse_dt_pll2_check (pdata : ad9523_platform_data) : Z :=
  if (pll2_ndiv_b_cnt pdata <? 3) || (pll2_ndiv_b_cnt pdata >? 63) then - EINVAL
  else if (if pll2_ndiv_b_cnt pdata =? 3 then pll2_ndiv_a_cnt pdata >? 0
           else if pll2_ndiv_b_cnt pdata =? 4 then pll2_ndiv_a_cnt pdata >? 1
           else if (pll2_ndiv_b_cnt pdata =? 5) || (pll2_ndiv_b_cnt pdata =? 6)
                then pll2_ndiv_a_cnt pdata >? 2
           else pll2_ndiv_a_cnt pdata >? 3)
       then - EINVAL
  else if (pll2_r2_div pdata <? 1) || (pll2_r2_div pdata >? 31) then - EINVAL
  else if (pll2_vco_div_m1 pdata <? 3) || (pll2_vco_div_m1 pdata >? 5) then - EINVAL
  else if (pll2_vco_div_m2 pdata <? 3) || (pll2_vco_div_m2 pdata >? 5) then - EINVAL
  else 0.

Section DeviceTree.

Variable rational_best_approximation : Z -> Z -> Z -> Z -> Z * Z.

(** [of_property_read_u32(np, name, &x)] as the value of [x] after the
    call, given the value before it, and [of_property_read_bool(np, name)]. *)
Variable of_property_read_u32 : string -> Z -> Z.
Variable of_property_read_bool : string -> bool.

(** [ad9523_parse_dt] from [m1_freq = m2_freq = 0] to the last range
    check on the PLL2 dividers: [tmp] is the value of the variable [tmp]
    and [pdata] the PLL2 members of [*pdata] on arrival there, [vcxo_freq]
    is [pdata->vcxo_freq].  Returns 0 or the errno of the [ERR_PTR]
    returned, and the PLL2 members as left behind. *)
Definition parse_dt_pll2 (fuel : nat) (vcxo_freq tmp : Z) (pdata : ad9523_platform_data)
    : outcome (Z * ad9523_platform_data) :=
  let m1_freq := of_property_read_u32 "adi,pll2-m1-freq"%string 0 in
  let m2_freq := of_property_read_u32 "adi,pll2-m2-freq"%string 0 in
  pdata ←
    (if (m1_freq =? 0) && (m2_freq =? 0) then
       let tmp := of_property_read_u32 "adi,pll2-ndiv-a-cnt"%string tmp in
       let a_cnt := tmp in
       let tmp := of_property_read_u32 "adi,pll2-ndiv-b-cnt"%string tmp in
       let b_cnt := tmp in
       let doubler := of_property_read_bool "adi,pll2-freq-doubler-enable"%string in
       let tmp := 1 in
       let tmp := of_property_read_u32 "adi,pll2-r2-div"%string tmp in
       let r2 := tmp in
       let tmp := 3 in
       let tmp := of_property_read_u32 "adi,pll2-vco-diff-m1"%string tmp in
       let tmp := of_property_read_u32 "adi,pll2-vco-div-m1"%string tmp in
       let m1 := tmp in
       let tmp := 3 in
       let tmp := of_property_read_u32 "adi,pll2-vco-diff-m2"%string tmp in
       let tmp := of_property_read_u32 "adi,pll2-vco-div-m2"%string tmp in
       let m2 := tmp in
       Done {| pll2_ndiv_a_cnt := a_cnt; pll2_ndiv_b_cnt := b_cnt;
               pll2_freq_doubler_en := doubler; pll2_r2_div := r2;
               pll2_vco_div_m1 := m1; pll2_vco_div_m2 := m2 |}
     else
       '(_, pdata) ← ad9523_calc_dividers rational_best_approximation fuel
                        (u32 vcxo_freq) m1_freq m2_freq pdata;
       Done pdata);
  Done (parse_dt_pll2_check pdata, pdata).

End DeviceTree.

Definition AD9523_PLL2_CHARGE_PUMP : Z := Z.lor AD9523_R1B 0xF0.
Definition AD9523_PLL2_FEEDBACK_DIVIDER_AB : Z := Z.lor AD9523_R1B 0xF1.
Definition AD9523_PLL2_CTRL : Z := Z.lor AD9523_R1B 0xF2.
Definition AD9523_PLL2_VCO_CTRL : Z := Z.lor AD9523_R1B 0xF3.
Definition AD9523_PLL2_VCO_DIVIDER : Z := Z.lor AD9523_R1B 0xF4.
Definition AD9523_PLL2_LOOP_FILTER_CTRL : Z := Z.lor AD9523_R2B 0xF6.
Definition AD9523_PLL2_R2_DIVIDER : Z := Z.lor AD9523_R1B 0xF7.

Definition AD9523_PLL2_CHARGE_PUMP_CURRENT_nA (x : Z) : Z := x / 3500.
Definition AD9523_PLL2_FB_NDIV_A_CNT (x : Z) : Z := Z.shiftl (Z.land x 0x3) 6.
Definition AD9523_PLL2_FB_NDIV_B_CNT (x : Z) : Z := Z.shiftl (Z.land x 0x3F) 0.
Definition AD9523_PLL2_CHARGE_PUMP_MODE_NORMAL : Z := Z.shiftl 3 0.
Definition AD9523_PLL2_BACKLASH_CTRL_EN : Z := Z.shiftl 1 4.
Definition AD9523_PLL2_FREQ_DOUBLER_EN : Z := Z.shiftl 1 5.
Definition AD9523_PLL2_VCO_CALIBRATE : Z := Z.shiftl 1 1.
Definition AD9523_PLL2_VCO_DIV_M1 (x : Z) : Z := Z.shiftl (Z.land (x - 3) 0x3) 0.
Definition AD9523_PLL2_VCO_DIV_M2 (x : Z) : Z := Z.shiftl (Z.land (x - 3) 0x3) 4.
Definition AD9523_PLL2_VCO_DIV_M1_PWR_DOWN_EN : Z := Z.shiftl 1 2.
Definition AD9523_PLL2_VCO_DIV_M2_PWR_DOWN_EN : Z := Z.shiftl 1 6.
Definition AD9523_PLL2_LOOP_FILTER_CPOLE1 (x : Z) : Z := Z.shiftl (Z.land x 0x7) 0.
Definition AD9523_PLL2_LOOP_FILTER_RZERO (x : Z) : Z := Z.shiftl (Z.land x 0x7) 3.
Definition AD9523_PLL2_LOOP_FILTER_RPOLE2 (x : Z) : Z := Z.shiftl (Z.land x 0x7) 6.
Definition AD9523_PLL2_LOOP_FILTER_RZERO_BYPASS_EN : Z := Z.shiftl 1 8.
Definition AD9523_PLL2_R2_DIVIDER_VAL (x : Z) : Z := Z.shiftl (Z.land x 0x1F) 0.

Definition AD9523_CLK_DIST_INV_DIV_OUTPUT_EN : Z := Z.shiftl 1 7.
Definition AD9523_CLK_DIST_IGNORE_SYNC_EN : Z := Z.shiftl 1 6.
Definition AD9523_CLK_DIST_LOW_PWR_MODE_EN : Z := Z.shiftl 1 4.
Definition AD9523_CLK_DIST_DRIVER_MODE (x : Z) : Z := Z.shiftl (Z.land x 0xF) 0.

(** The members of [struct ad9523_platform_data] that the PLL2 part of
    [ad9523_setup] reads besides those the solver assigns. *)
Record ad9523_pll2_platform_data : Type := mk_pll2_pdata {
  vcxo_freq : Z;
  pll2_charge_pump_current_nA : Z;
  cpole1 : Z;
  rzero : Z;
  rpole2 : Z;
  rzero_bypass_en : bool
}.

(** [struct ad9523_channel_spec], without the name of the channel *)
Record ad9523_channel_spec : Type := mk_channel_spec {
  channel_num : Z;
  divider_output_invert_en : bool;
  sync_ignore_en : bool;
  low_power_mode_en : bool;
  use_alt_clock_src : bool;
  output_dis : bool;
  driver_mode : Z;
  divider_phase : Z;
  channel_divider : Z
}.

(** The value [ad9523_setup] writes to the register of a channel that
    the platform data lists. *)
Definition channel_clock_dist (chan : ad9523_channel_spec) : Z :=
  Z.lor (Z.lor (Z.lor (Z.lor (Z.lor (Z.lor
    (AD9523_CLK_DIST_DRIVER_MODE (driver_mode chan))
    (AD9523_CLK_DIST_DIV (channel_divider chan)))
    (AD9523_CLK_DIST_DIV_PHASE (divider_phase chan)))
    (if sync_ignore_en chan then AD9523_CLK_DIST_IGNORE_SYNC_EN else 0))
    (if divider_output_invert_en chan then AD9523_CLK_DIST_INV_DIV_OUTPUT_EN else 0))
    (if low_power_mode_en chan then AD9523_CLK_DIST_LOW_PWR_MODE_EN else 0))
    (if output_dis chan then AD9523_CLK_DIST_PWR_DOWN_EN else 0).

Section Setup.

Context {bus : Type} `{SpiBus bus}.

(** [TRISTATE] of [enum outp_drv_mode], declared in the header of the
    platform data *)
Variable TRISTATE : Z.

(** [ad9523_setup] from the comment "PLL2 Setup" to the write of the
    PLL2 loop filter: a result that is not negative lets the setup go
    on.  [st->vco_freq] is read nowhere else and is kept in [vco_freq]. *)
Definition setup_pll2 (pdata : ad9523_platform_data) (aux : ad9523_pll2_platform_data)
    : drv bus Z :=
  _ ←! ad9523_write AD9523_PLL2_CHARGE_PUMP
         (AD9523_PLL2_CHARGE_PUMP_CURRENT_nA (pll2_charge_pump_current_nA aux));
  _ ←! ad9523_write AD9523_PLL2_FEEDBACK_DIVIDER_AB
         (Z.lor (AD9523_PLL2_FB_NDIV_A_CNT (pll2_ndiv_a_cnt pdata))
                (AD9523_PLL2_FB_NDIV_B_CNT (pll2_ndiv_b_cnt pdata)));
  _ ←! ad9523_write AD9523_PLL2_CTRL
         (Z.lor (Z.lor AD9523_PLL2_CHARGE_PUMP_MODE_NORMAL AD9523_PLL2_BACKLASH_CTRL_EN)
                (if pll2_freq_doubler_en pdata then AD9523_PLL2_FREQ_DOUBLER_EN else 0));
  vco_freq ← lift_outcome (setup_vco_freq (vcxo_freq aux) pdata);
  _ ←! ad9523_write AD9523_PLL2_VCO_CTRL AD9523_PLL2_VCO_CALIBRATE;
  _ ←! ad9523_write AD9523_PLL2_VCO_DIVIDER
         (Z.lor (Z.lor (Z.lor
            (AD9523_PLL2_VCO_DIV_M1 (pll2_vco_div_m1 pdata))
            (AD9523_PLL2_VCO_DIV_M2 (pll2_vco_div_m2 pdata)))
            (if negb (pll2_vco_div_m1 pdata =? 0) then 0
             else AD9523_PLL2_VCO_DIV_M1_PWR_DOWN_EN))
            (if negb (pll2_vco_div_m2 pdata =? 0) then 0
             else AD9523_PLL2_VCO_DIV_M2_PWR_DOWN_EN));
  _ ← (if negb (pll2_vco_div_m1 pdata =? 0)
       then set_vco_out_freq AD9523_VCO1 (vco_freq / pll2_vco_div_m1 pdata)
       else mret tt);
  _ ← (if negb (pll2_vco_div_m2 pdata =? 0)
       then set_vco_out_freq AD9523_VCO2 (vco_freq / pll2_vco_div_m2 pdata)
       else mret tt);
  _ ← set_vco_out_freq AD9523_VCXO (vcxo_freq aux);
  _ ←! ad9523_write AD9523_PLL2_R2_DIVIDER
         (AD9523_PLL2_R2_DIVIDER_VAL (pll2_r2_div pdata));
  ad9523_write AD9523_PLL2_LOOP_FILTER_CTRL
    (Z.lor (Z.lor (Z.lor
       (AD9523_PLL2_LOOP_FILTER_CPOLE1 (cpole1 aux))
       (AD9523_PLL2_LOOP_FILTER_RZERO (rzero aux)))
       (AD9523_PLL2_LOOP_FILTER_RPOLE2 (rpole2 aux)))
       (if rzero_bypass_en aux then AD9523_PLL2_LOOP_FILTER_RZERO_BYPASS_EN else 0)).

(** The first channel loop of [ad9523_setup], over [pdata->channels]
    from the index [i] on: [inl ret] is the [return ret] inside the
    loop, [inr active_mask] the loop left with that mask.  The entry
    [st->ad9523_channels[i]] that the loop fills in is read by no
    function of the driver; the array has [AD9523_NUM_CHAN] entries. *)
Fixpoint setup_channels (i : Z) (channels : list ad9523_channel_spec) (active_mask : Z)
    : drv bus (Z + Z) :=
  match channels with
  | [] => mret (inr active_mask)
  | chan :: channels' =>
      if channel_num chan <? AD9523_NUM_CHAN then
        let active_mask := Z.lor active_mask (Z.shiftl 1 (channel_num chan)) in
        ret ← ad9523_write (AD9523_CHANNEL_CLOCK_DIST (channel_num chan))
                (channel_clock_dist chan);
        if ret <? 0 then mret (inl ret)
        else
          ret ← ad9523_vco_out_map (channel_num chan)
                  (if use_alt_clock_src chan then 1 else 0);
          if ret <? 0 then mret (inl ret)
          else if AD9523_NUM_CHAN <=? i then fault
          else setup_channels (i + 1) channels' active_mask
      else setup_channels (i + 1) channels' active_mask
  end.

(** [for_each_clear_bit(i, &active_mask, AD9523_NUM_CHAN)] with its
    body, over the bit numbers [bits] in turn: [Some ret] is the
    [return ret] inside the loop, [None] the loop left. *)
Fixpoint setup_unused (bits : list Z) (active_mask : Z) : drv bus (option Z) :=
  match bits with
  | [] => mret None
  | i :: bits' =>
      if Z.testbit active_mask i then setup_unused bits' active_mask
      else
        ret ← ad9523_write (AD9523_CHANNEL_CLOCK_DIST i)
                (Z.lor (AD9523_CLK_DIST_DRIVER_MODE TRISTATE) AD9523_CLK_DIST_PWR_DOWN_EN);
        if ret <? 0 then mret (Some ret)
        else setup_unused bits' active_mask
  end.

(** The two channel loops of [ad9523_setup] one after the other. *)
Definition setup_outputs (channels : list ad9523_channel_spec) : drv bus (option Z) :=
  r ← setup_channels 0 channels 0;
  match r with
  | inl ret => mret (Some ret)
  | inr active_mask => setup_unused (seqZ 0 AD9523_NUM_CHAN) active_mask
  end.

End Setup.

(** A device tree that gives [adi,pll2-m1-freq] and no other property. *)
Definition dt_m1_freq (freq : Z) (name : string) (x : Z) : Z :=
  if String.eqb name "adi,pll2-m1-freq" then freq else x.

(** * Properties *)

(** ** The PLL2 divider solver *)

Lemma outcome_bind_Done {A B} (f : A -> outcome B) (m : outcome A) (b : B) :
  m ≫= f = Done b -> exists a, m = Done a /\ f a = Done b.
Proof. destruct m as [a| |]; simpl; intros H; try discriminate. by exists a. Qed.

Lemma udiv_Done a b q : udiv a b = Done q -> b <> 0 /\ q = a / b.
Proof.
  unfold udiv. destruct (Z.eqb_spec b 0); intros H; [discriminate|].
  by inversion H.
Qed.

Lemma udiv_nonzero a b : b <> 0 -> udiv a b = Done (a / b).
Proof. unfold udiv. by destruct (Z.eqb_spec b 0). Qed.

Lemma vco_range_test v :
  (AD9523_VCO_FREQ_MIN <=? v) && (AD9523_VCO_FREQ_MAX >=? v) = true <-> vco_in_range v.
Proof. unfold vco_in_range. rewrite andb_true_iff, Z.leb_le, Z.geb_le. tauto. Qed.

Lemma vco_range_test_false v :
  (AD9523_VCO_FREQ_MIN <=? v) && (AD9523_VCO_FREQ_MAX >=? v) = false <-> ~ vco_in_range v.
Proof. rewrite <- vco_range_test. by destruct (_ && _). Qed.

Ltac vco_cases :=
  cbn [vco_search];
  change (3 <=? 5) with true; change (3 + 1) with 4;
  change (4 <=? 5) with true; change (4 + 1) with 5;
  change (5 <=? 5) with true; change (5 + 1 <=? 5) with false; cbv iota.

Ltac case_if :=
  match goal with
  | |- context [if ?b then _ else _] => destruct b eqn:?
  end.

Ltac vco_range_hyps :=
  repeat match goal with
         | H : (_ <=? _) && (_ >=? _) = true |- _ => apply vco_range_test in H
         | H : (_ <=? _) && (_ >=? _) = false |- _ => apply vco_range_test_false in H
         end.

(** The multiplier search leaves the loop with the least multiplier among
    3, 4, 5 whose product is in the VCO range, or with 6. *)
Lemma vco_search_Done fuel m_freq v0 m vco :
  vco_search fuel m_freq 3 v0 = Done (m, vco) ->
  (3 <= m <= 5 /\ vco = u32 (m_freq * m) /\ vco_in_range vco /\
      forall k, 3 <= k < m -> ~ vco_in_range (u32 (m_freq * k)))
  \/ (m = 6 /\ forall k, 3 <= k <= 5 -> ~ vco_in_range (u32 (m_freq * k))).
Proof.
  destruct fuel as [|[|[|[|fuel]]]]; vco_cases; repeat case_if;
    try discriminate; intros [= <- <-]; vco_range_hyps.
  all: unfold vco_in_range in *.
  all: try (left; repeat split; try assumption; try reflexivity; try lia;
            intros k Hk; first [exfalso; lia |
              assert (k = 3 \/ k = 4) as [-> | ->] by lia;
              first [assumption | exfalso; lia]]).
  right; split; [reflexivity|]. intros k Hk.
  assert (k = 3 \/ k = 4 \/ k = 5) as [-> | [-> | ->]] by lia; assumption.
Qed.

Lemma vco_search_total fuel m_freq v0 :
  (4 <= fuel)%nat -> exists m vco, vco_search fuel m_freq 3 v0 = Done (m, vco).
Proof.
  intros Hf. destruct fuel as [|[|[|[|fuel]]]]; try lia. vco_cases.
  repeat case_if; by eexists _, _.
Qed.

Lemma valid_div_spec d :
  ad9523_pll2_valid_div d = true <->
  16 <= d /\ d <> 18 /\ d <> 19 /\ d <> 23 /\ d <> 27.
Proof.
  unfold ad9523_pll2_valid_div.
  destruct (Z.ltb_spec d 16); [split; [discriminate | lia]|].
  destruct (Z.eqb_spec d 18), (Z.eqb_spec d 19), (Z.eqb_spec d 23),
    (Z.eqb_spec d 27); simpl; split; try discriminate; try lia; done.
Qed.

Lemma u32_small x : 0 <= x < 2 ^ 32 -> u32 x = x.
Proof. apply Z.mod_small. Qed.

Lemma ulong_small x : 0 <= x < 2 ^ 64 -> ulong x = x.
Proof. apply Z.mod_small. Qed.

Lemma u32_range x : 0 <= u32 x < 2 ^ 32.
Proof. apply Z.mod_pos_bound. lia. Qed.

(** The loop is left after at most [j] doublings once [n2[0] * 2^j] is at
    least [2^15] and [fpfd] is below [2^17 * 2^j]: by then [fpfd] is under
    the limit and the doubled divider is a valid one. *)
Lemma pfd_loop_spec (j : nat) : forall fuel fpfd n r,
  (j < fuel)%nat ->
  2 ^ 15 <= n * 2 ^ Z.of_nat j < 2 ^ 23 ->
  0 <= fpfd < 2 ^ 17 * 2 ^ Z.of_nat j ->
  exists k r', 0 <= k <= Z.of_nat j /\
    pfd_loop fuel fpfd n r = Done (fpfd / 2 ^ k, n * 2 ^ k, r') /\
    fpfd / 2 ^ k <= 259000 /\
    ad9523_pll2_valid_div (n * 2 ^ k) = true /\
    (0 <= r -> r * 2 ^ Z.of_nat j < 2 ^ 64 -> r' = r * 2 ^ k).
Proof.
  induction j as [|j IH]; intros fuel fpfd n r Hfuel Hn Hf.
  - destruct fuel as [|fuel]; [lia|]. cbn [pfd_loop].
    change (2 ^ Z.of_nat 0) with 1 in *.
    rewrite u32_small by lia.
    assert (ad9523_pll2_valid_div n = true) as Hv by (apply valid_div_spec; lia).
    rewrite Hv. destruct (Z.gtb_spec fpfd 259000); [lia|]. cbn [negb orb].
    exists 0, r. change (2 ^ 0) with 1. rewrite Z.div_1_r, Z.mul_1_r.
    repeat split; try done; try lia.
  - destruct fuel as [|fuel]; [lia|]. cbn [pfd_loop].
    rewrite Nat2Z.inj_succ, Z.pow_succ_r in Hn, Hf by lia.
    assert (1 <= 2 ^ Z.of_nat j) as Hp by (apply Z.pow_le_mono_r with (b := 0); lia).
    assert (0 < n) as Hn0 by nia.
    rewrite u32_small by nia.
    destruct ((fpfd >? 259000) || negb (ad9523_pll2_valid_div n)) eqn:Hc.
    + rewrite ulong_small by nia.
      destruct (IH fuel (fpfd / 2) (n * 2) (ulong (r * 2))) as (k & r' & Hk & Hrun & Hlim & Hval & Hr).
      * lia.
      * lia.
      * split; [apply Z.div_pos; lia|]. apply Z.div_lt_upper_bound; lia.
      * exists (k + 1), r'.
        rewrite Z.pow_add_r, Z.pow_1_r by lia.
        rewrite Z.div_div in Hrun, Hlim by lia.
        rewrite (Z.mul_comm (2 ^ k) 2).
        replace (n * (2 * 2 ^ k)) with (n * 2 * 2 ^ k) by ring.
        repeat split; try done; try lia.
        intros Hr0 Hr1. rewrite Nat2Z.inj_succ, Z.pow_succ_r in Hr1 by lia.
        rewrite ulong_small in Hr by nia. rewrite Hr by nia. ring.
    + apply orb_false_iff in Hc as [Hc1 Hc2]. apply negb_false_iff in Hc2.
      exists 0, r. change (2 ^ 0) with 1. rewrite Z.div_1_r, Z.mul_1_r.
      destruct (Z.gtb_spec fpfd 259000); [done|].
      repeat split; try done; try lia.
Qed.

Lemma pfd_loop_terminates fuel fpfd n r :
  (16 <= fuel)%nat -> 1 <= n <= 255 -> 0 <= fpfd < 2 ^ 32 ->
  exists k r', 0 <= k <= 15 /\
    pfd_loop fuel fpfd n r = Done (fpfd / 2 ^ k, n * 2 ^ k, r') /\
    fpfd / 2 ^ k <= 259000 /\
    ad9523_pll2_valid_div (n * 2 ^ k) = true /\
    (0 <= r <= 31 -> r' = r * 2 ^ k).
Proof.
  intros Hfuel Hn Hf.
  destruct (pfd_loop_spec 15 fuel fpfd n r) as (k & r' & Hk & Hrun & Hlim & Hval & Hr).
  - lia.
  - change (2 ^ Z.of_nat 15) with 32768. lia.
  - change (2 ^ Z.of_nat 15) with 32768. lia.
  - exists k, r'. change (Z.of_nat 15) with 15 in *.
    change (2 ^ 15) with 32768 in Hr. repeat split; try done; lia.
Qed.

Lemma pfd_loop_fuel_mono fuel : forall fuel' fpfd n r res,
  pfd_loop fuel fpfd n r = Done res -> (fuel <= fuel')%nat ->
  pfd_loop fuel' fpfd n r = Done res.
Proof.
  induction fuel as [|fuel IH]; intros fuel' fpfd n r res H Hle; [discriminate|].
  destruct fuel' as [|fuel']; [lia|]. cbn [pfd_loop] in *.
  revert H. case_if; [|done]. intros H. apply IH; [done|lia].
Qed.

(** A run of the loop that has returned did at most 15 doublings, none of
    which wrapped, and ends on a valid divider. *)
Lemma pfd_loop_Done fuel fpfd n r f N R :
  1 <= n <= 255 -> 0 <= fpfd < 2 ^ 32 ->
  pfd_loop fuel fpfd n r = Done (f, N, R) ->
  exists k, 0 <= k <= 15 /\ f = fpfd / 2 ^ k /\ N = n * 2 ^ k /\
    f <= 259000 /\ ad9523_pll2_valid_div N = true /\
    (0 <= r <= 31 -> R = r * 2 ^ k).
Proof.
  intros Hn Hf Hrun.
  apply pfd_loop_fuel_mono with (fuel' := (fuel + 16)%nat) in Hrun; [|lia].
  destruct (pfd_loop_terminates (fuel + 16) fpfd n r) as (k & r' & Hk & E & ? & ? & ?);
    try done; try lia.
  rewrite E in Hrun. injection Hrun as <- <- <-. by exists k.
Qed.

Section SolverProperties.

Variable rational_best_approximation : Z -> Z -> Z -> Z -> Z * Z.

Lemma doubler_choice_Done vco vcxo n0 r0 n r dbl :
  doubler_choice rational_best_approximation vco vcxo n0 r0 = Done (n, r, dbl) ->
  n <> 0 /\ r <> 0 /\
  ((n, r) = (n0, r0) \/ (n, r) = rational_best_approximation vco (u32 (vcxo * 2)) 255 31).
Proof.
  unfold doubler_choice. destruct (rational_best_approximation vco (u32 (vcxo * 2)) 255 31) as [n1 r1].
  intros H.
  apply outcome_bind_Done in H as (q0 & Hq0 & H). apply udiv_Done in Hq0 as [? _].
  apply outcome_bind_Done in H as (x0 & Hx0 & H). apply udiv_Done in Hx0 as [? _].
  apply outcome_bind_Done in H as (q1 & Hq1 & H). apply udiv_Done in Hq1 as [? _].
  apply outcome_bind_Done in H as (x1 & Hx1 & H). apply udiv_Done in Hx1 as [? _].
  revert H; case_if; intros H; inversion H; subst; auto.
Qed.

Lemma pll2_ratio_Done vco vcxo n r dbl :
  vco <> 0 ->
  pll2_ratio rational_best_approximation vco vcxo = Done (n, r, dbl) ->
  n <> 0 /\ r <> 0 /\
  ((n, r) = rational_best_approximation vco vcxo 255 31 \/ (n, r) = rational_best_approximation vco (u32 (vcxo * 2)) 255 31).
Proof.
  intros Hvco. unfold pll2_ratio. destruct (rational_best_approximation vco vcxo 255 31) as [n0 r0].
  intros H. apply outcome_bind_Done in H as (back & Hback & H).
  apply udiv_Done in Hback as [Hr0 ->].
  destruct (Z.eqb_spec vco (ulong (vcxo * n0) / r0)) as [E|E]; cbn [negb] in H.
  - injection H as <- <- <-. repeat split; auto.
    intros ->. rewrite Z.mul_0_r in E. change (ulong 0) with 0 in E.
    rewrite Z.div_0_l in E by done. done.
  - apply doubler_choice_Done in H as (? & ? & [? | ?]); auto.
Qed.

Lemma pll2_ratio_exact vco vcxo n r :
  rational_best_approximation vco vcxo 255 31 = (n, r) -> r <> 0 -> ulong (vcxo * n) / r = vco ->
  pll2_ratio rational_best_approximation vco vcxo = Done (n, r, false).
Proof.
  intros E Hr Hb. unfold pll2_ratio. rewrite E, udiv_nonzero by done.
  cbn. by rewrite Hb, Z.eqb_refl.
Qed.

(** What a return from the solver says about its intermediate values. *)
Lemma calc_dividers_Done fuel vcxo m1 m2 pdata ret p' :
  ad9523_calc_dividers rational_best_approximation fuel vcxo m1 m2 pdata = Done (ret, p') ->
  exists m vco,
    vco_search fuel (if negb (m1 / 1000 =? 0) then m1 / 1000 else m2 / 1000) 3 0
      = Done (m, vco) /\
    ((ret = - EINVAL /\ p' = pdata /\
      (m = 6 \/ vco_dividers (m1 / 1000) (m2 / 1000) m vco = None))
     \/
     (ret = 0 /\ m <> 6 /\
      exists d1 d2 n r dbl q f N R,
        vco_dividers (m1 / 1000) (m2 / 1000) m vco = Some (d1, d2) /\
        pll2_ratio rational_best_approximation vco (vcxo / 1000) = Done (n, r, dbl) /\
        udiv (u32 (vcxo / 1000 * (if dbl then 2 else 1))) r = Done q /\
        pfd_loop fuel (u32 q) n r = Done (f, N, R) /\
        p' = {| pll2_ndiv_a_cnt := N mod 4; pll2_ndiv_b_cnt := N / 4;
                pll2_freq_doubler_en := dbl; pll2_r2_div := R;
                pll2_vco_div_m1 := d1; pll2_vco_div_m2 := d2 |})).
Proof.
  unfold ad9523_calc_dividers. intros H.
  apply outcome_bind_Done in H as ([m vco] & Hs & H).
  exists m, vco. split; [done|].
  destruct (Z.eqb_spec m 6) as [->|Hm].
  { inversion H; subst. left; auto. }
  destruct (vco_dividers _ _ _ _) as [[d1 d2]|] eqn:Hd.
  2:{ inversion H; subst. left; auto. }
  apply outcome_bind_Done in H as ([[n r] dbl] & Hratio & H).
  apply outcome_bind_Done in H as (q & Hq & H).
  apply outcome_bind_Done in H as ([[f N] R] & Hloop & H).
  inversion H; subst. right. repeat split; try done.
  by exists d1, d2, n, r, dbl, q, f, N, R.
Qed.

Lemma doubler_choice_returns vco vcxo n0 r0 :
  doubler_choice rational_best_approximation vco vcxo n0 r0 <> OutOfFuel.
Proof.
  unfold doubler_choice.
  destruct (rational_best_approximation vco (u32 (vcxo * 2)) 255 31) as [n1 r1].
  unfold udiv. repeat (case_if; cbn; try done).
Qed.

Lemma pll2_ratio_returns vco vcxo :
  pll2_ratio rational_best_approximation vco vcxo <> OutOfFuel.
Proof.
  unfold pll2_ratio.
  destruct (rational_best_approximation vco vcxo 255 31) as [n0 r0].
  unfold udiv at 1. case_if; cbn; [done|].
  case_if; [apply doubler_choice_returns | done].
Qed.


Section Contract.

(** The approximator keeps its numerator within the bound it is given. *)
Hypothesis numerator_bounded : forall num den,
  0 <= (rational_best_approximation num den 255 31).1 <= 255.

Lemma pll2_ratio_numerator vco vcxo n r dbl :
  vco <> 0 ->
  pll2_ratio rational_best_approximation vco vcxo = Done (n, r, dbl) ->
  1 <= n <= 255 /\ r <> 0.
Proof.
  intros Hvco H.
  apply (pll2_ratio_Done _ _ _ _ _ Hvco) in H as (Hn & Hr & [E | E]).
  - pose proof (numerator_bounded vco vcxo) as Hb. rewrite <- E in Hb.
    cbn in Hb. lia.
  - pose proof (numerator_bounded vco (u32 (vcxo * 2))) as Hb. rewrite <- E in Hb.
    cbn in Hb. lia.
Qed.

(** C9. Whatever the input, the loop that halves [fpfd] and doubles
    [n2[0]] and [r2[0]] is left after at most 15 rounds: with fuel for
    16 evaluations of its condition the solver never runs out of fuel. *)
Theorem pfd_loop_is_left fuel vcxo m1 m2 pdata :
  (16 <= fuel)%nat ->
  ad9523_calc_dividers rational_best_approximation fuel vcxo m1 m2 pdata
    <> OutOfFuel.
Proof.
  intros Hfuel. unfold ad9523_calc_dividers.
  set (m_freq := if negb (m1 / 1000 =? 0) then m1 / 1000 else m2 / 1000).
  destruct (vco_search_total fuel m_freq 0) as (m & vco & Hs); [lia|].
  rewrite Hs. cbn. destruct (Z.eqb_spec m 6) as [|Hm6]; [done|].
  destruct (vco_search_Done _ _ _ _ _ Hs) as [(Hm & _ & Hin & _) | [? _]]; [|done].
  destruct (vco_dividers _ _ _ _) as [[d1 d2]|]; [|done].
  pose proof (pll2_ratio_returns vco (vcxo / 1000)) as Hret.
  destruct (pll2_ratio _ _ _) as [[[n r] dbl]| |] eqn:Hratio; [|done..]. cbn.
  apply pll2_ratio_numerator in Hratio as [Hn Hr].
  2:{ unfold vco_in_range, AD9523_VCO_FREQ_MIN in Hin. lia. }
  rewrite udiv_nonzero by done. cbn.
  destruct (pfd_loop_terminates fuel
              (u32 (u32 (vcxo / 1000 * (if dbl then 2 else 1)) / r)) n r)
    as (k & r' & _ & E & _); [lia | done | apply u32_range |].
  by rewrite E.
Qed.

(** C2, as the solver has it.  The divider that is kept clear of the
    values below 16 and of 18, 19, 23 and 27 is the feedback divider
    [N = 4 * B + A] of the emitted plan. *)
Theorem emitted_feedback_divider_valid fuel vcxo m1 m2 pdata p' :
  ad9523_calc_dividers rational_best_approximation fuel vcxo m1 m2 pdata
    = Done (0, p') ->
  ad9523_pll2_valid_div
    (AD9523_PLL2_FB_NDIV (pll2_ndiv_a_cnt p') (pll2_ndiv_b_cnt p')) = true.
Proof.
  intros Hrun. apply calc_dividers_Done in Hrun as (m & vco & Hs & Hcase).
  destruct Hcase as [(Hret & _) | (_ & Hm6 & Hok)]; [done|].
  destruct Hok as (d1 & d2 & n & r & dbl & q & f & N & R & _ & Hratio & _ & Hloop & ->).
  destruct (vco_search_Done _ _ _ _ _ Hs) as [(Hm & _ & Hin & _) | [? _]]; [|done].
  apply pll2_ratio_numerator in Hratio as [Hn Hr].
  2:{ unfold vco_in_range, AD9523_VCO_FREQ_MIN in Hin. lia. }
  apply pfd_loop_Done in Hloop as (k & _ & _ & _ & _ & Hv & _);
    [|done|apply u32_range].
  cbn [pll2_ndiv_a_cnt pll2_ndiv_b_cnt]. unfold AD9523_PLL2_FB_NDIV.
  by rewrite <- Z.div_mod by lia.
Qed.

End Contract.

Lemma pll2_ratio_total vco vcxo :
  usable_fractions rational_best_approximation vco vcxo ->
  exists n r dbl,
    pll2_ratio rational_best_approximation vco vcxo = Done (n, r, dbl) /\
    1 <= n <= 255 /\ r <> 0.
Proof.
  unfold usable_fractions, pll2_ratio, doubler_choice. cbn zeta.
  destruct (rational_best_approximation vco vcxo 255 31) as [n0 r0].
  destruct (rational_best_approximation vco (u32 (vcxo * 2)) 255 31) as [n1 r1].
  cbn [fst snd]. intros [[Hn0 Hr0] [Hn1 Hr1]].
  rewrite (udiv_nonzero (ulong (vcxo * n0)) r0), (udiv_nonzero vco n0),
    (udiv_nonzero vcxo r0), (udiv_nonzero vco n1), (udiv_nonzero vcxo r1) by lia.
  cbn. repeat case_if; by eexists _, _, _.
Qed.

(** C3, as the solver has it.  With both targets non-zero in kHz the
    solver takes [m2 = vco_freq / m2_freq] and returns [-EINVAL] unless
    [m2] is 3, 4 or 5 and the remainder of that division is at most 1.
    A quotient of 3, 4 or 5 with a remainder of 0 or 1 is accepted: once
    the multiplier search has succeeded the solver never returns an
    error then, and with usable fractions from the approximator it
    returns 0 and a plan with that [m2]. *)
Theorem secondary_divider_check fuel vcxo m1 m2 pdata m vco :
  m1 / 1000 <> 0 -> m2 / 1000 <> 0 ->
  vco_search fuel (m1 / 1000) 3 0 = Done (m, vco) ->
  let accepted := 3 <= vco / (m2 / 1000) <= 5 /\ vco mod (m2 / 1000) <= 1 in
  let run := ad9523_calc_dividers rational_best_approximation fuel vcxo m1 m2 pdata in
  (~ accepted -> run = Done (- EINVAL, pdata))
  /\
  (forall p', run = Done (0, p') ->
     pll2_vco_div_m2 p' = vco / (m2 / 1000) /\ accepted)
  /\
  (m <> 6 -> accepted ->
   forall ret p', run = Done (ret, p') ->
     ret = 0 /\ pll2_vco_div_m2 p' = vco / (m2 / 1000))
  /\
  (m <> 6 -> accepted -> (16 <= fuel)%nat ->
   usable_fractions rational_best_approximation vco (vcxo / 1000) ->
   exists p', run = Done (0, p') /\ pll2_vco_div_m2 p' = vco / (m2 / 1000)).
Proof.
  intros Hm1 Hm2 Hs accepted run. subst accepted run.
  assert (vco_dividers (m1 / 1000) (m2 / 1000) m vco =
          if (vco / (m2 / 1000) <? 3) || (vco / (m2 / 1000) >? 5)
             || (vco mod (m2 / 1000) >? 1)
          then None else Some (m, vco / (m2 / 1000))) as Hd.
  { unfold vco_dividers.
    destruct (Z.eqb_spec (m1 / 1000) 0); [done|].
    by destruct (Z.eqb_spec (m2 / 1000) 0). }
  assert ((if negb (m1 / 1000 =? 0) then m1 / 1000 else m2 / 1000) = m1 / 1000) as Hp.
  { by destruct (Z.eqb_spec (m1 / 1000) 0). }
  assert (3 <= vco / (m2 / 1000) <= 5 /\ vco mod (m2 / 1000) <= 1 ->
          vco_dividers (m1 / 1000) (m2 / 1000) m vco = Some (m, vco / (m2 / 1000)))
    as Hacc.
  { intros Hok. rewrite Hd.
    destruct (Z.ltb_spec (vco / (m2 / 1000)) 3), (Z.gtb_spec (vco / (m2 / 1000)) 5),
      (Z.gtb_spec (vco mod (m2 / 1000)) 1); cbn; try done; lia. }
  split; [|split; [|split]].
  - intros Hbad. unfold ad9523_calc_dividers. rewrite Hp, Hs. cbn.
    case_if; [done|]. rewrite Hd.
    destruct (Z.ltb_spec (vco / (m2 / 1000)) 3), (Z.gtb_spec (vco / (m2 / 1000)) 5),
      (Z.gtb_spec (vco mod (m2 / 1000)) 1); cbn; try done.
    exfalso. apply Hbad. lia.
  - intros p' Hrun. apply calc_dividers_Done in Hrun as (m' & vco' & Hs' & Hcase).
    rewrite Hp, Hs in Hs'. injection Hs' as <- <-.
    destruct Hcase as [(Hret & _) | (_ & _ & Hok)]; [done|].
    destruct Hok as (d1 & d2 & n & r & dbl & q & f & N & R & Hd' & _ & _ & _ & ->).
    rewrite Hd in Hd'. cbn [pll2_vco_div_m2].
    destruct (Z.ltb_spec (vco / (m2 / 1000)) 3), (Z.gtb_spec (vco / (m2 / 1000)) 5),
      (Z.gtb_spec (vco mod (m2 / 1000)) 1); cbn in Hd'; try done.
    injection Hd' as <- <-. lia.
  - intros Hm6 Hok ret p' Hrun.
    apply calc_dividers_Done in Hrun as (m' & vco' & Hs' & Hcase).
    rewrite Hp, Hs in Hs'. injection Hs' as <- <-.
    rewrite (Hacc Hok) in Hcase.
    destruct Hcase as [(_ & _ & [? | ?]) | (-> & _ & Hrest)]; [done | done |].
    destruct Hrest as (d1 & d2 & n & r & dbl & q & f & N & R & Hd' & _ & _ & _ & ->).
    injection Hd' as <- <-. done.
  - intros Hm6 Hok Hfuel Husable.
    destruct (pll2_ratio_total vco (vcxo / 1000) Husable) as (n & r & dbl & Hratio & Hn & Hr).
    destruct (pfd_loop_terminates fuel
                (u32 (u32 (vcxo / 1000 * (if dbl then 2 else 1)) / r)) n r)
      as (k & r' & _ & E & _); [lia | done | apply u32_range |].
    eexists. unfold ad9523_calc_dividers. rewrite Hp, Hs. cbn.
    destruct (Z.eqb_spec m 6); [done|]. rewrite (Hacc Hok), Hratio. cbn.
    rewrite udiv_nonzero by done. cbn. rewrite E. cbn. done.
Qed.

Lemma pll2_ratio_kept vco vcxo n r dbl :
  pll2_ratio rational_best_approximation vco vcxo = Done (n, r, dbl) ->
  (n, r) = if dbl then rational_best_approximation vco (u32 (vcxo * 2)) 255 31
           else rational_best_approximation vco vcxo 255 31.
Proof.
  unfold pll2_ratio, doubler_choice.
  destruct (rational_best_approximation vco vcxo 255 31) as [n0 r0].
  destruct (rational_best_approximation vco (u32 (vcxo * 2)) 255 31) as [n1 r1].
  intros H. apply outcome_bind_Done in H as (back & _ & H).
  revert H. case_if; [|by intros [= <- <- <-]]. intros H.
  apply outcome_bind_Done in H as (q0 & _ & H).
  apply outcome_bind_Done in H as (x0 & _ & H).
  apply outcome_bind_Done in H as (q1 & _ & H).
  apply outcome_bind_Done in H as (x1 & _ & H).
  revert H. case_if; by intros [= <- <- <-].
Qed.

(** The plan carries the fraction [n/r] that the solver kept, both
    doubled as often as the last loop ran, and the recomputation of
    [ad9523_setup] gives back the selected VCO frequency when that
    fraction is exact for a whole number of kHz. *)
Lemma plan_recomputes fuel vcxo m1 m2 pdata p' m vco :
  vcxo mod 1000 = 0 ->
  vco_search fuel (if negb (m1 / 1000 =? 0) then m1 / 1000 else m2 / 1000) 3 0
    = Done (m, vco) ->
  ad9523_calc_dividers rational_best_approximation fuel vcxo m1 m2 pdata
    = Done (0, p') ->
  vco_in_range vco /\
  exists n r,
    pll2_ratio rational_best_approximation vco (vcxo / 1000)
      = Done (n, r, pll2_freq_doubler_en p') /\
    (0 <= n <= 255 -> 0 < r <= 31 ->
     vco * r = vcxo / 1000 * (if pll2_freq_doubler_en p' then 2 else 1) * n ->
     setup_vco_freq vcxo p' = Done (1000 * vco)).
Proof.
  intros Hkhz Hs Hrun.
  apply calc_dividers_Done in Hrun as (m' & vco' & Hs' & Hcase).
  rewrite Hs in Hs'. injection Hs' as <- <-.
  destruct Hcase as [(Hret & _) | (_ & Hm6 & Hok)]; [done|].
  destruct Hok as (d1 & d2 & n & r & dbl & q & f & N & R & _ & Hratio & _ & Hloop & ->).
  destruct (vco_search_Done _ _ _ _ _ Hs) as [(Hm & _ & Hin & _) | [? _]]; [|done].
  split; [done|]. exists n, r. cbn [pll2_freq_doubler_en]. split; [done|].
  intros Hn Hr Hexact.
  pose proof Hin as Hin'. unfold vco_in_range, AD9523_VCO_FREQ_MIN, AD9523_VCO_FREQ_MAX in Hin'.
  assert (1 <= n) as Hn1.
  { destruct (Z.eq_dec n 0) as [->|]; [|lia]. rewrite Z.mul_0_r in Hexact. nia. }
  apply pfd_loop_Done in Hloop as (k & Hk & _ & -> & _ & _ & HR);
    [|lia|apply u32_range].
  rewrite HR by lia. clear HR.
  assert (1 <= 2 ^ k <= 32768) as HP.
  { split; [apply (Z.pow_le_mono_r 2 0 k); lia | apply (Z.pow_le_mono_r 2 k 15); lia]. }
  set (P := 2 ^ k) in *.
  unfold setup_vco_freq. cbn [pll2_freq_doubler_en pll2_ndiv_a_cnt pll2_ndiv_b_cnt pll2_r2_div].
  unfold AD9523_PLL2_FB_NDIV. rewrite <- Z.div_mod by lia.
  rewrite u32_small by (change (2 ^ 32) with 4294967296; nia).
  assert (vcxo * (if dbl then 2 else 1) * (n * P) = 1000 * vco * (r * P)) as ->.
  { rewrite (Z.div_mod vcxo 1000), Hkhz by lia.
    transitivity (1000 * (vcxo / 1000 * (if dbl then 2 else 1) * n) * P); [ring|].
    rewrite <- Hexact. ring. }
  rewrite Z.mod_small by (change (2 ^ 64) with 18446744073709551616; nia).
  rewrite udiv_nonzero by nia. by rewrite Z.div_mul by nia.
Qed.

(** C1, as the solver has it.  Take the fraction [n/r] that the
    approximator returned for the configuration of the emitted plan:
    for the doubled oscillator frequency when the plan enables the
    doubler, for the oscillator frequency otherwise.  When the
    oscillator frequency is a whole number of kHz and [n/r] is exactly
    the ratio of the selected VCO frequency to that frequency (in kHz),
    the VCO frequency that [ad9523_setup] recomputes from the plan is
    the selected one and lies in [2940000, 3100000] kHz. *)
Theorem recomputed_vco_in_range fuel vcxo m1 m2 pdata p' m vco n r :
  vcxo mod 1000 = 0 ->
  vco_search fuel (if negb (m1 / 1000 =? 0) then m1 / 1000 else m2 / 1000) 3 0
    = Done (m, vco) ->
  ad9523_calc_dividers rational_best_approximation fuel vcxo m1 m2 pdata
    = Done (0, p') ->
  (if pll2_freq_doubler_en p'
   then rational_best_approximation vco (u32 (vcxo / 1000 * 2)) 255 31
   else rational_best_approximation vco (vcxo / 1000) 255 31) = (n, r) ->
  0 <= n <= 255 -> 0 < r <= 31 ->
  vco * r = vcxo / 1000 * (if pll2_freq_doubler_en p' then 2 else 1) * n ->
  exists f, setup_vco_freq vcxo p' = Done f /\ f / 1000 = vco /\
            vco_in_range (f / 1000).
Proof.
  intros Hkhz Hs Hrun Happrox Hn Hr Hexact.
  destruct (plan_recomputes _ _ _ _ _ _ _ _ Hkhz Hs Hrun) as (Hin & n' & r' & Hratio & Hf).
  apply pll2_ratio_kept in Hratio. rewrite Happrox in Hratio. injection Hratio as -> ->.
  exists (1000 * vco). split; [by apply Hf|].
  rewrite (Z.mul_comm 1000 vco), Z.div_mul by lia. done.
Qed.

End SolverProperties.

(** ** The approximator as specified meets the contracts used above *)

Lemma fold_left_invariant {A B} (P : A -> Prop) (f : A -> B -> A) (l : list B) (a : A) :
  P a -> (forall a b, P a -> b ∈ l -> P (f a b)) -> P (fold_left f l a).
Proof.
  revert a. induction l as [|b l IH]; intros a Ha Hf; [done|].
  cbn. apply IH.
  - apply Hf; [done | by left].
  - intros a' b' Ha' Hb'. apply Hf; [done | by right].
Qed.

Lemma approx_candidates_bounds max_num max_den c :
  c ∈ approx_candidates max_num max_den ->
  0 <= c.1 <= max_num /\ 1 <= c.2 <= max_den.
Proof.
  unfold approx_candidates. rewrite list_elem_of_bind.
  intros (d & Hc & Hd). apply elem_of_seqZ in Hd.
  apply list_elem_of_bind in Hc as (n & Hc & Hn). apply elem_of_seqZ in Hn.
  apply list_elem_of_singleton in Hc as ->. cbn. lia.
Qed.

Lemma approximate_bounds num den max_num max_den :
  0 <= max_num -> 1 <= max_den ->
  0 <= (approximate num den max_num max_den).1 <= max_num /\
  1 <= (approximate num den max_num max_den).2 <= max_den.
Proof.
  intros Hn Hd. unfold approximate. case_if; [cbn; lia|].
  apply (fold_left_invariant (fun c => 0 <= c.1 <= max_num /\ 1 <= c.2 <= max_den)).
  - cbn. lia.
  - intros a b Ha Hb. case_if; [by apply approx_candidates_bounds | done].
Qed.

Lemma approximate_numerator num den : 0 <= (approximate num den 255 31).1 <= 255.
Proof. apply approximate_bounds; lia. Qed.

(** A candidate of zero error, once met, is never replaced by one of
    non-zero error; and it replaces any best so far of non-zero error. *)
Lemma approx_fold_exact num den (l : list (Z * Z)) : forall best,
  0 < best.2 -> (forall c, c ∈ l -> 0 < c.2) ->
  (num * best.2 = best.1 * den \/ exists c, c ∈ l /\ num * c.2 = c.1 * den) ->
  let r := fold_left (fun best c => if approx_closer num den c best then c else best) l best in
  num * r.2 = r.1 * den.
Proof.
  induction l as [|x l IH]; intros best Hbest Hpos Hex; cbn.
  - destruct Hex as [? | (c & Hc & _)]; [done | by apply elem_of_nil in Hc].
  - assert (0 < x.2) as Hx by (apply Hpos; left).
    assert (forall c, c ∈ l -> 0 < c.2) as Hpos' by (intros c Hc; apply Hpos; by right).
    destruct (approx_closer num den x best) eqn:Hcl; unfold approx_closer in Hcl;
      [apply Z.ltb_lt in Hcl as Hlt | apply Z.ltb_ge in Hcl as Hge].
    + apply IH; [done | done |].
      destruct Hex as [Hb | (c & Hc & Hce)].
      * rewrite Hb, Z.sub_diag in Hlt. cbn in Hlt. nia.
      * apply elem_of_cons in Hc as [-> | Hc]; [by left | right; by exists c].
    + apply IH; [done | done |].
      destruct Hex as [Hb | (c & Hc & Hce)]; [by left|].
      apply elem_of_cons in Hc as [-> | Hc]; [|right; by exists c].
      left. rewrite Hce, Z.sub_diag in Hge. cbn in Hge. nia.
Qed.

Lemma approx_candidates_member max_num max_den n d :
  0 <= n <= max_num -> 1 <= d <= max_den -> (n, d) ∈ approx_candidates max_num max_den.
Proof.
  intros Hn Hd. unfold approx_candidates. apply list_elem_of_bind.
  exists d. split; [|apply elem_of_seqZ; lia].
  apply list_elem_of_bind. exists n. split; [by apply list_elem_of_singleton|].
  apply elem_of_seqZ. lia.
Qed.

(** The approximator as specified returns an exact fraction whenever the
    ratio is expressible within the bounds. *)
Lemma approximate_exact num den n d :
  den <> 0 -> 0 <= n <= 255 -> 1 <= d <= 31 -> num * d = n * den ->
  num * (approximate num den 255 31).2 = (approximate num den 255 31).1 * den.
Proof.
  intros Hden Hn Hd Hex. unfold approximate.
  destruct (Z.eqb_spec den 0); [done|].
  apply approx_fold_exact.
  - cbn. lia.
  - intros c Hc. apply approx_candidates_bounds in Hc. lia.
  - right. exists (n, d). split; [by apply approx_candidates_member|done].
Qed.

(** C1 in the words of the design description, for the approximator as
    specified: when the ratio of the selected VCO frequency to the
    oscillator frequency is expressible as [n/d] with [n <= 255] and
    [d <= 31], the recomputed VCO frequency lies in the range. *)
Corollary recomputed_vco_in_range_expressible fuel vcxo m1 m2 pdata p' m vco n d :
  vcxo mod 1000 = 0 ->
  vco_search fuel (if negb (m1 / 1000 =? 0) then m1 / 1000 else m2 / 1000) 3 0
    = Done (m, vco) ->
  0 <= n <= 255 -> 1 <= d <= 31 -> vco * d = n * (vcxo / 1000) ->
  ad9523_calc_dividers approximate fuel vcxo m1 m2 pdata = Done (0, p') ->
  exists f, setup_vco_freq vcxo p' = Done f /\ f / 1000 = vco /\ vco_in_range (f / 1000).
Proof.
  intros Hkhz Hs Hn Hd Hex Hrun.
  destruct (approximate vco (vcxo / 1000) 255 31) as [n' d'] eqn:E.
  pose proof (approximate_bounds vco (vcxo / 1000) 255 31) as Hb. rewrite E in Hb. cbn in Hb.
  assert (vcxo / 1000 <> 0) as Hx.
  { intros Hz. rewrite Hz, Z.mul_0_r in Hex.
    apply calc_dividers_Done in Hrun as (m' & vco' & Hs' & Hcase).
    rewrite Hs in Hs'. injection Hs' as <- <-.
    destruct Hcase as [(Hret & _) | (_ & Hm6 & _)]; [done|].
    destruct (vco_search_Done _ _ _ _ _ Hs) as [(_ & _ & Hin & _) | [? _]]; [|done].
    unfold vco_in_range, AD9523_VCO_FREQ_MIN in Hin. nia. }
  pose proof (approximate_exact vco (vcxo / 1000) n d Hx Hn Hd Hex) as Hexact.
  rewrite E in Hexact. cbn in Hexact.
  destruct (plan_recomputes approximate _ _ _ _ _ _ _ _ Hkhz Hs Hrun)
    as (Hin & n2 & r2 & Hratio & Hf).
  assert (d' <> 0) as Hd' by lia.
  assert (ulong (vcxo / 1000 * n') / d' = vco) as Hback.
  { unfold vco_in_range, AD9523_VCO_FREQ_MIN, AD9523_VCO_FREQ_MAX in Hin.
    replace (vcxo / 1000 * n') with (vco * d') by lia.
    rewrite ulong_small by (change (2 ^ 64) with 18446744073709551616; nia).
    apply Z.div_mul. lia. }
  rewrite (pll2_ratio_exact approximate _ _ _ _ E Hd' Hback) in Hratio.
  injection Hratio as <- <- Hdbl. rewrite <- Hdbl in Hf.
  exists (1000 * vco). split; [apply Hf; lia|].
  rewrite (Z.mul_comm 1000 vco), Z.div_mul by lia. done.
Qed.

(** The oscillator has to be a whole number of kHz for that: the solver
    works on kHz, the recomputation on Hz.  For 100000999 Hz and a target
    of 775 MHz the ratio in kHz is exactly 31, and the recomputed VCO
    frequency is 3100030 kHz. *)
Lemma recomputed_vco_needs_whole_khz :
  ad9523_calc_dividers approximate 16 100000999 775000000 0 pdata_zalloc
    = Done (0, mk_pdata 3 7 false 1 4 3) /\
  approximate 3100000 (100000999 / 1000) 255 31 = (31, 1) /\
  3100000 * 1 = 100000999 / 1000 * 31 /\
  setup_vco_freq 100000999 (mk_pdata 3 7 false 1 4 3) = Done 3100030969 /\
  ~ vco_in_range (3100030969 / 1000).
Proof.
  repeat split; try (vm_compute; reflexivity).
  unfold vco_in_range, AD9523_VCO_FREQ_MAX. change (3100030969 / 1000) with 3100030. lia.
Qed.

(** ** The solver at concrete inputs, with the approximator as specified *)


(** C9 for a 4294.967295 MHz oscillator and a 1 GHz target, where the
    loop doubles twice. *)
Lemma pfd_loop_is_left_witness :
  ad9523_calc_dividers approximate 16 4294967295 1000000000 0 pdata_zalloc <> OutOfFuel.
Proof.
  apply (pfd_loop_is_left approximate approximate_numerator 16); lia.
Defined.

(** C2 as stated fails: for a 122.88 MHz oscillator and a 983.04 MHz target
    the solver succeeds and emits [pll2_r2_div = 1]. *)
Lemma solver_emits_r2_below_16 :
  ad9523_calc_dividers approximate 16 122880000 983040000 0 pdata_zalloc
    = Done (0, mk_pdata 0 6 false 1 3 3) /\
  pll2_r2_div (mk_pdata 0 6 false 1 3 3) < 16.
Proof. split; [vm_compute; reflexivity | cbn; lia]. Qed.

(** The amended C2 at an input where the loop doubles [7/20] to [28/80]. *)
Lemma emitted_feedback_divider_valid_witness :
  ad9523_calc_dividers approximate 16 4294967295 1000000000 0 pdata_zalloc
    = Done (0, mk_pdata 0 7 true 80 3 3) /\
  ad9523_pll2_valid_div (AD9523_PLL2_FB_NDIV 0 7) = true.
Proof.
  assert (ad9523_calc_dividers approximate 16 4294967295 1000000000 0 pdata_zalloc
            = Done (0, mk_pdata 0 7 true 80 3 3)) as Hrun by (vm_compute; reflexivity).
  split; [exact Hrun|].
  exact (emitted_feedback_divider_valid approximate approximate_numerator
           16 4294967295 1000000000 0 pdata_zalloc _ Hrun).
Defined.

(** C3 as stated fails: with targets of 1000.003 MHz and 750.002 MHz the
    division of the VCO frequency 3000009 kHz by 750002 kHz leaves the
    remainder 1, and the solver succeeds with [m2 = 4]. *)
Lemma solver_accepts_remainder_one :
  vco_search 16 (1000003000 / 1000) 3 0 = Done (3, 3000009) /\
  3000009 mod (750002000 / 1000) = 1 /\
  ad9523_calc_dividers approximate 16 100000000 1000003000 750002000 pdata_zalloc
    = Done (0, mk_pdata 2 7 false 1 3 4).
Proof. repeat split; vm_compute; reflexivity. Qed.

(** The amended C3 at the same input: the quotient 4 with the remainder
    1 is accepted, and the solver returns 0 with [m2 = 4]. *)
Lemma secondary_divider_check_witness :
  3000009 mod (750002000 / 1000) = 1 /\
  exists p',
    ad9523_calc_dividers approximate 16 100000000 1000003000 750002000 pdata_zalloc
      = Done (0, p') /\
    pll2_vco_div_m2 p' = 3000009 / (750002000 / 1000).
Proof.
  split; [reflexivity|].
  destruct (secondary_divider_check approximate 16 100000000 1000003000 750002000
              pdata_zalloc 3 3000009) as (_ & _ & _ & Hacc);
    [vm_compute; congruence | vm_compute; congruence | vm_compute; reflexivity |].
  apply Hacc; [lia | repeat split; vm_compute; congruence | lia |].
  unfold usable_fractions. repeat split; vm_compute; congruence.
Defined.

(** C1 as stated fails: for a 5 MHz oscillator and a 1 GHz target the
    solver succeeds, and the VCO frequency recomputed from its plan is
    2550000 kHz. *)
Lemma recomputed_vco_out_of_range :
  ad9523_calc_dividers approximate 16 5000000 1000000000 0 pdata_zalloc
    = Done (0, mk_pdata 3 63 true 1 3 3) /\
  setup_vco_freq 5000000 (mk_pdata 3 63 true 1 3 3) = Done 2550000000 /\
  ~ vco_in_range (2550000000 / 1000).
Proof.
  split; [vm_compute; reflexivity|]. split; [vm_compute; reflexivity|].
  unfold vco_in_range, AD9523_VCO_FREQ_MIN. change (2550000000 / 1000) with 2550000. lia.
Qed.

(** The amended C1 for a 10 MHz oscillator and a 1 GHz target: the ratio
    3000000 / 10000 is beyond the numerator bound, the solver enables
    the doubler, and 3000000 / 20000 is exactly 150 / 1. *)
Lemma recomputed_vco_in_range_witness :
  ad9523_calc_dividers approximate 16 10000000 1000000000 0 pdata_zalloc
    = Done (0, mk_pdata 2 37 true 1 3 3) /\
  exists f, setup_vco_freq 10000000 (mk_pdata 2 37 true 1 3 3) = Done f /\
            f / 1000 = 3000000 /\ vco_in_range (f / 1000).
Proof.
  assert (ad9523_calc_dividers approximate 16 10000000 1000000000 0 pdata_zalloc
            = Done (0, mk_pdata 2 37 true 1 3 3)) as Hrun by (vm_compute; reflexivity).
  split; [exact Hrun|].
  apply (recomputed_vco_in_range approximate 16 10000000 1000000000 0 pdata_zalloc
           (mk_pdata 2 37 true 1 3 3) 3 3000000 150 1);
    [vm_compute; reflexivity | vm_compute; reflexivity | exact Hrun
    | vm_compute; reflexivity | lia | lia | vm_compute; reflexivity].
Defined.

(** The amended C1 without the doubler, for a 122.88 MHz oscillator and
    a 983.04 MHz target: the ratio 2949120 / 122880 is exactly 24 / 1. *)
Lemma recomputed_vco_without_doubler :
  ad9523_calc_dividers approximate 16 122880000 983040000 0 pdata_zalloc
    = Done (0, mk_pdata 0 6 false 1 3 3) /\
  approximate 2949120 (122880000 / 1000) 255 31 = (24, 1) /\
  setup_vco_freq 122880000 (mk_pdata 0 6 false 1 3 3) = Done 2949120000.
Proof. repeat split; vm_compute; reflexivity. Qed.

(** ** The register protocols *)

(** C7 at a failing transport.  The third transfer, the first commit of
    the synchronize sequence, fails with [-EIO]: the sequence goes on with
    the write that clears the bit and the second commit, and returns 0. *)
Theorem sync_discards_first_commit_error :
  exists st',
    ad9523_sync (mock_state (mk_mock ∅ [0; 0; - EIO]) []) = Done (0, st') /\
    trace st' =
      [Rd AD9523_STATUS_SIGNALS 0;
       Wr AD9523_STATUS_SIGNALS AD9523_STATUS_SIGNALS_SYNC_MAN_CTRL 0;
       Wr AD9523_IO_UPDATE AD9523_IO_UPDATE_EN (- EIO);
       Wr AD9523_STATUS_SIGNALS 0 0;
       Wr AD9523_IO_UPDATE AD9523_IO_UPDATE_EN 0].
Proof. vm_compute. eexists. split; reflexivity. Qed.

(** C6 as stated fails: with the transfer flag set at all five polls and a
    clear error readback the store returns 0. *)
Lemma store_eeprom_reports_no_timeout :
  exists st',
    ad9523_store_eeprom 5
      (mock_state (mk_mock {[AD9523_ADDR AD9523_EEPROM_DATA_XFER_STATUS := 1]} []) [])
      = Done (0, st') /\
    trace st' =
      [Wr AD9523_EEPROM_CTRL1 1 0; Wr AD9523_EEPROM_CTRL2 1 0;
       Sleep 20; Rd AD9523_EEPROM_DATA_XFER_STATUS 1;
       Sleep 20; Rd AD9523_EEPROM_DATA_XFER_STATUS 1;
       Sleep 20; Rd AD9523_EEPROM_DATA_XFER_STATUS 1;
       Sleep 20; Rd AD9523_EEPROM_DATA_XFER_STATUS 1;
       Sleep 20; Rd AD9523_EEPROM_DATA_XFER_STATUS 1;
       Wr AD9523_EEPROM_CTRL1 0 0; Rd AD9523_EEPROM_ERROR_READBACK 0].
Proof. vm_compute. eexists. split; reflexivity. Qed.

Section AnyBus.
Context {bus : Type} `{SpiBus bus}.

Lemma ad9523_read_Done addr (st : ad9523_state bus) :
  exists ret b,
    ad9523_read addr st =
      Done (ret, mk_state b (is_enabled st) (vco_out_freq st) (vco_out_map st)
                          (trace st ++ [Rd addr ret])).
Proof.
  unfold ad9523_read.
  destruct (spi_sync_read _ _ _) as [b [ret rx]]. by eexists _, _.
Qed.

Lemma ad9523_write_Done addr val (st : ad9523_state bus) :
  exists ret b,
    ad9523_write addr val st =
      Done (ret, mk_state b (is_enabled st) (vco_out_freq st) (vco_out_map st)
                          (trace st ++ [Wr addr val ret])).
Proof.
  unfold ad9523_write.
  destruct (spi_sync_write _ _ _ _) as [b ret]. by eexists _, _.
Qed.

End AnyBus.

Lemma drv_bind_run {bus A B} (m : drv bus A) (f : A -> drv bus B) st a st' :
  m st = Done (a, st') -> (m ≫= f) st = f a st'.
Proof. unfold mbind, drv_bind. by intros ->. Qed.

Lemma or_return_run {bus} (m : drv bus Z) (k : Z -> drv bus Z) st a st' :
  m st = Done (a, st') ->
  or_return m k st = if a <? 0 then Done (a, st') else k a st'.
Proof.
  intros Hm. unfold or_return. rewrite (drv_bind_run _ _ _ _ _ Hm).
  by destruct (a <? 0).
Qed.

(** *** Bit-level facts *)

Ltac bits :=
  repeat first
    [ rewrite Z.land_spec | rewrite Z.lor_spec | rewrite Z.lnot_spec by lia
    | rewrite Z.shiftr_spec by lia | rewrite Z.shiftl_spec by lia
    | rewrite Z.testbit_ones_nonneg by lia
    | rewrite Z.testbit_0_l ].

(** The instruction word carries the register address in its low 12 bits. *)
Lemma insn_addr c len addr :
  c = AD9523_READ \/ c = AD9523_WRITE ->
  AD9523_ADDR (Z.lor (Z.lor c (AD9523_CNT len)) (AD9523_ADDR addr)) = AD9523_ADDR addr.
Proof.
  intros Hc. unfold AD9523_ADDR, AD9523_CNT. change 0xFFF with (Z.ones 12).
  apply Z.bits_inj'. intros n Hn. bits.
  destruct (Z.ltb_spec n 12); [|by rewrite !andb_false_r].
  rewrite !andb_true_r. rewrite (Z.testbit_neg_r _ (n - 13)) by lia.
  destruct Hc as [-> | ->]; unfold AD9523_READ, AD9523_WRITE; bits.
  - by rewrite (Z.testbit_neg_r _ (n - 15)) by lia.
  - done.
Qed.

(** *** The driver on the register-file peripheral *)

Lemma mock_read_run addr (st : ad9523_state mock_bus) :
  ad9523_read addr st =
    Done (if (next_status (spi st)).1 <? 0 then (next_status (spi st)).1
          else mock_reg (spi st) addr,
          mk_state (mk_mock (regs (spi st)) (next_status (spi st)).2)
                   (is_enabled st) (vco_out_freq st) (vco_out_map st)
                   (trace st ++ [Rd addr (if (next_status (spi st)).1 <? 0
                                          then (next_status (spi st)).1
                                          else mock_reg (spi st) addr)])).
Proof.
  unfold ad9523_read. cbn [spi_sync_read mock_spi].
  destruct (next_status (spi st)) as [c rest]. cbn [fst snd].
  destruct (c <? 0) eqn:Hc; rewrite ?Hc; [done|].
  unfold mock_reg, mock_cell. rewrite insn_addr by auto. done.
Qed.

Lemma mock_write_run addr val (st : ad9523_state mock_bus) :
  ad9523_write addr val st =
    Done (if (next_status (spi st)).1 <? 0 then (next_status (spi st)).1 else 0,
          mk_state
            (mk_mock
               (if (next_status (spi st)).1 <? 0 then regs (spi st)
                else <[AD9523_ADDR addr := u32 val mod 2 ^ (8 * AD9523_TRANSF_LEN addr)]>
                       (regs (spi st)))
               (next_status (spi st)).2)
            (is_enabled st) (vco_out_freq st) (vco_out_map st)
            (trace st ++ [Wr addr val (if (next_status (spi st)).1 <? 0
                                       then (next_status (spi st)).1 else 0)])).
Proof.
  unfold ad9523_write. cbn [spi_sync_write mock_spi].
  destruct (next_status (spi st)) as [c rest]. cbn [fst snd].
  destruct (c <? 0) eqn:Hc; [done|].
  rewrite insn_addr by auto. done.
Qed.

Lemma mock_reg_insert (rg : gmap Z Z) k addr data rest :
  k = AD9523_ADDR addr ->
  mock_reg (mk_mock (<[k := data]> rg) rest) addr =
  Z.land data (Z.shiftr 0xFFFFFF (8 * (3 - AD9523_TRANSF_LEN addr))).
Proof. intros ->. unfold mock_reg, mock_cell. cbn [regs]. by rewrite lookup_insert_eq. Qed.

Lemma mock_reg_insert_ne (rg : gmap Z Z) k addr data rest :
  k <> AD9523_ADDR addr ->
  mock_reg (mk_mock (<[k := data]> rg) rest) addr = mock_reg (mk_mock rg rest) addr.
Proof. intros Hk. unfold mock_reg, mock_cell. cbn [regs]. by rewrite lookup_insert_ne. Qed.

Lemma mock_reg_lt_2_16 b : 0 <= mock_reg b AD9523_EEPROM_CUSTOMER_VERSION_ID < 2 ^ 16.
Proof.
  unfold mock_reg.
  change (Z.shiftr 0xFFFFFF (8 * (3 - AD9523_TRANSF_LEN AD9523_EEPROM_CUSTOMER_VERSION_ID)))
    with (Z.ones 16).
  rewrite Z.land_ones by lia. apply Z.mod_pos_bound. lia.
Qed.

Lemma drv_bind_Done {bus A B} (m : drv bus A) (f : A -> drv bus B) st b st' :
  (m ≫= f) st = Done (b, st') ->
  exists a st1, m st = Done (a, st1) /\ f a st1 = Done (b, st').
Proof.
  unfold mbind, drv_bind. destruct (m st) as [[a st1]| |]; try discriminate.
  intros Hf. by exists a, st1.
Qed.

Lemma or_return_Done {bus} (m : drv bus Z) (k : Z -> drv bus Z) st ret st' :
  or_return m k st = Done (ret, st') ->
  exists a st1, m st = Done (a, st1) /\
    ((a < 0 /\ ret = a /\ st' = st1) \/ (0 <= a /\ k a st1 = Done (ret, st'))).
Proof.
  unfold or_return. intros Hrun.
  apply drv_bind_Done in Hrun as (a & st1 & Hm & Hk). exists a, st1. split; [done|].
  destruct (Z.ltb_spec a 0); [left | right; done].
  injection Hk as <- <-. done.
Qed.

Section AnyBusProtocols.
Context {bus : Type} `{SpiBus bus}.

(** The check never faults, and when it succeeds it made exactly these
    four accesses, all successful. *)
Lemma setup_spi_verify_total (st : ad9523_state bus) :
  exists ret st', setup_spi_verify st = Done (ret, st').
Proof.
  unfold setup_spi_verify.
  destruct (ad9523_read_Done AD9523_EEPROM_CUSTOMER_VERSION_ID st) as (i & b1 & E1).
  rewrite (or_return_run _ _ _ _ _ E1). case_if; [by eexists _, _|].
  match goal with |- context [or_return _ _ ?s] =>
    destruct (ad9523_write_Done AD9523_EEPROM_CUSTOMER_VERSION_ID 0xAD95 s) as (r1 & b2 & E2) end.
  rewrite (or_return_run _ _ _ _ _ E2). case_if; [by eexists _, _|].
  match goal with |- context [or_return _ _ ?s] =>
    destruct (ad9523_read_Done AD9523_EEPROM_CUSTOMER_VERSION_ID s) as (r2 & b3 & E3) end.
  rewrite (or_return_run _ _ _ _ _ E3). case_if; [by eexists _, _|].
  case_if; [by eexists _, _|].
  match goal with |- context [ad9523_write _ _ ?s] =>
    destruct (ad9523_write_Done AD9523_EEPROM_CUSTOMER_VERSION_ID i s) as (r3 & b4 & E4) end.
  rewrite E4. by eexists _, _.
Qed.

Lemma setup_spi_verify_Done (st : ad9523_state bus) ret st' :
  setup_spi_verify st = Done (ret, st') -> 0 <= ret ->
  exists i r1 st1 st2 st3,
    0 <= i /\ 0 <= r1 /\
    ad9523_read AD9523_EEPROM_CUSTOMER_VERSION_ID st = Done (i, st1) /\
    ad9523_write AD9523_EEPROM_CUSTOMER_VERSION_ID 0xAD95 st1 = Done (r1, st2) /\
    ad9523_read AD9523_EEPROM_CUSTOMER_VERSION_ID st2 = Done (0xAD95, st3) /\
    ad9523_write AD9523_EEPROM_CUSTOMER_VERSION_ID i st3 = Done (ret, st').
Proof.
  unfold setup_spi_verify. intros Hrun Hret.
  apply or_return_Done in Hrun as (i & st1 & E1 & [(? & -> & _) | (Hi & Hrun)]); [lia|].
  apply or_return_Done in Hrun as (r1 & st2 & E2 & [(? & -> & _) | (Hr1 & Hrun)]); [lia|].
  apply or_return_Done in Hrun as (r2 & st3 & E3 & [(? & -> & _) | (Hr2 & Hrun)]); [lia|].
  destruct (Z.eqb_spec r2 0xAD95) as [->|]; cbn [negb] in Hrun.
  - by exists i, r1, st1, st2, st3.
  - injection Hrun as <- <-. unfold EIO in Hret. lia.
Qed.

End AnyBusProtocols.

(** C10. On the register-file peripheral, whatever transfers fail: when
    the read/write check of the setup succeeds, the customer version ID
    register reads as it did before the check.  The check has read the
    register, written 0xAD95, read 0xAD95 back and written the value first
    read. *)
Theorem setup_spi_verify_restores (st : ad9523_state mock_bus) :
  exists ret st',
    setup_spi_verify st = Done (ret, st') /\
    (0 <= ret ->
     mock_reg (spi st') AD9523_EEPROM_CUSTOMER_VERSION_ID
       = mock_reg (spi st) AD9523_EEPROM_CUSTOMER_VERSION_ID /\
     trace st' = trace st ++
       [Rd AD9523_EEPROM_CUSTOMER_VERSION_ID
           (mock_reg (spi st) AD9523_EEPROM_CUSTOMER_VERSION_ID);
        Wr AD9523_EEPROM_CUSTOMER_VERSION_ID 0xAD95 0;
        Rd AD9523_EEPROM_CUSTOMER_VERSION_ID 0xAD95;
        Wr AD9523_EEPROM_CUSTOMER_VERSION_ID
           (mock_reg (spi st) AD9523_EEPROM_CUSTOMER_VERSION_ID) 0]).
Proof.
  destruct (setup_spi_verify_total st) as (ret & st' & Hrun).
  exists ret, st'. split; [done|]. intros Hret.
  apply setup_spi_verify_Done in Hrun
    as (i & r1 & st1 & st2 & st3 & Hi & Hr1 & E1 & E2 & E3 & E4); [|done].
  rewrite mock_read_run in E1. injection E1 as E1 <-.
  destruct (Z.ltb_spec (next_status (spi st)).1 0); [lia|]. subst i.
  rewrite mock_write_run in E2. cbn [spi regs is_enabled vco_out_freq vco_out_map trace] in E2.
  injection E2 as E2 <-.
  destruct (Z.ltb_spec (next_status (mk_mock (regs (spi st)) (next_status (spi st)).2)).1 0);
    [lia|]. subst r1.
  rewrite mock_read_run in E3. cbn [spi regs is_enabled vco_out_freq vco_out_map trace] in E3.
  injection E3 as E3 <-.
  rewrite mock_write_run in E4. cbn [spi regs is_enabled vco_out_freq vco_out_map trace] in E4.
  injection E4 as E4 <-. cbn [spi regs trace].
  revert E3 E4. case_if; [lia|]. case_if; [lia|].
  intros E3 <-. rewrite E3.
  pose proof (mock_reg_lt_2_16 (spi st)) as Hb.
  split.
  - rewrite mock_reg_insert by reflexivity.
    change (Z.shiftr 0xFFFFFF (8 * (3 - AD9523_TRANSF_LEN AD9523_EEPROM_CUSTOMER_VERSION_ID)))
      with (Z.ones 16).
    change (8 * AD9523_TRANSF_LEN AD9523_EEPROM_CUSTOMER_VERSION_ID) with 16.
    rewrite Z.land_ones by lia. rewrite Z.mod_mod by lia.
    rewrite u32_small by lia. apply Z.mod_small. lia.
  - rewrite <- !app_assoc. done.
Qed.

Lemma mock_reg_nonneg b addr : 0 <= mock_reg b addr.
Proof.
  unfold mock_reg. apply Z.land_nonneg. right. by apply Z.shiftr_nonneg.
Qed.

Lemma mock_read_ok rg en fr mp tr addr :
  ad9523_read addr (mk_state (mk_mock rg []) en fr mp tr) =
    Done (mock_reg (mk_mock rg []) addr,
          mk_state (mk_mock rg []) en fr mp (tr ++ [Rd addr (mock_reg (mk_mock rg []) addr)])).
Proof. by rewrite mock_read_run. Qed.

Lemma mock_write_ok rg en fr mp tr addr val :
  ad9523_write addr val (mk_state (mk_mock rg []) en fr mp tr) =
    Done (0, mk_state
               (mk_mock (<[AD9523_ADDR addr := u32 val mod 2 ^ (8 * AD9523_TRANSF_LEN addr)]> rg) [])
               en fr mp (tr ++ [Wr addr val 0])).
Proof. by rewrite mock_write_run. Qed.

Lemma msleep_run {bus} ms (st : ad9523_state bus) :
  msleep ms st = Done (tt, mk_state (spi st) (is_enabled st) (vco_out_freq st)
                                    (vco_out_map st) (trace st ++ [Sleep ms])).
Proof. done. Qed.

(** With the transfer flag stuck, the poll loop reads the status
    [tmp + 1] times and is then left. *)
Lemma eeprom_poll_stuck (n : nat) : forall fuel rg en fr mp tr,
  (n < fuel)%nat -> Z.of_nat n < 2 ^ 31 ->
  Z.land (mock_reg (mk_mock rg []) AD9523_EEPROM_DATA_XFER_STATUS)
         AD9523_EEPROM_DATA_XFER_IN_PROGRESS <> 0 ->
  eeprom_poll fuel (Z.of_nat n) (mk_state (mk_mock rg []) en fr mp tr) =
    Done (None,
          mk_state (mk_mock rg []) en fr mp
            (tr ++ concat (replicate (S n)
                     [Sleep 20;
                      Rd AD9523_EEPROM_DATA_XFER_STATUS
                         (mock_reg (mk_mock rg []) AD9523_EEPROM_DATA_XFER_STATUS)]))).
Proof.
  induction n as [|n IH]; intros fuel rg en fr mp tr Hfuel Hn Hflag;
    (destruct fuel as [|fuel]; [lia|]); cbn [eeprom_poll].
  - rewrite (drv_bind_run _ _ _ _ _ (msleep_run _ _)). cbn [spi is_enabled vco_out_freq vco_out_map trace].
    rewrite (drv_bind_run _ _ _ _ _ (mock_read_ok _ _ _ _ _ _)).
    destruct (Z.ltb_spec (mock_reg (mk_mock rg []) AD9523_EEPROM_DATA_XFER_STATUS) 0) as [Hneg|_].
    { pose proof (mock_reg_nonneg (mk_mock rg []) AD9523_EEPROM_DATA_XFER_STATUS). lia. }
    destruct (Z.eqb_spec (Z.land (mock_reg (mk_mock rg []) AD9523_EEPROM_DATA_XFER_STATUS)
                AD9523_EEPROM_DATA_XFER_IN_PROGRESS) 0); [done|].
    cbn. by rewrite <- app_assoc.
  - rewrite (drv_bind_run _ _ _ _ _ (msleep_run _ _)). cbn [spi is_enabled vco_out_freq vco_out_map trace].
    rewrite (drv_bind_run _ _ _ _ _ (mock_read_ok _ _ _ _ _ _)).
    destruct (Z.ltb_spec (mock_reg (mk_mock rg []) AD9523_EEPROM_DATA_XFER_STATUS) 0) as [Hneg|_].
    { pose proof (mock_reg_nonneg (mk_mock rg []) AD9523_EEPROM_DATA_XFER_STATUS). lia. }
    destruct (Z.eqb_spec (Z.land (mock_reg (mk_mock rg []) AD9523_EEPROM_DATA_XFER_STATUS)
                AD9523_EEPROM_DATA_XFER_IN_PROGRESS) 0); [done|].
    destruct (Z.eqb_spec (Z.of_nat (S n)) 0); [lia|]. cbn [negb].
    replace (s32 (Z.of_nat (S n) - 1)) with (Z.of_nat n).
    2:{ unfold s32. rewrite Z.mod_small; lia. }
    rewrite IH by (done || lia).
    do 3 f_equal. rewrite <- !app_assoc. done.
Qed.

(** C6, as the driver has it.  When the transfer-in-progress flag stays
    set and no transfer fails, the store polls the status five times and
    then goes on as after a finished transfer: it restores the write
    protection, reads the error readback and returns [-EIO] when the fail
    bit is set there, the readback value otherwise.  No error stands for
    the timeout. *)
Theorem store_eeprom_stuck_transfer (fuel : nat) (st : ad9523_state mock_bus) :
  (5 <= fuel)%nat -> faults (spi st) = [] ->
  Z.land (mock_reg (spi st) AD9523_EEPROM_DATA_XFER_STATUS)
         AD9523_EEPROM_DATA_XFER_IN_PROGRESS <> 0 ->
  let s := mock_reg (spi st) AD9523_EEPROM_DATA_XFER_STATUS in
  let e := mock_reg (spi st) AD9523_EEPROM_ERROR_READBACK in
  exists st',
    ad9523_store_eeprom fuel st =
      Done (if negb (Z.land e AD9523_EEPROM_ERROR_READBACK_FAIL =? 0) then - EIO else e,
            st') /\
    trace st' = trace st ++
      [Wr AD9523_EEPROM_CTRL1 AD9523_EEPROM_CTRL1_EEPROM_WRITE_PROT_DIS 0;
       Wr AD9523_EEPROM_CTRL2 AD9523_EEPROM_CTRL2_REG2EEPROM 0;
       Sleep 20; Rd AD9523_EEPROM_DATA_XFER_STATUS s;
       Sleep 20; Rd AD9523_EEPROM_DATA_XFER_STATUS s;
       Sleep 20; Rd AD9523_EEPROM_DATA_XFER_STATUS s;
       Sleep 20; Rd AD9523_EEPROM_DATA_XFER_STATUS s;
       Sleep 20; Rd AD9523_EEPROM_DATA_XFER_STATUS s;
       Wr AD9523_EEPROM_CTRL1 0 0;
       Rd AD9523_EEPROM_ERROR_READBACK e].
Proof.
  destruct st as [[rg fl] en fr mp tr]. cbn [spi faults trace].
  intros Hfuel -> Hflag.
  set (s := mock_reg (mk_mock rg []) AD9523_EEPROM_DATA_XFER_STATUS) in *.
  set (e := mock_reg (mk_mock rg []) AD9523_EEPROM_ERROR_READBACK).
  assert (forall addr k data (m : gmap Z Z) f,
            addr = AD9523_EEPROM_DATA_XFER_STATUS \/ addr = AD9523_EEPROM_ERROR_READBACK ->
            k = AD9523_ADDR AD9523_EEPROM_CTRL1 \/ k = AD9523_ADDR AD9523_EEPROM_CTRL2 ->
            mock_reg (mk_mock (<[k := data]> m) f) addr = mock_reg (mk_mock m f) addr) as Hkeep.
  { intros addr k data m f [-> | ->] [-> | ->]; by apply mock_reg_insert_ne. }
  unfold ad9523_store_eeprom.
  rewrite (or_return_run _ _ _ _ _ (mock_write_ok _ _ _ _ _ _ _)). cbn [Z.ltb Z.compare].
  rewrite (or_return_run _ _ _ _ _ (mock_write_ok _ _ _ _ _ _ _)). cbn [Z.ltb Z.compare].
  change 4 with (Z.of_nat 4).
  erewrite drv_bind_run; cycle 1.
  { apply eeprom_poll_stuck; [lia | done |]. by rewrite !Hkeep by auto. }
  rewrite !Hkeep by auto. fold s.
  rewrite (or_return_run _ _ _ _ _ (mock_write_ok _ _ _ _ _ _ _)). cbn [Z.ltb Z.compare].
  rewrite (or_return_run _ _ _ _ _ (mock_read_ok _ _ _ _ _ _)).
  rewrite !Hkeep by auto. fold e.
  destruct (Z.ltb_spec e 0) as [Hneg|_].
  { pose proof (mock_reg_nonneg (mk_mock rg []) AD9523_EEPROM_ERROR_READBACK). lia. }
  destruct (negb _); eexists; (split; [reflexivity|]); cbn [trace concat replicate];
    rewrite <- !app_assoc; reflexivity.
Qed.

Section AnyBusStore.
Context {bus : Type} `{SpiBus bus}.

Lemma eeprom_poll_returns (n : nat) : forall fuel (st : ad9523_state bus),
  (n < fuel)%nat -> Z.of_nat n < 2 ^ 31 ->
  exists r st', eeprom_poll fuel (Z.of_nat n) st = Done (r, st').
Proof.
  induction n as [|n IH]; intros fuel st Hfuel Hn;
    (destruct fuel as [|fuel]; [lia|]); cbn [eeprom_poll];
    rewrite (drv_bind_run _ _ _ _ _ (msleep_run _ _));
    match goal with |- context [(ad9523_read ?a ≫= _) ?s] =>
      destruct (ad9523_read_Done a s) as (ret & b & E) end;
    rewrite (drv_bind_run _ _ _ _ _ E);
    repeat (case_if; try by eexists _, _).
  replace (s32 (Z.of_nat (S n) - 1)) with (Z.of_nat n).
  2:{ unfold s32. rewrite Z.mod_small; lia. }
  apply IH; lia.
Qed.

(** Whatever the transport does, the store returns: the poll loop is
    left after at most five reads of the status. *)
Lemma store_eeprom_returns fuel (st : ad9523_state bus) :
  (5 <= fuel)%nat -> exists ret st', ad9523_store_eeprom fuel st = Done (ret, st').
Proof.
  intros Hfuel. unfold ad9523_store_eeprom.
  match goal with |- context [or_return (ad9523_write ?a ?v) _ ?s] =>
    destruct (ad9523_write_Done a v s) as (r1 & b1 & E1) end.
  rewrite (or_return_run _ _ _ _ _ E1). case_if; [by eexists _, _|].
  match goal with |- context [or_return (ad9523_write ?a ?v) _ ?s] =>
    destruct (ad9523_write_Done a v s) as (r2 & b2 & E2) end.
  rewrite (or_return_run _ _ _ _ _ E2). case_if; [by eexists _, _|].
  match goal with |- context [(eeprom_poll _ _ ≫= _) ?s] =>
    destruct (eeprom_poll_returns 4 fuel s) as (early & st3 & E3); [lia | done |] end.
  change (Z.of_nat 4) with 4 in E3.
  rewrite (drv_bind_run _ _ _ _ _ E3).
  destruct early as [ret|]; [by eexists _, _|].
  match goal with |- context [or_return (ad9523_write ?a ?v) _ ?s] =>
    destruct (ad9523_write_Done a v s) as (r4 & b4 & E4) end.
  rewrite (or_return_run _ _ _ _ _ E4). case_if; [by eexists _, _|].
  match goal with |- context [or_return (ad9523_read ?a) _ ?s] =>
    destruct (ad9523_read_Done a s) as (r5 & b5 & E5) end.
  rewrite (or_return_run _ _ _ _ _ E5). repeat case_if; by eexists _, _.
Qed.

End AnyBusStore.

Section AnyBusSync.
Context {bus : Type} `{SpiBus bus}.

Lemma ad9523_read_trace addr (st st1 : ad9523_state bus) a :
  ad9523_read addr st = Done (a, st1) -> trace st1 = trace st ++ [Rd addr a].
Proof.
  destruct (ad9523_read_Done addr st) as (ret & b & E). rewrite E.
  by intros [= <- <-].
Qed.

Lemma ad9523_write_trace addr val (st st1 : ad9523_state bus) a :
  ad9523_write addr val st = Done (a, st1) -> trace st1 = trace st ++ [Wr addr val a].
Proof.
  destruct (ad9523_write_Done addr val st) as (ret & b & E). rewrite E.
  by intros [= <- <-].
Qed.

(** Every run of the synchronize sequence, whatever the transport does:
    a failed read, a failed write of the status register or the result
    of the second commit is what the function returns, and nothing
    follows a failed read or write.  The status [c1] of the first commit
    appears in no result. *)
Lemma ad9523_sync_Done (st st' : ad9523_state bus) ret :
  ad9523_sync st = Done (ret, st') ->
  exists r w c1 w2,
    let set := Z.lor r AD9523_STATUS_SIGNALS_SYNC_MAN_CTRL in
    let clr := Z.land set (Z.lnot AD9523_STATUS_SIGNALS_SYNC_MAN_CTRL) in
    (r < 0 /\ ret = r /\
     trace st' = trace st ++ [Rd AD9523_STATUS_SIGNALS r])
    \/
    (0 <= r /\ w < 0 /\ ret = w /\
     trace st' = trace st ++
       [Rd AD9523_STATUS_SIGNALS r; Wr AD9523_STATUS_SIGNALS set w])
    \/
    (0 <= r /\ 0 <= w /\ w2 < 0 /\ ret = w2 /\
     trace st' = trace st ++
       [Rd AD9523_STATUS_SIGNALS r; Wr AD9523_STATUS_SIGNALS set w;
        Wr AD9523_IO_UPDATE AD9523_IO_UPDATE_EN c1; Wr AD9523_STATUS_SIGNALS clr w2])
    \/
    (0 <= r /\ 0 <= w /\ 0 <= w2 /\
     trace st' = trace st ++
       [Rd AD9523_STATUS_SIGNALS r; Wr AD9523_STATUS_SIGNALS set w;
        Wr AD9523_IO_UPDATE AD9523_IO_UPDATE_EN c1; Wr AD9523_STATUS_SIGNALS clr w2;
        Wr AD9523_IO_UPDATE AD9523_IO_UPDATE_EN ret]).
Proof.
  unfold ad9523_sync, ad9523_io_update. intros Hrun.
  apply or_return_Done in Hrun as (r & st1 & E1 & Hrun).
  apply ad9523_read_trace in E1.
  destruct Hrun as [(Hr & -> & ->) | (Hr & Hrun)].
  { exists r, 0, 0, 0. left. done. }
  apply or_return_Done in Hrun as (w & st2 & E2 & Hrun).
  apply ad9523_write_trace in E2. rewrite E1, <- app_assoc in E2.
  destruct Hrun as [(Hw & -> & ->) | (Hw & Hrun)].
  { exists r, w, 0, 0. right. left. done. }
  apply drv_bind_Done in Hrun as (c1 & st3 & E3 & Hrun).
  apply ad9523_write_trace in E3. rewrite E2, <- app_assoc in E3.
  apply or_return_Done in Hrun as (w2 & st4 & E4 & Hrun).
  apply ad9523_write_trace in E4. rewrite E3, <- app_assoc in E4.
  destruct Hrun as [(Hw2 & -> & ->) | (Hw2 & Hrun)].
  { exists r, w, c1, w2. right. right. left. done. }
  apply ad9523_write_trace in Hrun. rewrite E4, <- app_assoc in Hrun.
  exists r, w, c1, w2. right. right. right. done.
Qed.

End AnyBusSync.

(** The amended C6 with the flag stuck and the fail bit of the error
    readback set: five polls, then [-EIO] from the readback. *)
Lemma store_eeprom_stuck_transfer_witness :
  exists st',
    ad9523_store_eeprom 5
      (mock_state (mk_mock {[AD9523_ADDR AD9523_EEPROM_DATA_XFER_STATUS := 1;
                             AD9523_ADDR AD9523_EEPROM_ERROR_READBACK := 1]} []) [])
      = Done (- EIO, st') /\
    trace st' =
      [Wr AD9523_EEPROM_CTRL1 AD9523_EEPROM_CTRL1_EEPROM_WRITE_PROT_DIS 0;
       Wr AD9523_EEPROM_CTRL2 AD9523_EEPROM_CTRL2_REG2EEPROM 0;
       Sleep 20; Rd AD9523_EEPROM_DATA_XFER_STATUS 1;
       Sleep 20; Rd AD9523_EEPROM_DATA_XFER_STATUS 1;
       Sleep 20; Rd AD9523_EEPROM_DATA_XFER_STATUS 1;
       Sleep 20; Rd AD9523_EEPROM_DATA_XFER_STATUS 1;
       Sleep 20; Rd AD9523_EEPROM_DATA_XFER_STATUS 1;
       Wr AD9523_EEPROM_CTRL1 0 0;
       Rd AD9523_EEPROM_ERROR_READBACK 1].
Proof.
  set (st := mock_state (mk_mock {[AD9523_ADDR AD9523_EEPROM_DATA_XFER_STATUS := 1;
                             AD9523_ADDR AD9523_EEPROM_ERROR_READBACK := 1]} []) []).
  assert (mock_reg (spi st) AD9523_EEPROM_DATA_XFER_STATUS = 1) as Hs by (vm_compute; reflexivity).
  assert (mock_reg (spi st) AD9523_EEPROM_ERROR_READBACK = 1) as He by (vm_compute; reflexivity).
  destruct (store_eeprom_stuck_transfer 5 st) as (st' & Hrun & Htrace);
    [lia | reflexivity | rewrite Hs; vm_compute; congruence |].
  rewrite Hs in Htrace. rewrite He in Hrun, Htrace.
  exists st'. split; [exact Hrun | exact Htrace].
Defined.

(** *** Phase writes *)

Ltac bits_cases :=
  repeat match goal with
         | |- context [?a <? ?b] => destruct (Z.ltb_spec a b); try lia
         end;
  cbn [andb orb negb];
  rewrite ?andb_true_r, ?andb_false_r, ?orb_false_r, ?orb_true_r.

Lemma phase_field_set ret t :
  0 <= t <= 63 ->
  let reg := Z.lor (Z.land ret (Z.lnot (AD9523_CLK_DIST_DIV_PHASE (Z.lnot 0))))
                   (AD9523_CLK_DIST_DIV_PHASE t) in
  let stored := Z.land (u32 reg mod 2 ^ 24) 0xFFFFFF in
  AD9523_CLK_DIST_DIV_PHASE_REV stored = t /\
  AD9523_CLK_DIST_DIV_REV stored = AD9523_CLK_DIST_DIV_REV ret.
Proof.
  intros Ht reg stored.
  assert (stored = Z.land reg (Z.ones 24)) as ->.
  { subst stored. unfold u32. rewrite <- !Z.land_ones by lia.
    change 0xFFFFFF with (Z.ones 24).
    apply Z.bits_inj'. intros n Hn. bits. bits_cases; done. }
  assert (t = Z.land t (Z.ones 6)) as Ht6.
  { rewrite Z.land_ones by lia. symmetry. apply Z.mod_small. lia. }
  subst reg.
  unfold AD9523_CLK_DIST_DIV_PHASE_REV, AD9523_CLK_DIST_DIV_REV, AD9523_CLK_DIST_DIV_PHASE.
  change 0x3F with (Z.ones 6). change 0x3FF with (Z.ones 10).
  split.
  - rewrite Ht6 at 2. apply Z.bits_inj'. intros n Hn. bits. bits_cases.
    all: replace (n + 18 - 18) with n by lia.
    all: bits; bits_cases; done.
  - f_equal. apply Z.bits_inj'. intros n Hn. bits.
    replace (n + 8 - 18) with (n - 10) by lia.
    destruct (Z.ltb_spec n 10) as [Hlt|Hge].
    + rewrite !(Z.testbit_neg_r _ (n - 10)) by lia. bits. bits_cases. done.
    + rewrite (Z.testbit_ones_nonneg 10 n) by lia.
      destruct (Z.ltb_spec n 10); [lia|]. by rewrite !andb_false_r.
Qed.

Lemma s32_small x : - 2 ^ 31 <= x < 2 ^ 31 -> s32 x = x.
Proof. intros Hx. unfold s32. rewrite Z.mod_small; lia. Qed.

Lemma clamp_range v lo hi : lo <= hi -> lo <= clamp v lo hi <= hi.
Proof. unfold clamp. lia. Qed.

Lemma phase_code_plain ret val val2 :
  - 2 ^ 31 <= val * 1000000 < 2 ^ 31 ->
  - 2 ^ 31 <= val * 1000000 + Z.rem val2 1000000 < 2 ^ 31 ->
  - 2 ^ 31 <= (val * 1000000 + Z.rem val2 1000000) * AD9523_CLK_DIST_DIV_REV ret < 2 ^ 31 ->
  phase_code ret val val2 =
    clamp (Z.quot ((val * 1000000 + Z.rem val2 1000000) * AD9523_CLK_DIST_DIV_REV ret)
                  3141592) 0 63.
Proof.
  intros H1 H2 H3. unfold phase_code.
  by rewrite (s32_small (val * 1000000)), (s32_small (_ + _)), (s32_small (_ * _)).
Qed.

Ltac each_channel ch H :=
  unfold AD9523_NUM_CHAN in H;
  let Hc := fresh in
  assert (ch = 0 \/ ch = 1 \/ ch = 2 \/ ch = 3 \/ ch = 4 \/ ch = 5 \/ ch = 6 \/
          ch = 7 \/ ch = 8 \/ ch = 9 \/ ch = 10 \/ ch = 11 \/ ch = 12 \/ ch = 13)
    as Hc by lia;
  destruct Hc as [-> | [-> | [-> | [-> | [-> | [-> | [-> | [-> | [-> | [-> | [-> |
                 [-> | [-> | ->]]]]]]]]]]]]].

Lemma drv_ret_bind {bus A B} (a : A) (f : A -> drv bus B) st :
  (mret a ≫= f) st = f a st.
Proof. done. Qed.

(** On the register-file peripheral a phase write stores [phase_code]
    in the phase field of the channel register and leaves the divider
    field alone. *)
Lemma write_raw_phase_stores (st : ad9523_state mock_bus) ch val val2 :
  faults (spi st) = [] -> 0 <= ch < AD9523_NUM_CHAN ->
  exists st',
    ad9523_write_raw ch val val2 IIO_CHAN_INFO_PHASE st = Done (0, st') /\
    AD9523_CLK_DIST_DIV_PHASE_REV (mock_reg (spi st') (AD9523_CHANNEL_CLOCK_DIST ch))
      = phase_code (mock_reg (spi st) (AD9523_CHANNEL_CLOCK_DIST ch)) val val2 /\
    AD9523_CLK_DIST_DIV_REV (mock_reg (spi st') (AD9523_CHANNEL_CLOCK_DIST ch))
      = AD9523_CLK_DIST_DIV_REV (mock_reg (spi st) (AD9523_CHANNEL_CLOCK_DIST ch)).
Proof.
  destruct st as [[rg fl] en fr mp tr]. cbn [spi faults]. intros -> Hch.
  set (ret := mock_reg (mk_mock rg []) (AD9523_CHANNEL_CLOCK_DIST ch)).
  pose proof (mock_reg_nonneg (mk_mock rg []) (AD9523_CHANNEL_CLOCK_DIST ch)) as Hret.
  fold ret in Hret.
  assert (0 <= phase_code ret val val2 <= 63) as Ht by (by apply clamp_range).
  unfold ad9523_write_raw.
  rewrite (or_return_run _ _ _ _ _ (mock_read_ok _ _ _ _ _ _)). fold ret.
  destruct (Z.ltb_spec ret 0); [lia|].
  cbn [write_raw_reg]. rewrite drv_ret_bind.
  rewrite (or_return_run _ _ _ _ _ (mock_write_ok _ _ _ _ _ _ _)). cbn [Z.ltb Z.compare].
  unfold ad9523_io_update.
  rewrite (drv_bind_run _ _ _ _ _ (mock_write_ok _ _ _ _ _ _ _)).
  eexists. split; [reflexivity|]. cbn [spi].
  rewrite mock_reg_insert_ne.
  2:{ each_channel ch Hch; done. }
  erewrite mock_reg_insert by reflexivity.
  assert (Z.shiftr 0xFFFFFF (8 * (3 - AD9523_TRANSF_LEN (AD9523_CHANNEL_CLOCK_DIST ch)))
          = 0xFFFFFF /\ 8 * AD9523_TRANSF_LEN (AD9523_CHANNEL_CLOCK_DIST ch) = 24) as [-> ->].
  { each_channel ch Hch; done. }
  by apply phase_field_set.
Qed.

(** C5, as the driver has it.  A phase write stores, in the 6-bit phase
    field of the channel register, the phase in millionths of a rad times
    the divider programmed in that register, divided by 3141592 with the
    quotient truncated, and clamped to [0, 63]; the divider field is left
    as it was.  (The bounds keep the 32-bit products from wrapping.) *)
Theorem phase_code_stored (st : ad9523_state mock_bus) ch val val2 :
  faults (spi st) = [] -> 0 <= ch < AD9523_NUM_CHAN ->
  let divider := AD9523_CLK_DIST_DIV_REV (mock_reg (spi st) (AD9523_CHANNEL_CLOCK_DIST ch)) in
  let micro := val * 1000000 + Z.rem val2 1000000 in
  - 2 ^ 31 <= val * 1000000 < 2 ^ 31 ->
  - 2 ^ 31 <= micro < 2 ^ 31 ->
  - 2 ^ 31 <= micro * divider < 2 ^ 31 ->
  exists st',
    ad9523_write_raw ch val val2 IIO_CHAN_INFO_PHASE st = Done (0, st') /\
    AD9523_CLK_DIST_DIV_PHASE_REV (mock_reg (spi st') (AD9523_CHANNEL_CLOCK_DIST ch))
      = clamp (Z.quot (micro * divider) 3141592) 0 63 /\
    AD9523_CLK_DIST_DIV_REV (mock_reg (spi st') (AD9523_CHANNEL_CLOCK_DIST ch)) = divider.
Proof.
  intros Hf Hch divider micro H1 H2 H3.
  destruct (write_raw_phase_stores st ch val val2 Hf Hch) as (st' & Hrun & Hphase & Hdiv).
  exists st'. split; [done|]. split; [|done].
  rewrite Hphase. by apply phase_code_plain.
Qed.

(** The amended C5 for 3.141592 rad on channel 0 with divider 2. *)
Lemma phase_code_stored_witness :
  exists st',
    ad9523_write_raw 0 3 141592 IIO_CHAN_INFO_PHASE
      (mock_state (mk_mock {[AD9523_ADDR (AD9523_CHANNEL_CLOCK_DIST 0) := 256]} []) [])
      = Done (0, st') /\
    AD9523_CLK_DIST_DIV_PHASE_REV (mock_reg (spi st') (AD9523_CHANNEL_CLOCK_DIST 0))
      = clamp (Z.quot ((3 * 1000000 + Z.rem 141592 1000000) * 2) 3141592) 0 63 /\
    AD9523_CLK_DIST_DIV_REV (mock_reg (spi st') (AD9523_CHANNEL_CLOCK_DIST 0)) = 2.
Proof.
  set (st := mock_state (mk_mock {[AD9523_ADDR (AD9523_CHANNEL_CLOCK_DIST 0) := 256]} []) []).
  assert (AD9523_CLK_DIST_DIV_REV (mock_reg (spi st) (AD9523_CHANNEL_CLOCK_DIST 0)) = 2)
    as Hdiv by (vm_compute; reflexivity).
  destruct (phase_code_stored st 0 3 141592) as (st' & Hrun & Hphase & Hkeep);
    rewrite ?Hdiv in *;
    [reflexivity | vm_compute; split; congruence | vm_compute; split; congruence ..
    | by exists st'].
Defined.

(** The formula of the design description at 3.141592 rad and divider 2:
    3.141592 / pi lies between 1/2 and 3/2, for 3 < pi <= 4. *)
Lemma phase_spec_at_pi : phase_code_spec (3141592 / 1000000) 2 = 1.
Proof.
  unfold phase_code_spec.
  assert (Zfloor (3141592 / 1000000 * IZR 2 / (2 * PI) + / 2) = 1) as ->; [|done].
  apply Zfloor_eq.
  pose proof PI2_3_2 as Hlo. pose proof PI_4 as Hhi.
  assert (0 < PI)%R as Hpos by lra.
  replace (3141592 / 1000000 * IZR 2 / (2 * PI))%R with (3141592 / 1000000 / PI)%R
    by (field; lra).
  assert (0 < / PI)%R as Hinv by (by apply Rinv_0_lt_compat).
  assert (PI * / PI = 1)%R as Hone by (apply Rinv_r; lra).
  unfold Rdiv. change (IZR 1) with 1%R.
  set (y := (/ PI)%R) in *.
  assert (/ 4 <= y < / 3)%R as Hy by (split; nra).
  lra.
Qed.

(** C5 as stated fails: for a phase of 3.141592 rad on a channel whose
    divider is 2 the stored code is 2, the formula with 2 pi gives 1. *)
Lemma phase_code_is_per_half_turn :
  exists st',
    ad9523_write_raw 0 3 141592 IIO_CHAN_INFO_PHASE
      (mock_state (mk_mock {[AD9523_ADDR (AD9523_CHANNEL_CLOCK_DIST 0) := 256]} []) [])
      = Done (0, st') /\
    AD9523_CLK_DIST_DIV_REV (mock_reg (spi st') (AD9523_CHANNEL_CLOCK_DIST 0)) = 2 /\
    AD9523_CLK_DIST_DIV_PHASE_REV (mock_reg (spi st') (AD9523_CHANNEL_CLOCK_DIST 0)) = 2 /\
    phase_code_spec (3141592 / 1000000) 2 = 1.
Proof.
  eexists. split; [vm_compute; reflexivity|].
  split; [vm_compute; reflexivity|]. split; [vm_compute; reflexivity|].
  exact phase_spec_at_pi.
Qed.

(** *** The clock-source router *)

Lemma slong_ulong x : - 2 ^ 63 <= x < 2 ^ 63 -> slong (ulong x) = x.
Proof.
  intros Hx. unfold slong, ulong, BITS_PER_LONG.
  change (2 ^ (64 - 1)) with (2 ^ 63). change (2 ^ 64) with (2 * 2 ^ 63).
  rewrite Zplus_mod_idemp_l.
  rewrite Z.mod_small; lia.
Qed.

Lemma slong_small x : - 2 ^ 63 <= x < 2 ^ 63 -> slong x = x.
Proof.
  intros Hx. unfold slong, BITS_PER_LONG.
  change (2 ^ (64 - 1)) with (2 ^ 63). change (2 ^ 64) with (2 * 2 ^ 63).
  rewrite Z.mod_small; lia.
Qed.

Lemma abs_long_ulong x : - 2 ^ 63 < x < 2 ^ 63 -> abs_long (ulong x) = Z.abs x.
Proof.
  intros Hx. unfold abs_long. rewrite slong_ulong by lia. apply slong_small. lia.
Qed.

(** What the comparison of the router amounts to: the second VCO output is
    taken exactly when its whole quotient by the requested rate is nearer
    to 1 than that of the first. *)
Lemma use_alt_clk_src_4_9_spec vco1 vco2 freq :
  0 < freq < 2 ^ 63 -> 0 <= vco1 < 2 ^ 63 -> 0 <= vco2 < 2 ^ 63 ->
  use_alt_clk_src_4_9 vco1 vco2 freq = true <->
  Z.abs (vco1 / freq - 1) > Z.abs (vco2 / freq - 1).
Proof.
  intros Hf H1 H2. unfold use_alt_clk_src_4_9.
  assert (forall v, 0 <= v < 2 ^ 63 ->
            abs_long (ulong (slong (ulong (slong (v / freq) * freq)) - freq))
            = freq * Z.abs (v / freq - 1)) as Hside.
  { intros v Hv.
    assert (0 <= v / freq) by (apply Z.div_pos; lia).
    assert (v / freq * freq <= v) by (rewrite Z.mul_comm; apply Z.mul_div_le; lia).
    assert (v / freq <= v) by nia.
    rewrite (slong_small (v / freq)) by lia.
    rewrite slong_ulong by lia.
    rewrite abs_long_ulong by lia.
    replace (v / freq * freq - freq) with (freq * (v / freq - 1)) by ring.
    rewrite Z.abs_mul. f_equal. lia. }
  rewrite !Hside by done. rewrite Z.gtb_gt.
  generalize (Z.abs (vco1 / freq - 1)) (Z.abs (vco2 / freq - 1)). intros a b.
  split; intros; nia.
Qed.

(** C4 at a failing input.  With the VCO outputs at 1 GHz and 750 MHz a
    request of 500 MHz on channel 5 is routed to the second output, whose
    residual is 250 MHz, although the first divides without residual. *)
Theorem clock_provider_takes_worse_source :
  exists st',
    ad9523_set_clock_provider 5 500000000
      (mock_state (mk_mock ∅ []) [1000000000; 750000000; 100000000]) = Done (0, st') /\
    vco_out_map st' !! 5%nat = Some AD9523_VCO2 /\
    rounded_divider_residual 1000000000 500000000 = 0 /\
    rounded_divider_residual 750000000 500000000 = 250000000.
Proof. eexists. repeat split; vm_compute; reflexivity. Qed.

(** The example of the design description: both outputs divide without
    residual, and the router takes the second. *)
Lemma clock_provider_example :
  exists st',
    ad9523_set_clock_provider 5 122880000
      (mock_state (mk_mock ∅ []) [983040000; 737280000; 122880000]) = Done (0, st') /\
    vco_out_map st' !! 5%nat = Some AD9523_VCO2 /\
    rounded_divider_residual 983040000 122880000 = 0 /\
    rounded_divider_residual 737280000 122880000 = 0.
Proof. eexists. repeat split; vm_compute; reflexivity. Qed.

(** * Further properties of the driver *)

(** ** The register accessors *)

Lemma transfer_mask len :
  1 <= len <= 3 -> Z.shiftr 0xFFFFFF (8 * (3 - len)) = Z.ones (8 * len).
Proof.
  intros Hlen. assert (len = 1 \/ len = 2 \/ len = 3) as [-> | [-> | ->]] by lia; reflexivity.
Qed.

Section AccessorProperties.
Context {bus : Type} `{SpiBus bus}.

Lemma ad9523_read_below addr (st st' : ad9523_state bus) ret :
  1 <= AD9523_TRANSF_LEN addr <= 3 ->
  ad9523_read addr st = Done (ret, st') -> ret < 2 ^ (8 * AD9523_TRANSF_LEN addr).
Proof.
  intros Hlen Hrun. unfold ad9523_read in Hrun.
  destruct (spi_sync_read _ _ _) as [b [s rx]]. injection Hrun as <- _.
  assert (0 < 2 ^ (8 * AD9523_TRANSF_LEN addr)) by (apply Z.pow_pos_nonneg; lia).
  destruct (Z.ltb_spec s 0); [lia|].
  rewrite transfer_mask by done. rewrite Z.land_ones by lia.
  by apply Z.mod_pos_bound.
Qed.

(** X1. For a register of one to three bytes, whatever the transport
    does: a register read returns the negative status of a failed
    transfer, or a value that is not negative and fits the width of the
    register.  A negative result is therefore always an error. *)
Theorem ad9523_read_result addr (st st' : ad9523_state bus) ret :
  1 <= AD9523_TRANSF_LEN addr <= 3 ->
  ad9523_read addr st = Done (ret, st') ->
  let len := AD9523_TRANSF_LEN addr in
  let insn := Z.lor (Z.lor AD9523_READ (AD9523_CNT len)) (AD9523_ADDR addr) in
  let status := (spi_sync_read (spi st) insn len).2.1 in
  (status < 0 /\ ret = status) \/
  (0 <= status /\ 0 <= ret < 2 ^ (8 * len)).
Proof.
  intros Hlen Hrun len insn status. subst status insn len.
  unfold ad9523_read in Hrun.
  destruct (spi_sync_read _ _ _) as [b [s rx]]. cbn [fst snd].
  injection Hrun as <- _.
  destruct (Z.ltb_spec s 0); [left; done|]. right. split; [done|].
  rewrite transfer_mask by done. rewrite Z.land_ones by lia.
  apply Z.mod_pos_bound. apply Z.pow_pos_nonneg; lia.
Qed.

End AccessorProperties.

(** X2. On the register-file peripheral a register of one to three
    bytes reads back what was written to it, cut to the width of the
    register. *)
Theorem write_then_read (st : ad9523_state mock_bus) addr val :
  faults (spi st) = [] -> 1 <= AD9523_TRANSF_LEN addr <= 3 ->
  exists st1 st2,
    ad9523_write addr val st = Done (0, st1) /\
    ad9523_read addr st1 = Done (u32 val mod 2 ^ (8 * AD9523_TRANSF_LEN addr), st2).
Proof.
  destruct st as [[rg fl] en fr mp tr]. cbn [spi faults]. intros -> Hlen.
  eexists _, _. split; [apply mock_write_ok|].
  rewrite mock_read_ok. do 2 f_equal.
  rewrite mock_reg_insert by reflexivity. rewrite transfer_mask by done.
  rewrite Z.land_ones by lia. apply Z.mod_mod. apply Z.pow_nonzero; lia.
Qed.

(** ** Channel attributes *)

Lemma channel_reg_len ch :
  0 <= ch < AD9523_NUM_CHAN ->
  Z.shiftr 0xFFFFFF (8 * (3 - AD9523_TRANSF_LEN (AD9523_CHANNEL_CLOCK_DIST ch))) = Z.ones 24 /\
  8 * AD9523_TRANSF_LEN (AD9523_CHANNEL_CLOCK_DIST ch) = 24.
Proof. intros Hch. each_channel ch Hch; done. Qed.

Lemma channel_reg_other ch :
  0 <= ch < AD9523_NUM_CHAN ->
  AD9523_ADDR AD9523_IO_UPDATE <> AD9523_ADDR (AD9523_CHANNEL_CLOCK_DIST ch) /\
  AD9523_ADDR AD9523_PLL1_OUTPUT_CTRL <> AD9523_ADDR (AD9523_CHANNEL_CLOCK_DIST ch) /\
  AD9523_ADDR AD9523_PLL1_OUTPUT_CHANNEL_CTRL <> AD9523_ADDR (AD9523_CHANNEL_CLOCK_DIST ch).
Proof. intros Hch. each_channel ch Hch; done. Qed.

Lemma stored_low24 x : Z.land (u32 x mod 2 ^ 24) (Z.ones 24) = Z.land x (Z.ones 24).
Proof.
  unfold u32. rewrite <- !Z.land_ones by lia.
  apply Z.bits_inj'. intros n Hn. bits. bits_cases; done.
Qed.

Lemma mock_reg_channel_range b ch :
  0 <= ch < AD9523_NUM_CHAN ->
  mock_reg b (AD9523_CHANNEL_CLOCK_DIST ch) =
    Z.land (mock_reg b (AD9523_CHANNEL_CLOCK_DIST ch)) (Z.ones 24).
Proof.
  intros Hch. unfold mock_reg. destruct (channel_reg_len ch Hch) as [-> _].
  by rewrite <- Z.land_assoc, Z.land_diag.
Qed.

(** On the register-file peripheral: a channel write whose [switch]
    leaves the register value [reg] stores the low three bytes of [reg]
    and commits. *)
Lemma write_raw_mock rg en fr mp tr ch val val2 mask reg rg' en' fr' mp' tr' :
  0 <= ch < AD9523_NUM_CHAN ->
  write_raw_reg ch val val2 mask (mock_reg (mk_mock rg []) (AD9523_CHANNEL_CLOCK_DIST ch))
    (mk_state (mk_mock rg []) en fr mp
       (tr ++ [Rd (AD9523_CHANNEL_CLOCK_DIST ch)
                  (mock_reg (mk_mock rg []) (AD9523_CHANNEL_CLOCK_DIST ch))]))
    = Done (inr reg, mk_state (mk_mock rg' []) en' fr' mp' tr') ->
  exists rg'',
    ad9523_write_raw ch val val2 mask (mk_state (mk_mock rg []) en fr mp tr)
      = Done (0, mk_state (mk_mock rg'' []) en' fr' mp'
                   (tr' ++ [Wr (AD9523_CHANNEL_CLOCK_DIST ch) reg 0;
                            Wr AD9523_IO_UPDATE AD9523_IO_UPDATE_EN 0])) /\
    mock_reg (mk_mock rg'' []) (AD9523_CHANNEL_CLOCK_DIST ch) = Z.land reg (Z.ones 24).
Proof.
  intros Hch Hsw.
  pose proof (mock_reg_nonneg (mk_mock rg []) (AD9523_CHANNEL_CLOCK_DIST ch)) as Hret.
  unfold ad9523_write_raw.
  rewrite (or_return_run _ _ _ _ _ (mock_read_ok _ _ _ _ _ _)).
  destruct (Z.ltb_spec (mock_reg (mk_mock rg []) (AD9523_CHANNEL_CLOCK_DIST ch)) 0); [lia|].
  rewrite (drv_bind_run _ _ _ _ _ Hsw).
  rewrite (or_return_run _ _ _ _ _ (mock_write_ok _ _ _ _ _ _ _)). cbn [Z.ltb Z.compare].
  unfold ad9523_io_update.
  rewrite (drv_bind_run _ _ _ _ _ (mock_write_ok _ _ _ _ _ _ _)).
  eexists. split.
  - cbn. rewrite <- app_assoc. reflexivity.
  - destruct (channel_reg_other ch Hch) as (Hio & _ & _).
    rewrite mock_reg_insert_ne by done.
    erewrite mock_reg_insert by reflexivity.
    destruct (channel_reg_len ch Hch) as [-> ->]. apply stored_low24.
Qed.

Lemma land_bit y k :
  0 <= k -> Z.land y (Z.shiftl 1 k) = if Z.testbit y k then 2 ^ k else 0.
Proof.
  intros Hk. rewrite Z.shiftl_1_l. apply Z.bits_inj'. intros n Hn.
  rewrite Z.land_spec, Z.pow2_bits_eqb by done.
  destruct (Z.eqb_spec k n) as [->|Hne].
  - destruct (Z.testbit y n); [by rewrite Z.pow2_bits_true | by rewrite Z.bits_0].
  - rewrite andb_false_r.
    destruct (Z.testbit y k); [by rewrite Z.pow2_bits_false | by rewrite Z.bits_0].
Qed.

Lemma land_bit_zero y k : 0 <= k -> (Z.land y (Z.shiftl 1 k) =? 0) = negb (Z.testbit y k).
Proof.
  intros Hk. rewrite land_bit by done. destruct (Z.testbit y k); [|done].
  apply Z.eqb_neq. apply Z.pow_nonzero; lia.
Qed.

(** The three fields of a channel register as [ad9523_read_raw] decodes
    them. *)
Lemma div_rev_bits x y :
  (forall n, 8 <= n < 18 -> Z.testbit x n = Z.testbit y n) ->
  AD9523_CLK_DIST_DIV_REV x = AD9523_CLK_DIST_DIV_REV y.
Proof.
  intros Hxy. unfold AD9523_CLK_DIST_DIV_REV. f_equal. change 0x3FF with (Z.ones 10).
  apply Z.bits_inj'. intros n Hn. bits.
  destruct (Z.ltb_spec n 10); rewrite ?andb_true_r, ?andb_false_r; [apply Hxy; lia | done].
Qed.

Lemma phase_rev_bits x y :
  (forall n, 18 <= n < 24 -> Z.testbit x n = Z.testbit y n) ->
  AD9523_CLK_DIST_DIV_PHASE_REV x = AD9523_CLK_DIST_DIV_PHASE_REV y.
Proof.
  intros Hxy. unfold AD9523_CLK_DIST_DIV_PHASE_REV. change 0x3F with (Z.ones 6).
  apply Z.bits_inj'. intros n Hn. bits.
  destruct (Z.ltb_spec n 6); rewrite ?andb_true_r, ?andb_false_r; [apply Hxy; lia | done].
Qed.

Lemma raw_field_bits x (on : bool) n :
  0 <= n < 24 ->
  Z.testbit (Z.land (if on then Z.land x (Z.lnot AD9523_CLK_DIST_PWR_DOWN_EN)
                     else Z.lor x AD9523_CLK_DIST_PWR_DOWN_EN) (Z.ones 24)) n
  = if n =? 5 then negb on else Z.testbit x n.
Proof.
  intros Hn. unfold AD9523_CLK_DIST_PWR_DOWN_EN. rewrite Z.shiftl_1_l.
  destruct on; bits; rewrite Z.pow2_bits_eqb by lia; bits_cases;
    destruct (Z.eqb_spec 5 n), (Z.eqb_spec n 5); try lia; cbn;
    rewrite ?andb_true_r, ?andb_false_r, ?orb_false_r, ?orb_true_r; done.
Qed.

Lemma read_raw_mock rg en fr mp tr ch val2 m :
  ad9523_read_raw ch val2 m (mk_state (mk_mock rg []) en fr mp tr) =
    (let ret := mock_reg (mk_mock rg []) (AD9523_CHANNEL_CLOCK_DIST ch) in
     match m with
     | IIO_CHAN_INFO_RAW =>
         mret (IIO_VAL_INT,
               Some (if Z.land ret AD9523_CLK_DIST_PWR_DOWN_EN =? 0 then 1 else 0),
               None)
     | IIO_CHAN_INFO_FREQUENCY =>
         src ← array_get vco_out_map ch;
         f ← array_get vco_out_freq src;
         mret (IIO_VAL_INT, Some (s32 (f / AD9523_CLK_DIST_DIV_REV ret)), None)
     | IIO_CHAN_INFO_PHASE =>
         let code := u32 (Z.quot (s32 (AD9523_CLK_DIST_DIV_PHASE_REV ret * 3141592))
                                 (AD9523_CLK_DIST_DIV_REV ret)) in
         if val2
         then mret (IIO_VAL_INT_PLUS_MICRO,
                    Some (s32 (code / 1000000)), Some (s32 (code mod 1000000)))
         else fault
     | IIO_CHAN_INFO_OTHER => mret (- EINVAL, None, None)
     end)
      (mk_state (mk_mock rg []) en fr mp
         (tr ++ [Rd (AD9523_CHANNEL_CLOCK_DIST ch)
                    (mock_reg (mk_mock rg []) (AD9523_CHANNEL_CLOCK_DIST ch))])).
Proof.
  unfold ad9523_read_raw.
  rewrite (drv_bind_run _ _ _ _ _ (mock_read_ok _ _ _ _ _ _)).
  pose proof (mock_reg_nonneg (mk_mock rg []) (AD9523_CHANNEL_CLOCK_DIST ch)).
  destruct (Z.ltb_spec (mock_reg (mk_mock rg []) (AD9523_CHANNEL_CLOCK_DIST ch)) 0); [lia|].
  done.
Qed.

Lemma set_is_enabled_run {bus} i x (st : ad9523_state bus) :
  0 <= i < Z.of_nat (length (is_enabled st)) ->
  set_is_enabled i x st =
    Done (tt, mk_state (spi st) (<[Z.to_nat i := x]> (is_enabled st))
                       (vco_out_freq st) (vco_out_map st) (trace st)).
Proof.
  intros Hi. unfold set_is_enabled.
  destruct (Z.ltb_spec i 0); [lia|].
  destruct (Z.leb_spec (Z.of_nat (length (is_enabled st))) i); [lia|]. done.
Qed.

(** X3. On the register-file peripheral, for each of the 14 channels:
    a write of the raw attribute records in [is_enabled] whether the
    value was non-zero, a read of the raw attribute then returns 1 for a
    non-zero value written and 0 for zero, and the divider and the phase
    of the channel read as before the write. *)
Theorem raw_write_then_read (st : ad9523_state mock_bus) ch val :
  faults (spi st) = [] -> 0 <= ch < AD9523_NUM_CHAN ->
  length (is_enabled st) = 14%nat ->
  exists st1 st2,
    ad9523_write_raw ch val 0 IIO_CHAN_INFO_RAW st = Done (0, st1) /\
    is_enabled st1 !! Z.to_nat ch = Some (negb (val =? 0)) /\
    ad9523_read_raw ch true IIO_CHAN_INFO_RAW st1
      = Done ((IIO_VAL_INT, Some (if val =? 0 then 0 else 1), None), st2) /\
    AD9523_CLK_DIST_DIV_REV (mock_reg (spi st1) (AD9523_CHANNEL_CLOCK_DIST ch))
      = AD9523_CLK_DIST_DIV_REV (mock_reg (spi st) (AD9523_CHANNEL_CLOCK_DIST ch)) /\
    AD9523_CLK_DIST_DIV_PHASE_REV (mock_reg (spi st1) (AD9523_CHANNEL_CLOCK_DIST ch))
      = AD9523_CLK_DIST_DIV_PHASE_REV (mock_reg (spi st) (AD9523_CHANNEL_CLOCK_DIST ch)).
Proof.
  destruct st as [[rg fl] en fr mp tr]. cbn [spi faults is_enabled]. intros -> Hch Hen.
  set (ret := mock_reg (mk_mock rg []) (AD9523_CHANNEL_CLOCK_DIST ch)).
  edestruct (write_raw_mock rg en fr mp tr ch val 0 IIO_CHAN_INFO_RAW) as (rg2 & Hrun & Hreg);
    [done | |].
  { cbn [write_raw_reg]. unfold mbind, drv_bind.
    rewrite set_is_enabled_run by (cbn [is_enabled]; unfold AD9523_NUM_CHAN in Hch; lia).
    cbn. reflexivity. }
  fold ret in Hreg.
  eexists _, _. split; [exact Hrun|]. cbn [is_enabled spi].
  split; [apply list_lookup_insert_eq; unfold AD9523_NUM_CHAN in Hch; lia|].
  rewrite read_raw_mock. cbn zeta. rewrite Hreg.
  assert (forall n, 0 <= n < 24 ->
            Z.testbit (Z.land (if negb (val =? 0)
                               then Z.land ret (Z.lnot AD9523_CLK_DIST_PWR_DOWN_EN)
                               else Z.lor ret AD9523_CLK_DIST_PWR_DOWN_EN) (Z.ones 24)) n
            = if n =? 5 then negb (negb (val =? 0)) else Z.testbit ret n) as Hbits.
  { intros n Hn. apply raw_field_bits. exact Hn. }
  split; [|split].
  - unfold AD9523_CLK_DIST_PWR_DOWN_EN at 3. rewrite land_bit_zero by lia.
    rewrite Hbits by lia. unfold mret, drv_ret.
    match goal with |- Done (?a, _) = Done (?b, _) => assert (a = b) as ->; [|reflexivity] end.
    cbn. by destruct (val =? 0).
  - apply div_rev_bits. intros n Hn. rewrite Hbits by lia.
    destruct (Z.eqb_spec n 5); [lia|done].
  - apply phase_rev_bits. intros n Hn. rewrite Hbits by lia.
    destruct (Z.eqb_spec n 5); [lia|done].
Qed.

Lemma div_rev_range x : 1 <= AD9523_CLK_DIST_DIV_REV x <= 1024.
Proof.
  unfold AD9523_CLK_DIST_DIV_REV. change 0x3FF with (Z.ones 10).
  rewrite Z.land_ones by lia. change (2 ^ 10) with 1024.
  pose proof (Z.mod_pos_bound (Z.shiftr x 8) 1024 eq_refl). lia.
Qed.

Lemma phase_rev_range x : 0 <= AD9523_CLK_DIST_DIV_PHASE_REV x <= 63.
Proof.
  unfold AD9523_CLK_DIST_DIV_PHASE_REV.
  change (Z.land (Z.shiftr x 18) 0x3F) with (Z.land (Z.shiftr x 18) (Z.ones 6)).
  rewrite Z.land_ones by lia. change (2 ^ 6) with 64.
  pose proof (Z.mod_pos_bound (Z.shiftr x 18) 64 eq_refl). lia.
Qed.

(** The phase that [ad9523_read_raw] computes from a phase code [t]
    and a divider [d], in millionths of a rad. *)
Lemma read_phase_code t d :
  0 <= t <= 63 -> 1 <= d <= 1024 ->
  u32 (Z.quot (s32 (t * 3141592)) d) = t * 3141592 / d /\
  0 <= t * 3141592 / d < 2 ^ 31.
Proof.
  intros Ht Hd.
  rewrite s32_small by lia. rewrite Z.quot_div_nonneg by lia.
  assert (0 <= t * 3141592 / d) by (apply Z.div_pos; lia).
  assert (t * 3141592 / d <= t * 3141592) by (apply Z.div_le_upper_bound; nia).
  split; [apply u32_small|]; lia.
Qed.

(** X4. On the register-file peripheral, for each of the 14 channels
    and a phase that is not negative: the phase read back after a phase
    write is never above the phase written, and unless the code was
    clamped at 63 it is less than one code step, 3141592 / divider
    millionths of a rad, plus one below it.  (The bound on the product
    keeps the 32-bit arithmetic of the write from wrapping.) *)
Theorem phase_write_then_read (st : ad9523_state mock_bus) ch val val2 :
  faults (spi st) = [] -> 0 <= ch < AD9523_NUM_CHAN ->
  let divider := AD9523_CLK_DIST_DIV_REV (mock_reg (spi st) (AD9523_CHANNEL_CLOCK_DIST ch)) in
  let micro := val * 1000000 + val2 in
  0 <= val -> 0 <= val2 < 1000000 -> micro * divider < 2 ^ 31 ->
  exists st1 st2 v v2,
    ad9523_write_raw ch val val2 IIO_CHAN_INFO_PHASE st = Done (0, st1) /\
    ad9523_read_raw ch true IIO_CHAN_INFO_PHASE st1
      = Done ((IIO_VAL_INT_PLUS_MICRO, Some v, Some v2), st2) /\
    0 <= v2 < 1000000 /\
    0 <= v * 1000000 + v2 <= micro /\
    (micro * divider < 64 * 3141592 ->
     (micro - (v * 1000000 + v2)) * divider < 3141592 + divider).
Proof.
  destruct st as [[rg fl] en fr mp tr]. cbn [spi faults]. intros -> Hch.
  set (ret := mock_reg (mk_mock rg []) (AD9523_CHANNEL_CLOCK_DIST ch)).
  intros Hval Hval2 Hprod.
  set (divider := AD9523_CLK_DIST_DIV_REV ret) in *.
  set (micro := val * 1000000 + val2) in *.
  pose proof (div_rev_range ret) as Hd. fold divider in Hd.
  assert (0 <= micro) as Hmicro by (subst micro; lia).
  assert (micro <= micro * divider) as Hmd by nia.
  edestruct (write_raw_mock rg en fr mp tr ch val val2 IIO_CHAN_INFO_PHASE)
    as (rg2 & Hrun & Hreg); [done | cbn [write_raw_reg]; reflexivity |].
  fold ret in Hreg.
  set (t := phase_code ret val val2) in *.
  assert (0 <= t <= 63) as Ht by (by apply clamp_range).
  assert (t = Z.min (micro * divider / 3141592) 63) as Htq.
  { subst t. rewrite phase_code_plain.
    - rewrite Z.rem_mod_nonneg by lia. rewrite (Z.mod_small val2) by lia.
      fold micro divider. rewrite Z.quot_div_nonneg by lia.
      assert (0 <= micro * divider / 3141592) by (apply Z.div_pos; lia).
      unfold clamp. lia.
    - lia.
    - rewrite Z.rem_mod_nonneg by lia. rewrite (Z.mod_small val2) by lia.
      fold micro. lia.
    - rewrite Z.rem_mod_nonneg by lia. rewrite (Z.mod_small val2) by lia.
      fold micro divider. lia. }
  destruct (phase_field_set ret t Ht) as [Hp Hdv]. cbn zeta in Hp, Hdv.
  change 0xFFFFFF with (Z.ones 24) in Hp, Hdv. rewrite stored_low24 in Hp, Hdv.
  rewrite <- Hreg in Hp, Hdv. fold divider in Hdv.
  destruct (read_phase_code t divider Ht Hd) as [Hcode Hrange].
  set (back := t * 3141592 / divider) in *.
  exists (mk_state (mk_mock rg2 []) en fr mp
            (tr ++ [Rd (AD9523_CHANNEL_CLOCK_DIST ch) ret] ++
               [Wr (AD9523_CHANNEL_CLOCK_DIST ch)
                   (Z.lor (Z.land ret (Z.lnot (AD9523_CLK_DIST_DIV_PHASE (Z.lnot 0))))
                          (AD9523_CLK_DIST_DIV_PHASE t)) 0;
                Wr AD9523_IO_UPDATE AD9523_IO_UPDATE_EN 0])).
  eexists _, (back / 1000000), (back mod 1000000).
  split; [rewrite Hrun; by rewrite <- app_assoc|].
  split.
  { rewrite read_raw_mock. cbn zeta. rewrite Hp, Hdv, Hcode.
    assert (0 <= back / 1000000 <= back) as Hq.
    { split; [apply Z.div_pos; lia | apply Z.div_le_upper_bound; lia]. }
    pose proof (Z.mod_pos_bound back 1000000 eq_refl).
    rewrite !s32_small by lia. reflexivity. }
  pose proof (Z.mod_pos_bound back 1000000 eq_refl).
  split; [done|].
  assert (back / 1000000 * 1000000 + back mod 1000000 = back) as ->.
  { rewrite Z.mul_comm. symmetry. apply Z.div_mod. lia. }
  assert (t * 3141592 <= micro * divider) as Hle.
  { pose proof (Z.mul_div_le (micro * divider) 3141592 eq_refl). lia. }
  split.
  - split; [lia|]. subst back. apply Z.div_le_upper_bound; lia.
  - intros Hclamp.
    assert (micro * divider / 3141592 < 64) by (apply Z.div_lt_upper_bound; lia).
    assert (t = micro * divider / 3141592) as Ht' by lia.
    pose proof (Z.mod_pos_bound (micro * divider) 3141592 eq_refl) as Hm1.
    pose proof (Z.div_mod (micro * divider) 3141592 ltac:(lia)) as Hdm1.
    pose proof (Z.mod_pos_bound (t * 3141592) divider ltac:(lia)) as Hm2.
    pose proof (Z.div_mod (t * 3141592) divider ltac:(lia)) as Hdm2.
    fold back in Hdm2. rewrite <- Ht' in Hdm1. nia.
Qed.

(** ** The clock-source map *)

Lemma set_vco_out_map_run {bus} i x (st : ad9523_state bus) :
  0 <= i < Z.of_nat (length (vco_out_map st)) ->
  set_vco_out_map i x st =
    Done (tt, mk_state (spi st) (is_enabled st) (vco_out_freq st)
                       (<[Z.to_nat i := x]> (vco_out_map st)) (trace st)).
Proof.
  intros Hi. unfold set_vco_out_map.
  destruct (Z.ltb_spec i 0); [lia|].
  destruct (Z.leb_spec (Z.of_nat (length (vco_out_map st))) i); [lia|]. done.
Qed.

Lemma array_get_run {bus A} (arr : ad9523_state bus -> list A) i x (st : ad9523_state bus) :
  0 <= i -> arr st !! Z.to_nat i = Some x -> array_get arr i st = Done (x, st).
Proof.
  intros Hi Hx. unfold array_get. destruct (Z.ltb_spec i 0); [lia|]. by rewrite Hx.
Qed.

Ltac step_set_map Hch :=
  match goal with
  | |- context [(set_vco_out_map ?i ?x ≫= ?f) ?s] =>
      rewrite (drv_bind_run _ f s _ _ (set_vco_out_map_run i x s Hch))
  end.

Section MapProperties.
Context {bus : Type} `{SpiBus bus}.

Lemma select_bit_Done reg mask vcxo ch out (st : ad9523_state bus) :
  0 <= ch < Z.of_nat (length (vco_out_map st)) ->
  exists ret st' r,
    select_bit reg mask vcxo ch out st = Done (ret, st') /\
    is_enabled st' = is_enabled st /\ vco_out_freq st' = vco_out_freq st /\
    vco_out_map st' =
      <[Z.to_nat ch := if r <? 0 then out
                       else if negb (out =? 0) && vcxo then AD9523_VCXO else out]>
        (vco_out_map st) /\
    ((r < 0 /\ ret = r /\ trace st' = trace st ++ [Rd reg r]) \/
     (0 <= r /\
      trace st' = trace st ++
        [Rd reg r;
         Wr reg (if negb (out =? 0) then Z.lor r mask else Z.land r (Z.lnot mask)) ret])).
Proof.
  intros Hch. unfold select_bit.
  destruct (ad9523_read_Done reg st) as (r & b1 & E1).
  rewrite (drv_bind_run _ _ _ _ _ E1).
  destruct (Z.ltb_spec r 0) as [Hr|Hr].
  - rewrite drv_ret_bind.
    step_set_map Hch.
    eexists _, _, r. split; [reflexivity|]. cbn.
    destruct (Z.ltb_spec r 0); [|lia]. repeat split; try done. left. done.
  - destruct (negb (out =? 0)) eqn:Hout.
    + match goal with |- context [(ad9523_write ?a ?v ≫= _)] =>
        destruct (ad9523_write_Done a v
                    (mk_state b1 (is_enabled st) (vco_out_freq st) (vco_out_map st)
                       (trace st ++ [Rd reg r]))) as (w & b2 & E2) end.
      cbn [spi is_enabled vco_out_freq vco_out_map trace] in E2.
      unfold mbind at 1, drv_bind at 1. unfold mbind at 1, drv_bind at 1.
      rewrite E2. cbn [mret drv_ret].
      step_set_map Hch.
      eexists _, _, r. split; [reflexivity|]. cbn.
      destruct (Z.ltb_spec r 0); [lia|]. repeat split; try done.
      right. split; [done|]. by rewrite <- app_assoc.
    + match goal with |- context [(ad9523_write ?a ?v ≫= _)] =>
        destruct (ad9523_write_Done a v
                    (mk_state b1 (is_enabled st) (vco_out_freq st) (vco_out_map st)
                       (trace st ++ [Rd reg r]))) as (w & b2 & E2) end.
      cbn [spi is_enabled vco_out_freq vco_out_map trace] in E2.
      unfold mbind at 1, drv_bind at 1. unfold mbind at 1, drv_bind at 1.
      rewrite E2. cbn [mret drv_ret].
      step_set_map Hch.
      eexists _, _, r. split; [reflexivity|]. cbn.
      destruct (Z.ltb_spec r 0); [lia|]. repeat split; try done.
      right. split; [done|]. by rewrite <- app_assoc.
Qed.

Lemma vco_out_map_Done ch out (st : ad9523_state bus) :
  0 <= ch <= 9 -> length (vco_out_map st) = 10%nat ->
  exists ret st' r v,
    ad9523_vco_out_map ch out st = Done (ret, st') /\
    is_enabled st' = is_enabled st /\ vco_out_freq st' = vco_out_freq st /\
    vco_out_map st' =
      <[Z.to_nat ch := if r <? 0 then out
                       else if negb (out =? 0) && (ch <=? 3) then AD9523_VCXO else out]>
        (vco_out_map st) /\
    let reg := if (4 <=? ch) && (ch <=? 6) then AD9523_PLL1_OUTPUT_CTRL
               else AD9523_PLL1_OUTPUT_CHANNEL_CTRL in
    ((r < 0 /\ ret = r /\ trace st' = trace st ++ [Rd reg r]) \/
     (0 <= r /\ trace st' = trace st ++ [Rd reg r; Wr reg v ret])).
Proof.
  intros Hch Hlen. unfold ad9523_vco_out_map.
  assert (0 <= ch < Z.of_nat (length (vco_out_map st))) as Hidx by lia.
  destruct (Z.leb_spec 0 ch); [|lia]. cbn [andb].
  destruct (Z.leb_spec ch 3).
  { destruct (select_bit_Done AD9523_PLL1_OUTPUT_CHANNEL_CTRL
                (u32 (Z.shiftl AD9523_PLL1_OUTP_CH_CTRL_VCXO_SRC_SEL_CH0 ch)) true ch out st Hidx)
      as (ret & st' & r & E & Ka & Kb & Kc & Kd).
    destruct (Z.leb_spec 4 ch); [lia|]. cbn [andb].
    eexists _, _, _, _. split; [exact E|]. split; [exact Ka|]. split; [exact Kb|].
    split; [exact Kc|]. cbn zeta.
    destruct Kd as [Kd | [Kd Ke]]; [left; exact Kd | right; split; [exact Kd | exact Ke]]. }
  destruct (Z.leb_spec 4 ch); [|lia]. cbn [andb].
  destruct (Z.leb_spec ch 6).
  { destruct (select_bit_Done AD9523_PLL1_OUTPUT_CTRL
                (u32 (Z.shiftl AD9523_PLL1_OUTP_CTRL_VCO_DIV_SEL_CH4_M2 (ch - 4))) false ch out st Hidx)
      as (ret & st' & r & E & Ka & Kb & Kc & Kd).
    eexists _, _, _, _. split; [exact E|]. split; [exact Ka|]. split; [exact Kb|].
    split; [exact Kc|]. cbn zeta.
    destruct Kd as [Kd | [Kd Ke]]; [left; exact Kd | right; split; [exact Kd | exact Ke]]. }
  destruct (Z.leb_spec 7 ch); [|lia]. destruct (Z.leb_spec ch 9); [|lia]. cbn [andb].
  destruct (select_bit_Done AD9523_PLL1_OUTPUT_CHANNEL_CTRL
              (u32 (Z.shiftl AD9523_PLL1_OUTP_CH_CTRL_VCO_DIV_SEL_CH7_M2 (ch - 7))) false ch out st Hidx)
    as (ret & st' & r & E & Ka & Kb & Kc & Kd).
  eexists _, _, _, _. split; [exact E|]. split; [exact Ka|]. split; [exact Kb|].
  split; [exact Kc|]. cbn zeta.
  destruct Kd as [Kd | [Kd Ke]]; [left; exact Kd | right; split; [exact Kd | exact Ke]].
Qed.

End MapProperties.

Lemma state_sized_arrays {bus} (st st' : ad9523_state bus) :
  is_enabled st' = is_enabled st -> vco_out_freq st' = vco_out_freq st ->
  vco_out_map st' = vco_out_map st -> state_sized st -> state_sized st'.
Proof. unfold state_sized. by intros -> -> ->. Qed.

Lemma state_sized_map {bus} (st st' : ad9523_state bus) i src :
  is_enabled st' = is_enabled st -> vco_out_freq st' = vco_out_freq st ->
  vco_out_map st' = <[i := src]> (vco_out_map st) -> 0 <= src < 3 ->
  state_sized st -> state_sized st'.
Proof.
  unfold state_sized. intros -> -> -> Hsrc (? & ? & ? & Hall).
  rewrite length_insert. repeat split; try done.
  destruct (decide (i < length (vco_out_map st))%nat) as [Hi|Hi].
  - by apply Forall_insert.
  - by rewrite list_insert_ge by lia.
Qed.

Section MapInvariant.
Context {bus : Type} `{SpiBus bus}.

(** X5. For the channels 0 to 9, whatever the transport does,
    [ad9523_vco_out_map] returns and overwrites the entry of the channel
    in [vco_out_map].  After a failed read of the select register it
    returns the error, has written no register, and the entry holds
    [out] as passed.  After a successful read it has written the select
    register, returns the status of that write, and the entry holds
    [AD9523_VCXO] for a channel 0 to 3 with [out] non-zero, [out]
    otherwise.  The other arrays are left alone.  (The entries are
    [unsigned char]: an [out] up to 255 is stored as it is.) *)
Theorem vco_out_map_records_request ch out (st : ad9523_state bus) :
  0 <= ch <= 9 -> 0 <= out <= 255 -> length (vco_out_map st) = 10%nat ->
  let reg := if (4 <=? ch) && (ch <=? 6) then AD9523_PLL1_OUTPUT_CTRL
             else AD9523_PLL1_OUTPUT_CHANNEL_CTRL in
  exists ret st' r,
    ad9523_vco_out_map ch out st = Done (ret, st') /\
    is_enabled st' = is_enabled st /\ vco_out_freq st' = vco_out_freq st /\
    ((r < 0 /\ ret = r /\
      vco_out_map st' = <[Z.to_nat ch := out]> (vco_out_map st) /\
      trace st' = trace st ++ [Rd reg r])
     \/
     (0 <= r /\
      vco_out_map st' =
        <[Z.to_nat ch := if negb (out =? 0) && (ch <=? 3) then AD9523_VCXO else out]>
          (vco_out_map st) /\
      exists v, trace st' = trace st ++ [Rd reg r; Wr reg v ret])).
Proof.
  intros Hch _ Hlen reg.
  destruct (vco_out_map_Done ch out st Hch Hlen)
    as (ret & st' & r & v & E & Ka & Kb & Kc & Kd).
  exists ret, st', r. split; [done|]. split; [done|]. split; [done|].
  cbn zeta in Kd. fold reg in Kd.
  destruct Kd as [(Hr & -> & Ht) | (Hr & Ht)].
  - left. destruct (Z.ltb_spec r 0); [|lia]. done.
  - right. destruct (Z.ltb_spec r 0); [lia|]. split; [done|]. split; [done|].
    by exists v.
Qed.

Lemma set_clock_provider_Done ch freq (st : ad9523_state bus) f0 f1 f2 :
  0 <= ch <= 9 -> freq <> 0 -> length (vco_out_map st) = 10%nat ->
  vco_out_freq st = [f0; f1; f2] ->
  let out := if (if ch <=? 3 then freq =? f2 else use_alt_clk_src_4_9 f0 f1 freq)
             then 1 else 0 in
  exists ret st' r v,
    ad9523_set_clock_provider ch freq st = Done (ret, st') /\
    is_enabled st' = is_enabled st /\ vco_out_freq st' = vco_out_freq st /\
    vco_out_map st' =
      <[Z.to_nat ch := if r <? 0 then out
                       else if negb (out =? 0) && (ch <=? 3) then AD9523_VCXO else out]>
        (vco_out_map st) /\
    let reg := if (4 <=? ch) && (ch <=? 6) then AD9523_PLL1_OUTPUT_CTRL
               else AD9523_PLL1_OUTPUT_CHANNEL_CTRL in
    ((r < 0 /\ ret = r /\ trace st' = trace st ++ [Rd reg r]) \/
     (0 <= r /\ trace st' = trace st ++ [Rd reg r; Wr reg v ret])).
Proof.
  intros Hch Hfreq Hlen Hfr out. unfold ad9523_set_clock_provider.
  pose proof (fun o => vco_out_map_Done ch o st Hch Hlen) as Hmap. cbn zeta in Hmap.
  destruct (Z.leb_spec 0 ch); [|lia]. cbn [andb].
  subst out. destruct (ch <=? 3) eqn:E3.
  - rewrite (drv_bind_run _ _ _ _ _ (array_get_run vco_out_freq AD9523_VCXO f2 st
               ltac:(done) ltac:(by rewrite Hfr))).
    apply Hmap.
  - apply Z.leb_gt in E3.
    destruct (Z.leb_spec 4 ch); [|lia]. destruct (Z.leb_spec ch 9); [|lia]. cbn [andb].
    rewrite (drv_bind_run _ _ _ _ _ (array_get_run vco_out_freq AD9523_VCO1 f0 st
               ltac:(done) ltac:(by rewrite Hfr))).
    rewrite (drv_bind_run _ _ _ _ _ (array_get_run vco_out_freq AD9523_VCO2 f1 st
               ltac:(done) ltac:(by rewrite Hfr))).
    destruct (Z.eqb_spec freq 0); [done|].
    apply Hmap.
Qed.

End MapInvariant.

Lemma drv_bind_assoc {bus A B C} (m : drv bus A) (f : A -> drv bus B) (g : B -> drv bus C) st :
  ((m ≫= f) ≫= g) st = (m ≫= fun a => f a ≫= g) st.
Proof. unfold mbind, drv_bind. by destruct (m st) as [[a st']| |]. Qed.

Ltac step E :=
  match goal with
  | |- context [(?m ≫= ?f) ?s] => rewrite (drv_bind_run m f s _ _ E)
  end.

Section ChannelWrites.
Context {bus : Type} `{SpiBus bus}.

(** The end of [ad9523_write_raw]: the register write and the commit. *)
Lemma write_raw_tail addr reg (st : ad9523_state bus) :
  exists w c st',
    (ret ←! ad9523_write addr reg; _ ← ad9523_io_update; mret ret) st = Done (w, st') /\
    is_enabled st' = is_enabled st /\ vco_out_freq st' = vco_out_freq st /\
    vco_out_map st' = vco_out_map st /\
    ((w < 0 /\ trace st' = trace st ++ [Wr addr reg w]) \/
     (0 <= w /\ trace st' = trace st ++
        [Wr addr reg w; Wr AD9523_IO_UPDATE AD9523_IO_UPDATE_EN c])).
Proof.
  destruct (ad9523_write_Done addr reg st) as (w & b1 & E1).
  rewrite (or_return_run _ _ _ _ _ E1).
  destruct (Z.ltb_spec w 0).
  - exists w, 0. eexists. split; [reflexivity|]. cbn. repeat split; try done. by left.
  - unfold ad9523_io_update.
    match goal with |- context [(ad9523_write ?a ?v ≫= _) ?s] =>
      destruct (ad9523_write_Done a v s) as (c & b2 & E2) end.
    rewrite (drv_bind_run _ _ _ _ _ E2).
    exists w, c. eexists. split; [reflexivity|]. cbn. repeat split; try done.
    right. split; [done|]. by rewrite <- app_assoc.
Qed.

(** X6. For the channels 0 to 9, whatever the transport does and
    whatever is written: when the arrays of the driver state have their
    declared sizes and [vco_out_map] holds clock sources only,
    [ad9523_write_raw] returns, no array index leaves its array, and the
    state it leaves satisfies the same. *)
Theorem write_raw_keeps_state_sized ch val val2 mask (st : ad9523_state bus) :
  state_sized st -> 0 <= ch <= 9 ->
  exists ret st',
    ad9523_write_raw ch val val2 mask st = Done (ret, st') /\ state_sized st'.
Proof.
  intros Hst Hch. pose proof Hst as (Hen & Hfr & Hmp & Hall).
  unfold ad9523_write_raw.
  destruct (ad9523_read_Done (AD9523_CHANNEL_CLOCK_DIST ch) st) as (r & b1 & E1).
  rewrite (or_return_run _ _ _ _ _ E1).
  set (st1 := mk_state b1 (is_enabled st) (vco_out_freq st) (vco_out_map st)
                (trace st ++ [Rd (AD9523_CHANNEL_CLOCK_DIST ch) r])).
  assert (state_sized st1) as Hst1 by (by apply (state_sized_arrays st)).
  destruct (Z.ltb_spec r 0); [by eexists _, _|].
  assert (forall reg (s : ad9523_state bus), state_sized s ->
            exists ret st',
              (ret ←! ad9523_write (AD9523_CHANNEL_CLOCK_DIST ch) reg;
               _ ← ad9523_io_update; mret ret) s = Done (ret, st') /\ state_sized st')
    as Htail.
  { intros reg s Hs.
    destruct (write_raw_tail (AD9523_CHANNEL_CLOCK_DIST ch) reg s)
      as (w & c & st' & E & Ka & Kb & Kc & _).
    exists w, st'. split; [done|]. by apply (state_sized_arrays s). }
  destruct mask; cbn [write_raw_reg].
  - (* IIO_CHAN_INFO_RAW *)
    rewrite drv_bind_assoc.
    step (set_is_enabled_run ch (negb (val =? 0)) st1 ltac:(cbn [is_enabled st1]; lia)).
    rewrite drv_ret_bind. apply Htail.
    destruct Hst1 as (? & ? & ? & ?). repeat split; try done.
    cbn [is_enabled]. by rewrite length_insert.
  - (* IIO_CHAN_INFO_FREQUENCY *)
    destruct (Z.leb_spec val 0); [rewrite drv_ret_bind; by eexists _, _|].
    destruct (vco_out_freq st) as [|f0 [|f1 [|f2 [|]]]] eqn:Efr; try done.
    rewrite (u32_small ch) by lia.
    destruct (set_clock_provider_Done ch val st1 f0 f1 f2)
      as (ret & st2 & r2 & v & E2 & Ka & Kb & Kc & _); [lia | lia | done | done |].
    set (src := if r2 <? 0 then _ else _) in Kc.
    assert (0 <= src < 3) as Hsrc.
    { subst src. unfold AD9523_VCXO. repeat case_if; lia. }
    assert (state_sized st2) as Hst2 by (by apply (state_sized_map st1 st2 (Z.to_nat ch) src)).
    rewrite drv_bind_assoc. step E2.
    destruct (Z.ltb_spec ret 0); [rewrite drv_ret_bind; by eexists _, _|].
    assert (vco_out_map st2 !! Z.to_nat ch = Some src) as Hlook.
    { rewrite Kc. apply list_lookup_insert_eq. cbn [vco_out_map st1]. lia. }
    assert (exists f, vco_out_freq st2 !! Z.to_nat src = Some f) as [f Hf].
    { apply lookup_lt_is_Some_2. rewrite Kb. subst st1. cbn. rewrite ?Efr. cbn. lia. }
    rewrite drv_bind_assoc. step (array_get_run vco_out_map ch src st2 ltac:(lia) Hlook).
    rewrite drv_bind_assoc. step (array_get_run vco_out_freq src f st2 ltac:(lia) Hf).
    rewrite drv_ret_bind. by apply Htail.
  - (* IIO_CHAN_INFO_PHASE *)
    rewrite drv_ret_bind. by apply Htail.
  - (* any other attribute *)
    rewrite drv_ret_bind. by eexists _, _.
Qed.

End ChannelWrites.

Lemma array_get_Done {bus A} (arr : ad9523_state bus -> list A) i x (st st' : ad9523_state bus) :
  array_get arr i st = Done (x, st') ->
  st' = st /\ 0 <= i /\ arr st !! Z.to_nat i = Some x.
Proof.
  unfold array_get. destruct (Z.ltb_spec i 0); [done|].
  destruct (arr st !! Z.to_nat i) as [y|]; [|done]. by intros [= <- <-].
Qed.

Lemma set_vco_out_map_Done {bus} i x (st st' : ad9523_state bus) u :
  set_vco_out_map i x st = Done (u, st') -> trace st' = trace st.
Proof. unfold set_vco_out_map. case_if; [done|]. by intros [= _ <-]. Qed.

Lemma set_is_enabled_Done {bus} i x (st st' : ad9523_state bus) u :
  set_is_enabled i x st = Done (u, st') -> trace st' = trace st.
Proof. unfold set_is_enabled. case_if; [done|]. by intros [= _ <-]. Qed.

Section AttributeResults.
Context {bus : Type} `{SpiBus bus}.

Lemma select_bit_trace rg mk vx c o (s s' : ad9523_state bus) x :
  select_bit rg mk vx c o s = Done (x, s') -> exists tr, trace s' = trace s ++ tr.
Proof.
  intros Hs. unfold select_bit in Hs.
  apply drv_bind_Done in Hs as (a & s1 & Ea & Hs).
  apply ad9523_read_trace in Ea.
  apply drv_bind_Done in Hs as ([a2 o2] & s2 & Eb & Hs).
  apply drv_bind_Done in Hs as ([] & s3 & Ec & Hs).
  injection Hs as <- <-. apply set_vco_out_map_Done in Ec. rewrite Ec.
  destruct (a <? 0).
  - injection Eb as <- <- <-. by eexists.
  - destruct (negb (o =? 0));
      apply drv_bind_Done in Eb as (w & s4 & Ew & Eb); injection Eb as <- <- <-;
      apply ad9523_write_trace in Ew; rewrite Ew, Ea, <- app_assoc; by eexists.
Qed.

Lemma vco_out_map_trace c o (s s' : ad9523_state bus) x :
  ad9523_vco_out_map c o s = Done (x, s') -> exists tr, trace s' = trace s ++ tr.
Proof.
  unfold ad9523_vco_out_map. repeat case_if; try apply select_bit_trace.
  intros [= <- <-]. exists []. by rewrite app_nil_r.
Qed.

Lemma set_clock_provider_trace c f (s s' : ad9523_state bus) x :
  ad9523_set_clock_provider c f s = Done (x, s') -> exists tr, trace s' = trace s ++ tr.
Proof.
  unfold ad9523_set_clock_provider.
  destruct ((0 <=? c) && (c <=? 3)).
  { intros E1. apply drv_bind_Done in E1 as (y & s1 & Ea & E1).
    apply array_get_Done in Ea as (-> & _). by apply vco_out_map_trace in E1. }
  destruct ((4 <=? c) && (c <=? 9)).
  { intros E1. apply drv_bind_Done in E1 as (y & s1 & Ea & E1).
    apply array_get_Done in Ea as (-> & _).
    apply drv_bind_Done in E1 as (y2 & s2 & Eb & E1).
    apply array_get_Done in Eb as (-> & _).
    destruct (f =? 0); [done|]. by apply vco_out_map_trace in E1. }
  intros [= <- <-]. exists []. by rewrite app_nil_r.
Qed.

(** What the [switch] of [ad9523_write_raw] leaves of the trace: it is
    only extended. *)
Lemma write_raw_reg_trace ch val val2 mask ret (st st' : ad9523_state bus) r :
  write_raw_reg ch val val2 mask ret st = Done (r, st') ->
  exists tr, trace st' = trace st ++ tr.
Proof.
  destruct mask; cbn [write_raw_reg].
  - intros Hrun. apply drv_bind_Done in Hrun as ([] & st1 & E1 & Hrun).
    injection Hrun as <- <-. apply set_is_enabled_Done in E1.
    exists []. by rewrite app_nil_r.
  - destruct (Z.leb_spec val 0).
    { intros [= <- <-]. exists []. by rewrite app_nil_r. }
    intros Hrun. apply drv_bind_Done in Hrun as (ret1 & st1 & E1 & Hrun).
    apply set_clock_provider_trace in E1 as [tr1 Htr1].
    revert Hrun. case_if.
    { intros [= <- <-]. by exists tr1. }
    intros Hrun. apply drv_bind_Done in Hrun as (src & s2 & Ea & Hrun).
    apply array_get_Done in Ea as (-> & _).
    apply drv_bind_Done in Hrun as (f & s3 & Eb & Hrun).
    apply array_get_Done in Eb as (-> & _).
    injection Hrun as <- <-. by exists tr1.
  - intros [= <- <-]. exists []. by rewrite app_nil_r.
  - intros [= <- <-]. exists []. by rewrite app_nil_r.
Qed.

(** X8. Whatever the transport does and whichever attribute is
    written: when [ad9523_write_raw] returns a result that is not
    negative, the last two accesses it made are the write of the channel
    register, whose status it returns, and the commit.  The status [c]
    of the commit appears in no result. *)
Theorem write_raw_commit_unchecked ch val val2 mask (st st' : ad9523_state bus) ret :
  ad9523_write_raw ch val val2 mask st = Done (ret, st') -> 0 <= ret ->
  exists tr reg c,
    trace st' = trace st ++ tr ++
      [Wr (AD9523_CHANNEL_CLOCK_DIST ch) reg ret;
       Wr AD9523_IO_UPDATE AD9523_IO_UPDATE_EN c].
Proof.
  unfold ad9523_write_raw. intros Hrun Hret.
  apply or_return_Done in Hrun as (r & st1 & E1 & [(? & -> & _) | (Hr & Hrun)]); [lia|].
  apply ad9523_read_trace in E1.
  apply drv_bind_Done in Hrun as (sw & st2 & E2 & Hrun).
  apply write_raw_reg_trace in E2 as Htr2. destruct Htr2 as [tr2 Htr2].
  destruct sw as [ret'|reg].
  { injection Hrun as <- <-.
    destruct mask; cbn [write_raw_reg] in E2.
    - apply drv_bind_Done in E2 as ([] & s & _ & E2). done.
    - revert E2. case_if.
      + intros [= <- _]. unfold EINVAL in Hret. lia.
      + intros E2. apply drv_bind_Done in E2 as (x & s & _ & E2).
        revert E2. case_if; [intros [= <- _]; lia|].
        intros E2. apply drv_bind_Done in E2 as (x2 & s2 & _ & E2).
        apply drv_bind_Done in E2 as (x3 & s3 & _ & E2). done.
    - done.
    - injection E2 as <- _. unfold EINVAL in Hret. lia. }
  apply or_return_Done in Hrun as (w & st3 & E3 & [(? & -> & _) | (Hw & Hrun)]); [lia|].
  apply ad9523_write_trace in E3.
  apply drv_bind_Done in Hrun as (c & st4 & E4 & Hrun). injection Hrun as <- <-.
  apply ad9523_write_trace in E4.
  exists ([Rd (AD9523_CHANNEL_CLOCK_DIST ch) r] ++ tr2), reg, c.
  rewrite E4, E3, Htr2, E1. by rewrite <- !app_assoc.
Qed.

(** X9. Whatever the transport does: a write of an attribute that is
    neither raw, frequency nor phase, and a frequency write of a value
    that is not positive, read the channel register and write nothing.
    They return the error of the read when it failed and [-EINVAL]
    otherwise, and leave the arrays of the driver state alone. *)
Theorem write_raw_rejects ch val val2 mask (st : ad9523_state bus) :
  mask = IIO_CHAN_INFO_OTHER \/ (mask = IIO_CHAN_INFO_FREQUENCY /\ val <= 0) ->
  exists r st',
    ad9523_write_raw ch val val2 mask st = Done (if r <? 0 then r else - EINVAL, st') /\
    trace st' = trace st ++ [Rd (AD9523_CHANNEL_CLOCK_DIST ch) r] /\
    is_enabled st' = is_enabled st /\ vco_out_freq st' = vco_out_freq st /\
    vco_out_map st' = vco_out_map st.
Proof.
  intros Hmask. unfold ad9523_write_raw.
  destruct (ad9523_read_Done (AD9523_CHANNEL_CLOCK_DIST ch) st) as (r & b1 & E1).
  rewrite (or_return_run _ _ _ _ _ E1). exists r.
  destruct (Z.ltb_spec r 0); [by eexists|].
  destruct Hmask as [-> | [-> Hval]]; cbn [write_raw_reg].
  - rewrite drv_ret_bind. by eexists.
  - destruct (Z.leb_spec val 0); [|lia]. rewrite drv_ret_bind. by eexists.
Qed.

End AttributeResults.

(** ** Clock operations, debug access and device attributes *)

Lemma debug_reg_len reg :
  0 <= reg < 2 ^ 16 -> AD9523_TRANSF_LEN (Z.lor reg AD9523_R1B) = 1.
Proof.
  intros Hreg. unfold AD9523_TRANSF_LEN, AD9523_R1B.
  rewrite Z.shiftr_lor. rewrite (Z.shiftr_div_pow2 reg) by lia.
  rewrite Z.div_small by lia. reflexivity.
Qed.

Section ClockOperations.
Context {bus : Type} `{SpiBus bus}.

(** X10. Whatever the transport does, for each of the 14 outputs:
    [ad9523_clk_prepare] returns the error of a failed read of the
    channel register and then leaves [is_enabled] alone.  Once that read
    has succeeded it marks the output enabled before it writes the
    register: it returns the status [ret] of the write, negative or not,
    and [ad9523_clk_is_enabled] reports 1 from then on. *)
Theorem clk_prepare_marks_enabled num (st : ad9523_state bus) :
  0 <= num < AD9523_NUM_CHAN -> length (is_enabled st) = 14%nat ->
  exists ret st' r,
    ad9523_clk_prepare num st = Done (ret, st') /\
    ((r < 0 /\ ret = r /\ is_enabled st' = is_enabled st /\
      trace st' = trace st ++ [Rd (AD9523_CHANNEL_CLOCK_DIST num) r])
     \/
     (0 <= r /\
      is_enabled st' = <[Z.to_nat num := true]> (is_enabled st) /\
      ad9523_clk_is_enabled num st' = Done (1, st') /\
      exists reg tr,
        trace st' = trace st ++
          [Rd (AD9523_CHANNEL_CLOCK_DIST num) r;
           Wr (AD9523_CHANNEL_CLOCK_DIST num) reg ret] ++ tr)).
Proof.
  intros Hnum Hen. unfold AD9523_NUM_CHAN in Hnum.
  unfold ad9523_clk_prepare, ad9523_set_clk_attr, ad9523_write_raw.
  rewrite (s32_small num) by lia. change (s32 1) with 1.
  destruct (ad9523_read_Done (AD9523_CHANNEL_CLOCK_DIST num) st) as (r & b1 & E1).
  rewrite (or_return_run _ _ _ _ _ E1).
  destruct (Z.ltb_spec r 0).
  { eexists _, _, r. split; [reflexivity|]. left. done. }
  cbn [write_raw_reg]. rewrite drv_bind_assoc.
  match goal with |- context [(set_is_enabled ?i ?x ≫= ?f) ?s] =>
    rewrite (drv_bind_run _ f s _ _ (set_is_enabled_run i x s ltac:(cbn [is_enabled]; lia)))
  end.
  rewrite drv_ret_bind. cbn [spi is_enabled vco_out_freq vco_out_map trace].
  match goal with |- context [or_return (ad9523_write ?a ?v) _ ?s] =>
    destruct (write_raw_tail a v s) as (w & c & st' & E & Ka & Kb & Kc & Kd) end.
  cbn [spi is_enabled vco_out_freq vco_out_map trace] in *.
  exists w, st', r. split; [exact E|]. right. split; [done|]. split; [done|].
  split.
  - unfold ad9523_clk_is_enabled.
    rewrite (drv_bind_run _ _ _ _ _ (array_get_run is_enabled num true st' ltac:(lia)
               ltac:(rewrite Ka; apply list_lookup_insert_eq; lia))).
    done.
  - destruct Kd as [[_ Kd] | [_ Kd]]; rewrite Kd, <- app_assoc; eexists _, _; cbn; reflexivity.
Qed.

(** X11. Whatever the transport does, for each of the 14 outputs: when
    the read of the channel register fails with the status [r],
    [ad9523_clk_recalc_rate] returns that status converted to
    [unsigned long], the rate 2^64 + r. *)
Theorem clk_recalc_rate_of_failed_read num (st st1 : ad9523_state bus) r :
  0 <= num < AD9523_NUM_CHAN ->
  ad9523_read (AD9523_CHANNEL_CLOCK_DIST num) st = Done (r, st1) ->
  - 2 ^ 31 <= r < 0 ->
  ad9523_clk_recalc_rate num st = Done (2 ^ 64 + r, st1).
Proof.
  intros Hnum E1 Hr. unfold AD9523_NUM_CHAN in Hnum.
  unfold ad9523_clk_recalc_rate, ad9523_get_clk_attr, ad9523_read_raw.
  rewrite (s32_small num) by lia.
  rewrite !drv_bind_assoc. step E1.
  destruct (Z.ltb_spec r 0); [|lia]. rewrite !drv_ret_bind.
  unfold IIO_VAL_INT. destruct (Z.eqb_spec r 1); [lia|]. rewrite drv_ret_bind.
  unfold mret, drv_ret. do 2 f_equal.
  unfold ulong, BITS_PER_LONG. rewrite <- (Z.mod_add r 1) by lia.
  rewrite Z.mod_small; lia.
Qed.

(** X12. The debug access, for a register number below 0x10000 and
    whatever the transport does.  A write writes the one-byte register
    and always commits, also after a failed write; the status [w] of
    the write is returned and that of the commit is dropped.  A read
    makes one access and stores at most one byte: it returns 0 with a
    value below 256, or the negative status with nothing stored. *)
Theorem reg_access_accesses reg writeval (st : ad9523_state bus) :
  0 <= reg < 2 ^ 16 ->
  (exists w c st',
     ad9523_reg_access reg writeval false st = Done ((w, None), st') /\
     trace st' = trace st ++
       [Wr (Z.lor reg AD9523_R1B) writeval w;
        Wr AD9523_IO_UPDATE AD9523_IO_UPDATE_EN c])
  /\
  (exists r st',
     ad9523_reg_access reg writeval true st
       = Done ((if r <? 0 then r else 0, if r <? 0 then None else Some r), st') /\
     trace st' = trace st ++ [Rd (Z.lor reg AD9523_R1B) r] /\
     r < 256).
Proof.
  intros Hreg. pose proof (debug_reg_len reg Hreg) as Hlen.
  unfold ad9523_reg_access. cbn zeta. rewrite Hlen. change (3 <? 1) with false.
  cbn [negb].
  split.
  - destruct (ad9523_write_Done (Z.lor reg AD9523_R1B) writeval st) as (w & b1 & E1).
    step E1. unfold ad9523_io_update.
    match goal with |- context [(ad9523_write ?a ?v ≫= _) ?s] =>
      destruct (ad9523_write_Done a v s) as (c & b2 & E2) end.
    step E2. eexists w, c, _. split; [reflexivity|]. cbn. by rewrite <- app_assoc.
  - destruct (ad9523_read_Done (Z.lor reg AD9523_R1B) st) as (r & b1 & E1).
    step E1. exists r.
    assert (r < 256 /\ (0 <= r -> u32 r = r)) as [Hr Hu].
    { pose proof (ad9523_read_below (Z.lor reg AD9523_R1B) st _ r ltac:(lia) E1) as Hr.
      rewrite Hlen in Hr. change (2 ^ (8 * 1)) with 256 in Hr.
      split; [lia|]. intros Hr0. apply u32_small. lia. }
    eexists. split.
    + destruct (Z.ltb_spec r 0); [reflexivity|]. rewrite Hu by lia. reflexivity.
    + split; [reflexivity | exact Hr].
Qed.

(** X13. [ad9523_store] makes no register access and leaves the driver
    state as it is when the text written does not parse, when it parses
    as false, and when the attribute is neither the synchronisation nor
    the EEPROM one: it returns the error of the parser, the length
    written, and [-ENODEV]. *)
Theorem store_without_access fuel address kret (state : bool) len (st : ad9523_state bus) :
  kret < 0 \/ state = false \/
  (u32 address <> AD9523_SYNC /\ u32 address <> AD9523_EEPROM) ->
  ad9523_store fuel address (kret, state) len st =
    Done (if kret <? 0 then kret
          else if negb state then slong len
          else - ENODEV, st).
Proof.
  intros Hcase. unfold ad9523_store.
  destruct (Z.ltb_spec kret 0); [done|].
  destruct state; cbn [negb]; [|done].
  destruct Hcase as [? | [? | [Hs He]]]; [lia | done |].
  destruct (Z.eqb_spec (u32 address) AD9523_SYNC); [done|].
  destruct (Z.eqb_spec (u32 address) AD9523_EEPROM); [done|].
  rewrite drv_ret_bind. reflexivity.
Qed.

(** X14. A status attribute, whatever the transport does: [ad9523_show]
    makes one access, a read of the first readback register.  It
    returns the negative status of a failed read, and otherwise prints
    1 when bit [address] of the value read is set and 0 when it is
    clear. *)
Theorem show_reports_status_bit address (st : ad9523_state bus) :
  0 <= address <= 7 ->
  exists r st',
    ad9523_show address st
      = Done (if r <? 0 then inl r else inr (if Z.testbit r address then 1 else 0), st') /\
    trace st' = trace st ++ [Rd AD9523_READBACK_0 r].
Proof.
  intros Haddr. unfold ad9523_show.
  destruct (ad9523_read_Done AD9523_READBACK_0 st) as (r & b1 & E1).
  step E1. exists r. eexists. split.
  - destruct (Z.leb_spec 0 r), (Z.ltb_spec r 0); try lia; [|reflexivity].
    rewrite u32_small by lia. rewrite land_bit_zero by lia. rewrite negb_involutive.
    reflexivity.
  - reflexivity.
Qed.

End ClockOperations.

(** ** Rounding and setting a rate *)

Lemma ulong_slong_id x : ulong (slong x) = ulong x.
Proof.
  unfold ulong, slong, BITS_PER_LONG. rewrite Zminus_mod_idemp_l. f_equal. lia.
Qed.

Lemma ulong_sub_l a b : ulong (ulong a - b) = ulong (a - b).
Proof. unfold ulong. apply Zminus_mod_idemp_l. Qed.

Lemma ulong_mul_l a b : ulong (ulong a * b) = ulong (a * b).
Proof. unfold ulong. apply Zmult_mod_idemp_l. Qed.

(** [ad9523_clk_round_rate] and [ad9523_set_clock_provider] take the
    same decision between the two VCO outputs, whatever the values. *)
Lemma round_rate_same_choice vco1 vco2 rate :
  round_rate_use_vco2 vco1 vco2 rate = use_alt_clk_src_4_9 vco1 vco2 rate.
Proof.
  unfold round_rate_use_vco2, use_alt_clk_src_4_9.
  assert (forall q, ulong (slong (ulong (slong q * rate)) - rate) = ulong (ulong (q * rate) - rate))
    as Hside.
  { intros q.
    assert (ulong (slong q * rate) = ulong (q * rate)) as ->
      by (by rewrite <- ulong_mul_l, ulong_slong_id, ulong_mul_l).
    by rewrite <- (ulong_sub_l (slong _)), ulong_slong_id, ulong_sub_l. }
  by rewrite !Hside.
Qed.

Lemma round_closest_exact q rate :
  0 < rate -> 0 <= q -> (q * rate + rate / 2) / rate = q.
Proof.
  intros Hrate Hq. rewrite Z.add_comm, Z.div_add by lia.
  rewrite (Z.div_small (rate / 2)); [lia|].
  split; [apply Z.div_pos; lia|]. apply Z.div_lt_upper_bound; lia.
Qed.

Section RoundRate.
Context {bus : Type} `{SpiBus bus}.

(** X15. For the outputs outside 4 to 9, when the first VCO output is
    the requested rate times a whole number from 1 to 1024:
    [ad9523_clk_round_rate] returns the requested rate unchanged and
    leaves the driver state as it is.  There the frequency of the
    oscillator is returned unchanged on the outputs 0 to 3 as well, and
    a rate of 0 gives 0. *)
Theorem clk_round_rate_exact num rate q (st : ad9523_state bus) f0 f1 f2 :
  vco_out_freq st = [f0; f1; f2] ->
  ~ 4 <= num <= 9 -> 0 < rate < 2 ^ 62 ->
  1 <= q <= 1024 -> f0 = q * rate -> f0 < 2 ^ 62 ->
  ad9523_clk_round_rate num rate st = Done (rate, st) /\
  (0 <= num <= 3 -> 0 < f2 < 2 ^ 62 -> ad9523_clk_round_rate num f2 st = Done (f2, st)) /\
  ad9523_clk_round_rate num 0 st = Done (0, st).
Proof.
  intros Hfr Hnum Hrate Hq Hf0 Hf0max.
  assert (forall r clk k, 0 < r < 2 ^ 62 -> 1 <= k <= 1024 -> clk = k * r -> clk < 2 ^ 62 ->
            slong (clk / clamp (ulong (clk + r / 2) / r) 1 1024) = r) as Hexact.
  { intros r clk k Hr Hk -> Hclk.
    assert (0 <= r / 2 <= r) by (split; [apply Z.div_pos; lia | apply Z.div_le_upper_bound; lia]).
    rewrite ulong_small by (change (2 ^ 64) with (4 * 2 ^ 62); lia).
    rewrite round_closest_exact by lia.
    unfold clamp. rewrite Z.max_l, Z.min_l by lia.
    rewrite Z.mul_comm, Z.div_mul by lia.
    apply slong_small. change (2 ^ 63) with (2 * 2 ^ 62). lia. }
  assert (array_get vco_out_freq AD9523_VCO1 st = Done (f0, st)) as E0
    by (apply array_get_run; [done | by rewrite Hfr]).
  assert (array_get vco_out_freq AD9523_VCXO st = Done (f2, st)) as E2
    by (apply array_get_run; [done | by rewrite Hfr]).
  split; [|split; [|done]].
  - unfold ad9523_clk_round_rate. destruct (Z.eqb_spec rate 0); [lia|].
    destruct ((0 <=? num) && (num <=? 3)) eqn:E03.
    + rewrite drv_bind_assoc. step E2. destruct (Z.eqb_spec rate f2) as [<-|Hne].
      * rewrite drv_ret_bind. unfold mret, drv_ret. do 2 f_equal.
        apply (Hexact rate rate 1); lia.
      * step E0. unfold mret, drv_ret. do 2 f_equal. by apply (Hexact rate f0 q).
    + destruct ((4 <=? num) && (num <=? 9)) eqn:E49; [lia|].
      step E0. unfold mret, drv_ret. do 2 f_equal. by apply (Hexact rate f0 q).
  - intros H03 Hf2. unfold ad9523_clk_round_rate. destruct (Z.eqb_spec f2 0); [lia|].
    destruct ((0 <=? num) && (num <=? 3)) eqn:E03; [|lia].
    rewrite drv_bind_assoc. step E2. rewrite Z.eqb_refl, drv_ret_bind.
    unfold mret, drv_ret. do 2 f_equal. apply (Hexact f2 f2 1); lia.
Qed.

End RoundRate.

(** *** Setting a rate on the register-file peripheral *)

Lemma div_field_set ret t :
  1 <= t <= 1024 ->
  AD9523_CLK_DIST_DIV_REV
    (Z.land (Z.lor (Z.land ret (Z.lnot (Z.shiftl 0x3FF 8))) (AD9523_CLK_DIST_DIV t))
            (Z.ones 24)) = t.
Proof.
  intros Ht. unfold AD9523_CLK_DIST_DIV_REV, AD9523_CLK_DIST_DIV.
  assert (t - 1 = Z.land (t - 1) (Z.ones 10)) as Ht10.
  { rewrite Z.land_ones by lia. symmetry. apply Z.mod_small.
    change (2 ^ 10) with 1024. lia. }
  change 0x3FF with (Z.ones 10).
  match goal with |- ?x + 1 = t => assert (x = t - 1) as ->; [|lia] end.
  rewrite Ht10 at 2. apply Z.bits_inj'. intros n Hn. bits.
  destruct (Z.ltb_spec n 10); rewrite ?andb_false_r; [|done].
  rewrite !andb_true_r. replace (n + 8 - 8) with n by lia.
  bits. destruct (Z.ltb_spec n 10); [|lia]. destruct (Z.ltb_spec (n + 8) 24); [|lia].
  cbn [negb]. by rewrite andb_false_r, !andb_true_r, orb_false_l.
Qed.

Lemma select_bit_mock rg en fr mp tr reg mask vcxo ch out :
  0 <= ch < Z.of_nat (length mp) ->
  exists v tr',
    select_bit reg mask vcxo ch out (mk_state (mk_mock rg []) en fr mp tr) =
      Done (0, mk_state (mk_mock (<[AD9523_ADDR reg := v]> rg) []) en fr
                 (<[Z.to_nat ch := if negb (out =? 0) && vcxo then AD9523_VCXO else out]> mp)
                 tr').
Proof.
  intros Hch. unfold select_bit.
  step (mock_read_ok rg en fr mp tr reg).
  pose proof (mock_reg_nonneg (mk_mock rg []) reg).
  destruct (Z.ltb_spec (mock_reg (mk_mock rg []) reg) 0); [lia|].
  destruct (negb (out =? 0)); cbn [andb].
  - rewrite drv_bind_assoc. step (mock_write_ok rg en fr mp
      (tr ++ [Rd reg (mock_reg (mk_mock rg []) reg)]) reg
      (Z.lor (mock_reg (mk_mock rg []) reg) mask)).
    rewrite drv_ret_bind. step_set_map Hch. by eexists _, _.
  - rewrite drv_bind_assoc. step (mock_write_ok rg en fr mp
      (tr ++ [Rd reg (mock_reg (mk_mock rg []) reg)]) reg
      (Z.land (mock_reg (mk_mock rg []) reg) (Z.lnot mask))).
    rewrite drv_ret_bind. step_set_map Hch. by eexists _, _.
Qed.

Lemma vco_out_map_mock rg en fr mp tr ch out :
  0 <= ch <= 9 -> length mp = 10%nat ->
  exists k v tr',
    (k = AD9523_ADDR AD9523_PLL1_OUTPUT_CTRL \/
     k = AD9523_ADDR AD9523_PLL1_OUTPUT_CHANNEL_CTRL) /\
    ad9523_vco_out_map ch out (mk_state (mk_mock rg []) en fr mp tr) =
      Done (0, mk_state (mk_mock (<[k := v]> rg) []) en fr
                 (<[Z.to_nat ch := if negb (out =? 0) && (ch <=? 3)
                                   then AD9523_VCXO else out]> mp)
                 tr').
Proof.
  intros Hch Hlen. unfold ad9523_vco_out_map.
  assert (0 <= ch < Z.of_nat (length mp)) as Hidx by lia.
  destruct (ch <=? 3) eqn:E3.
  { apply Z.leb_le in E3. destruct (Z.leb_spec 0 ch); [|lia]. cbn [andb].
    edestruct select_bit_mock as (v & tr' & E); [exact Hidx|].
    eexists _, v, tr'. split; [right; reflexivity|]. exact E. }
  apply Z.leb_gt in E3. rewrite andb_false_r.
  destruct (Z.leb_spec 4 ch); [|lia]. cbn [andb].
  destruct (Z.leb_spec ch 6).
  { edestruct select_bit_mock as (v & tr' & E); [exact Hidx|].
    eexists _, v, tr'. split; [left; reflexivity|]. rewrite andb_false_r in *. exact E. }
  destruct (Z.leb_spec 7 ch); [|lia]. destruct (Z.leb_spec ch 9); [|lia]. cbn [andb].
  edestruct select_bit_mock as (v & tr' & E); [exact Hidx|].
  eexists _, v, tr'. split; [right; reflexivity|]. rewrite andb_false_r in *. exact E.
Qed.

Lemma set_clock_provider_mock rg en f0 f1 f2 mp tr ch freq :
  0 <= ch <= 9 -> freq <> 0 -> length mp = 10%nat ->
  exists k v tr',
    (k = AD9523_ADDR AD9523_PLL1_OUTPUT_CTRL \/
     k = AD9523_ADDR AD9523_PLL1_OUTPUT_CHANNEL_CTRL) /\
    ad9523_set_clock_provider ch freq (mk_state (mk_mock rg []) en [f0; f1; f2] mp tr) =
      Done (0, mk_state (mk_mock (<[k := v]> rg) []) en [f0; f1; f2]
                 (<[Z.to_nat ch := if ch <=? 3 then (if freq =? f2 then AD9523_VCXO else AD9523_VCO1)
                                   else if use_alt_clk_src_4_9 f0 f1 freq
                                        then AD9523_VCO2 else AD9523_VCO1]> mp)
                 tr').
Proof.
  intros Hch Hfreq Hlen. unfold ad9523_set_clock_provider.
  destruct (Z.leb_spec 0 ch); [|lia]. cbn [andb].
  destruct (ch <=? 3) eqn:E3.
  - step (array_get_run (bus := mock_bus) vco_out_freq AD9523_VCXO f2
            (mk_state (mk_mock rg []) en [f0; f1; f2] mp tr) ltac:(done) ltac:(done)).
    destruct (vco_out_map_mock rg en [f0; f1; f2] mp tr ch (if freq =? f2 then 1 else 0))
      as (k & v & tr' & Hk & E); [done | done |].
    rewrite E3 in E. exists k, v, tr'. split; [done|]. rewrite E.
    by destruct (freq =? f2).
  - apply Z.leb_gt in E3.
    destruct (Z.leb_spec 4 ch); [|lia]. destruct (Z.leb_spec ch 9); [|lia]. cbn [andb].
    step (array_get_run (bus := mock_bus) vco_out_freq AD9523_VCO1 f0
            (mk_state (mk_mock rg []) en [f0; f1; f2] mp tr) ltac:(done) ltac:(done)).
    step (array_get_run (bus := mock_bus) vco_out_freq AD9523_VCO2 f1
            (mk_state (mk_mock rg []) en [f0; f1; f2] mp tr) ltac:(done) ltac:(done)).
    destruct (Z.eqb_spec freq 0); [done|].
    destruct (vco_out_map_mock rg en [f0; f1; f2] mp tr ch
                (if use_alt_clk_src_4_9 f0 f1 freq then 1 else 0))
      as (k & v & tr' & Hk & E); [done | done |].
    destruct (Z.leb_spec ch 3); [lia|]. rewrite andb_false_r in E.
    exists k, v, tr'. split; [done|]. rewrite E.
    by destruct (use_alt_clk_src_4_9 f0 f1 freq).
Qed.

(** X16. On the register-file peripheral, for the outputs 0 to 9 and
    frequencies that fit 31 bits: the rate that [ad9523_clk_recalc_rate]
    reports after [ad9523_clk_set_rate] has set a rate is the rate that
    [ad9523_clk_round_rate] announces for it.  Both pick the same clock
    source and the same divider. *)
Theorem set_rate_then_recalc_rate (st : ad9523_state mock_bus) num rate f0 f1 f2 :
  faults (spi st) = [] -> state_sized st -> vco_out_freq st = [f0; f1; f2] ->
  0 <= num <= 9 -> 0 < rate < 2 ^ 31 ->
  0 <= f0 < 2 ^ 31 -> 0 <= f1 < 2 ^ 31 -> 0 <= f2 < 2 ^ 31 ->
  exists r st1 st2,
    ad9523_clk_round_rate num rate st = Done (r, st) /\
    ad9523_clk_set_rate num rate st = Done (0, st1) /\
    ad9523_clk_recalc_rate num st1 = Done (r, st2).
Proof.
  destruct st as [[rg fl] en fr mp tr]. cbn [spi faults vco_out_freq].
  intros -> (Hen & _ & Hmp & _) -> Hnum Hrate Hf0 Hf1 Hf2.
  cbn [is_enabled vco_out_map] in Hen, Hmp.
  set (src := if num <=? 3 then (if rate =? f2 then AD9523_VCXO else AD9523_VCO1)
              else if use_alt_clk_src_4_9 f0 f1 rate then AD9523_VCO2 else AD9523_VCO1).
  set (f := if num <=? 3 then (if rate =? f2 then f2 else f0)
            else if use_alt_clk_src_4_9 f0 f1 rate then f1 else f0).
  assert (0 <= f < 2 ^ 31) as Hf by (subst f; repeat case_if; lia).
  assert (0 <= src /\ [f0; f1; f2] !! Z.to_nat src = Some f) as [Hsrc Hlook].
  { subst src f. unfold AD9523_VCXO, AD9523_VCO1, AD9523_VCO2. repeat case_if; done. }
  assert (0 <= rate / 2 <= rate) as Hhalf
    by (split; [apply Z.div_pos; lia | apply Z.div_le_upper_bound; lia]).
  assert (0 <= (f + rate / 2) / rate < 2 ^ 31) as Hquot.
  { split; [apply Z.div_pos; lia|]. apply Z.div_lt_upper_bound; [lia|].
    destruct (Z.eq_dec rate 1) as [->|]; [change (1 / 2) with 0; lia | nia]. }
  set (t := clamp ((f + rate / 2) / rate) 1 1024).
  assert (1 <= t <= 1024) as Ht by (by apply clamp_range).
  assert (0 <= f / t <= f) as Hres.
  { split; [apply Z.div_pos; lia | apply Z.div_le_upper_bound; nia]. }
  set (st0 := mk_state (mk_mock rg []) en [f0; f1; f2] mp tr).
  assert (ulong (f + rate / 2) = f + rate / 2) as Hul
    by (apply ulong_small; change (2 ^ 64) with (2 ^ 33 * 2 ^ 31); lia).
  exists (f / t).
  (* the announced rate *)
  assert (ad9523_clk_round_rate num rate st0 = Done (f / t, st0)) as Hround.
  { unfold ad9523_clk_round_rate. destruct (Z.eqb_spec rate 0); [lia|].
    assert ((if (0 <=? num) && (num <=? 3)
             then vcxo ← array_get vco_out_freq AD9523_VCXO;
                  (if rate =? vcxo then mret vcxo else array_get vco_out_freq AD9523_VCO1)
             else if (4 <=? num) && (num <=? 9)
                  then vco1 ← array_get vco_out_freq AD9523_VCO1;
                       vco2 ← array_get vco_out_freq AD9523_VCO2;
                       (if round_rate_use_vco2 vco1 vco2 rate then mret vco2 else mret vco1)
                  else array_get vco_out_freq AD9523_VCO1) st0 = Done (f, st0)) as Hclk.
    { subst f. destruct (Z.leb_spec 0 num); [|lia]. cbn [andb].
      destruct (Z.leb_spec num 3).
      - step (array_get_run (bus := mock_bus) vco_out_freq AD9523_VCXO f2 st0
                ltac:(done) ltac:(done)).
        destruct (rate =? f2); [done|].
        by apply array_get_run.
      - destruct (Z.leb_spec 4 num); [|lia]. destruct (Z.leb_spec num 9); [|lia]. cbn [andb].
        step (array_get_run (bus := mock_bus) vco_out_freq AD9523_VCO1 f0 st0
                ltac:(done) ltac:(done)).
        step (array_get_run (bus := mock_bus) vco_out_freq AD9523_VCO2 f1 st0
                ltac:(done) ltac:(done)).
        rewrite round_rate_same_choice. by destruct (use_alt_clk_src_4_9 f0 f1 rate). }
    step Hclk. rewrite Hul. fold t. unfold mret, drv_ret. do 2 f_equal.
    apply slong_small. change (2 ^ 63) with (2 ^ 32 * 2 ^ 31). lia. }
  (* setting the rate *)
  set (ret := mock_reg (mk_mock rg []) (AD9523_CHANNEL_CLOCK_DIST num)).
  set (reg := Z.lor (Z.land ret (Z.lnot (Z.shiftl 0x3FF 8))) (AD9523_CLK_DIST_DIV t)).
  destruct (set_clock_provider_mock rg en f0 f1 f2 mp
              (tr ++ [Rd (AD9523_CHANNEL_CLOCK_DIST num) ret]) num rate)
    as (k & v & tr1 & Hk & Eprov); [lia | lia | done |].
  fold src in Eprov.
  set (mp1 := <[Z.to_nat num := src]> mp) in *.
  assert (mp1 !! Z.to_nat num = Some src) as Hmap
    by (apply list_lookup_insert_eq; lia).
  edestruct (write_raw_mock rg en [f0; f1; f2] mp tr num rate 0 IIO_CHAN_INFO_FREQUENCY reg)
    as (rg2 & Hset & Hreg); [unfold AD9523_NUM_CHAN; lia | |].
  { cbn [write_raw_reg]. fold ret. destruct (Z.leb_spec rate 0); [lia|].
    rewrite (u32_small num) by lia. step Eprov. cbn [Z.ltb Z.compare].
    match goal with |- context [(array_get vco_out_map num ≫= ?g) ?s] =>
      rewrite (drv_bind_run _ g s _ _ (array_get_run vco_out_map num src s ltac:(lia) Hmap)) end.
    match goal with |- context [(array_get vco_out_freq src ≫= ?g) ?s] =>
      rewrite (drv_bind_run _ g s _ _ (array_get_run vco_out_freq src f s Hsrc Hlook)) end.
    rewrite Hul. rewrite s32_small by lia. fold t. fold reg. reflexivity. }
  fold ret in Hreg.
  eexists _, _. split; [exact Hround|]. split.
  { unfold ad9523_clk_set_rate, ad9523_set_clk_attr.
    rewrite (s32_small num), (s32_small rate) by lia. exact Hset. }
  (* reading the rate back *)
  unfold ad9523_clk_recalc_rate, ad9523_get_clk_attr.
  rewrite (s32_small num) by lia.
  unfold ad9523_read_raw. rewrite !drv_bind_assoc.
  match goal with |- context [(ad9523_read ?a ≫= ?g) (mk_state (mk_mock ?r []) ?e ?q ?m ?x)] =>
    rewrite (drv_bind_run _ g _ _ _ (mock_read_ok r e q m x a)) end.
  rewrite Hreg.
  assert (0 <= Z.land reg (Z.ones 24)) as Hnn by (apply Z.land_nonneg; right; done).
  destruct (Z.ltb_spec (Z.land reg (Z.ones 24)) 0); [lia|].
  subst reg. rewrite div_field_set by done.
  rewrite !drv_bind_assoc.
  match goal with |- context [(array_get vco_out_map num ≫= ?g) ?s] =>
    rewrite (drv_bind_run _ g s _ _ (array_get_run vco_out_map num src s ltac:(lia) Hmap)) end.
  rewrite !drv_bind_assoc.
  match goal with |- context [(array_get vco_out_freq src ≫= ?g) ?s] =>
    rewrite (drv_bind_run _ g s _ _ (array_get_run vco_out_freq src f s Hsrc Hlook)) end.
  rewrite !drv_ret_bind. change (IIO_VAL_INT =? IIO_VAL_INT) with true. cbn iota.
  rewrite drv_ret_bind. rewrite s32_small by lia.
  rewrite ulong_small by (change (2 ^ 64) with (2 ^ 33 * 2 ^ 31); lia).
  reflexivity.
Qed.

(** ** The device-tree parser and the solver *)

(** X17. The range checks of the device-tree parser pass exactly for a
    feedback divider [N = 4 * B + A] with [A] from 0 to 3 and [B] from 3
    to 63 that [ad9523_pll2_valid_div] accepts or that is 12, an R2
    divider from 1 to 31 and VCO dividers from 3 to 5. *)
Theorem parse_dt_pll2_check_accepts a b dbl r2 m1 m2 :
  parse_dt_pll2_check (mk_pdata a b dbl r2 m1 m2) = 0 /\ 0 <= a <->
  0 <= a <= 3 /\ 3 <= b <= 63 /\
  (AD9523_PLL2_FB_NDIV a b = 12 \/
   ad9523_pll2_valid_div (AD9523_PLL2_FB_NDIV a b) = true) /\
  1 <= r2 <= 31 /\ 3 <= m1 <= 5 /\ 3 <= m2 <= 5.
Proof.
  unfold parse_dt_pll2_check, AD9523_PLL2_FB_NDIV, EINVAL.
  cbn [pll2_ndiv_a_cnt pll2_ndiv_b_cnt pll2_r2_div pll2_vco_div_m1 pll2_vco_div_m2].
  rewrite valid_div_spec.
  destruct (Z.ltb_spec b 3), (Z.gtb_spec b 63); cbn [orb]; try lia.
  destruct (Z.eqb_spec b 3), (Z.eqb_spec b 4), (Z.eqb_spec b 5), (Z.eqb_spec b 6);
    cbn [orb]; try lia;
    destruct (Z.gtb_spec a 0), (Z.gtb_spec a 1), (Z.gtb_spec a 2), (Z.gtb_spec a 3);
    try lia;
    destruct (Z.ltb_spec r2 1), (Z.gtb_spec r2 31); cbn [orb]; try lia;
    destruct (Z.ltb_spec m1 3), (Z.gtb_spec m1 5); cbn [orb]; try lia;
    destruct (Z.ltb_spec m2 3), (Z.gtb_spec m2 5); cbn [orb]; lia.
Qed.

Lemma parse_dt_pll2_check_passes a b dbl r2 m1 m2 :
  0 <= a <= 3 -> 3 <= b <= 63 ->
  AD9523_PLL2_FB_NDIV a b = 12 \/ ad9523_pll2_valid_div (AD9523_PLL2_FB_NDIV a b) = true ->
  1 <= r2 <= 31 -> 3 <= m1 <= 5 -> 3 <= m2 <= 5 ->
  parse_dt_pll2_check (mk_pdata a b dbl r2 m1 m2) = 0.
Proof.
  unfold parse_dt_pll2_check, AD9523_PLL2_FB_NDIV.
  cbn [pll2_ndiv_a_cnt pll2_ndiv_b_cnt pll2_r2_div pll2_vco_div_m1 pll2_vco_div_m2].
  rewrite valid_div_spec. intros Ha Hb HN Hr2 Hm1 Hm2.
  destruct (Z.ltb_spec b 3), (Z.gtb_spec b 63); cbn [orb]; try lia.
  destruct (Z.ltb_spec r2 1), (Z.gtb_spec r2 31); cbn [orb]; try lia.
  destruct (Z.ltb_spec m1 3), (Z.gtb_spec m1 5); cbn [orb]; try lia.
  destruct (Z.ltb_spec m2 3), (Z.gtb_spec m2 5); cbn [orb]; try lia.
  destruct (Z.eqb_spec b 3), (Z.eqb_spec b 4), (Z.eqb_spec b 5), (Z.eqb_spec b 6);
    cbn [orb]; try lia;
    destruct (Z.gtb_spec a 0), (Z.gtb_spec a 1), (Z.gtb_spec a 2), (Z.gtb_spec a 3);
    try lia; done.
Qed.

Section ParserAndSolver.

Variable rational_best_approximation : Z -> Z -> Z -> Z -> Z * Z.
Variable of_property_read_u32 : string -> Z -> Z.
Variable of_property_read_bool : string -> bool.

(** X18. The parser does not look at the result of the solver, and a
    failure of the solver is reported all the same: the solver has then
    left the zeroed platform data alone, and the check of the B counter
    makes the parser return [-EINVAL]. *)
Theorem parse_dt_reports_solver_failure fuel vcxo tmp ret p' :
  let m1_freq := of_property_read_u32 "adi,pll2-m1-freq"%string 0 in
  let m2_freq := of_property_read_u32 "adi,pll2-m2-freq"%string 0 in
  ~ (m1_freq = 0 /\ m2_freq = 0) ->
  ad9523_calc_dividers rational_best_approximation fuel (u32 vcxo) m1_freq m2_freq
    pdata_zalloc = Done (ret, p') ->
  ret <> 0 ->
  parse_dt_pll2 rational_best_approximation of_property_read_u32 of_property_read_bool
    fuel vcxo tmp pdata_zalloc = Done (- EINVAL, pdata_zalloc).
Proof.
  intros m1_freq m2_freq Hauto Hrun Hret. unfold parse_dt_pll2.
  fold m1_freq m2_freq.
  destruct (Z.eqb_spec m1_freq 0), (Z.eqb_spec m2_freq 0); cbn [andb]; try tauto;
    rewrite Hrun; cbn;
    apply calc_dividers_Done in Hrun as (m & vco & _ & [(_ & -> & _) | (? & _)]);
    done.
Qed.

Section Contract.

Hypothesis numerator_bounded : forall num den,
  0 <= (rational_best_approximation num den 255 31).1 <= 255.

(** What a successful run of the solver leaves in the platform data. *)
Lemma calc_dividers_plan fuel vcxo m1 m2 pdata p' :
  ad9523_calc_dividers rational_best_approximation fuel vcxo m1 m2 pdata = Done (0, p') ->
  exists vco n r dbl k,
    vco_in_range vco /\
    ((n, r) = rational_best_approximation vco (vcxo / 1000) 255 31 \/
     (n, r) = rational_best_approximation vco (u32 (vcxo / 1000 * 2)) 255 31) /\
    1 <= n <= 255 /\ r <> 0 /\ 0 <= k <= 15 /\
    pll2_freq_doubler_en p' = dbl /\
    AD9523_PLL2_FB_NDIV (pll2_ndiv_a_cnt p') (pll2_ndiv_b_cnt p') = n * 2 ^ k /\
    0 <= pll2_ndiv_a_cnt p' <= 3 /\
    ad9523_pll2_valid_div (n * 2 ^ k) = true /\
    (0 <= r <= 31 -> pll2_r2_div p' = r * 2 ^ k) /\
    u32 (u32 (vcxo / 1000 * (if dbl then 2 else 1)) / r) / 2 ^ k <= 259000 /\
    3 <= pll2_vco_div_m1 p' <= 5 /\ 3 <= pll2_vco_div_m2 p' <= 5.
Proof.
  intros Hrun. apply calc_dividers_Done in Hrun as (m & vco & Hs & Hcase).
  destruct Hcase as [(Hret & _) | (_ & Hm6 & Hok)]; [done|].
  destruct Hok as (d1 & d2 & n & r & dbl & q & f & N & R & Hd & Hratio & Hq & Hloop & ->).
  destruct (vco_search_Done _ _ _ _ _ Hs) as [(Hm & _ & Hin & _) | [? _]]; [|done].
  assert (vco <> 0) as Hvco by (unfold vco_in_range, AD9523_VCO_FREQ_MIN in Hin; lia).
  pose proof (pll2_ratio_Done _ _ _ _ _ _ Hvco Hratio) as (_ & _ & Hnr).
  apply (pll2_ratio_numerator _ numerator_bounded) in Hratio as [Hn Hr]; [|done].
  apply udiv_Done in Hq as [_ ->].
  apply pfd_loop_Done in Hloop as (k & Hk & -> & -> & Hlim & Hv & HR);
    [|done|apply u32_range].
  assert (0 < 2 ^ k) by (apply Z.pow_pos_nonneg; lia).
  exists vco, n, r, dbl, k.
  cbn [pll2_ndiv_a_cnt pll2_ndiv_b_cnt pll2_freq_doubler_en pll2_r2_div
       pll2_vco_div_m1 pll2_vco_div_m2].
  split; [done|]. split; [done|]. split; [done|]. split; [done|]. split; [done|].
  split; [done|]. split.
  { unfold AD9523_PLL2_FB_NDIV. symmetry. apply Z.div_mod. lia. }
  split; [pose proof (Z.mod_pos_bound (n * 2 ^ k) 4 eq_refl); lia|].
  split; [done|]. split; [done|]. split; [done|].
  unfold vco_dividers in Hd. revert Hd.
  destruct (negb (m1 / 1000 =? 0)).
  - destruct (negb (m2 / 1000 =? 0)).
    + destruct (Z.ltb_spec (vco / (m2 / 1000)) 3), (Z.gtb_spec (vco / (m2 / 1000)) 5);
        cbn [orb]; try done.
      case_if; [done|]. intros [= <- <-]. lia.
    + intros [= <- <-]. lia.
  - intros [= <- <-]. lia.
Qed.

(** X19. A plan of the solver whose feedback divider is at most 255
    and whose R2 divider is from 1 to 31 passes all range checks of the
    parser: the parser returns 0 and that plan. *)
Theorem parse_dt_accepts_solver_plan fuel vcxo tmp p' :
  let m1_freq := of_property_read_u32 "adi,pll2-m1-freq"%string 0 in
  let m2_freq := of_property_read_u32 "adi,pll2-m2-freq"%string 0 in
  ~ (m1_freq = 0 /\ m2_freq = 0) ->
  ad9523_calc_dividers rational_best_approximation fuel (u32 vcxo) m1_freq m2_freq
    pdata_zalloc = Done (0, p') ->
  AD9523_PLL2_FB_NDIV (pll2_ndiv_a_cnt p') (pll2_ndiv_b_cnt p') <= 255 ->
  1 <= pll2_r2_div p' <= 31 ->
  parse_dt_pll2 rational_best_approximation of_property_read_u32 of_property_read_bool
    fuel vcxo tmp pdata_zalloc = Done (0, p').
Proof.
  intros m1_freq m2_freq Hauto Hrun HN HR.
  assert (parse_dt_pll2_check p' = 0) as Hcheck.
  { destruct (calc_dividers_plan _ _ _ _ _ _ Hrun)
      as (vco & n & r & dbl & k & _ & _ & _ & _ & _ & _ & HNk & Ha & Hv & _ & _ & Hm1 & Hm2).
    destruct p' as [a b dbl' r2 d1 d2].
    cbn [pll2_ndiv_a_cnt pll2_ndiv_b_cnt pll2_r2_div pll2_vco_div_m1 pll2_vco_div_m2] in *.
    rewrite <- HNk in Hv. pose proof Hv as Hv'. apply valid_div_spec in Hv'.
    unfold AD9523_PLL2_FB_NDIV in HN, Hv'.
    apply parse_dt_pll2_check_passes; try done; [lia | by right]. }
  unfold parse_dt_pll2. fold m1_freq m2_freq.
  destruct (Z.eqb_spec m1_freq 0), (Z.eqb_spec m2_freq 0); cbn [andb]; try tauto;
    rewrite Hrun; cbn; by rewrite Hcheck.
Qed.

Hypothesis denominator_bounded : forall num den,
  1 <= (rational_best_approximation num den 255 31).2 <= 31.

(** X20. With an approximator that keeps numerator and denominator
    within the bounds it is given, every plan of the solver has the
    ratio of one of the two fractions it was given: the feedback divider
    [N = 4 * B + A] is to the R2 divider as [n] is to [r].  The phase
    detector frequency of the plan, the oscillator frequency in kHz,
    doubled with the doubler, divided by R2, is at most 259000 kHz. *)
Theorem solver_plan_ratio_and_pfd fuel vcxo m1 m2 pdata p' :
  ad9523_calc_dividers rational_best_approximation fuel vcxo m1 m2 pdata = Done (0, p') ->
  exists vco n r,
    vco_in_range vco /\
    ((n, r) = rational_best_approximation vco (vcxo / 1000) 255 31 \/
     (n, r) = rational_best_approximation vco (u32 (vcxo / 1000 * 2)) 255 31) /\
    AD9523_PLL2_FB_NDIV (pll2_ndiv_a_cnt p') (pll2_ndiv_b_cnt p') * r
      = n * pll2_r2_div p' /\
    0 < pll2_r2_div p' /\
    u32 (vcxo / 1000 * (if pll2_freq_doubler_en p' then 2 else 1)) / pll2_r2_div p'
      <= 259000.
Proof.
  intros Hrun.
  destruct (calc_dividers_plan _ _ _ _ _ _ Hrun)
    as (vco & n & r & dbl & k & Hin & Hnr & Hn & Hr & Hk & Hdbl & HN & _ & _ & HR & Hpfd & _).
  assert (1 <= r <= 31) as Hr31.
  { destruct Hnr as [E | E].
    - pose proof (denominator_bounded vco (vcxo / 1000)) as Hb. by rewrite <- E in Hb.
    - pose proof (denominator_bounded vco (u32 (vcxo / 1000 * 2))) as Hb.
      by rewrite <- E in Hb. }
  assert (0 < 2 ^ k) by (apply Z.pow_pos_nonneg; lia).
  exists vco, n, r. split; [done|]. split; [done|].
  rewrite HN, HR, Hdbl by lia. split; [ring|]. split; [nia|].
  set (X := u32 (vcxo / 1000 * (if dbl then 2 else 1))) in *.
  assert (0 <= X / r < 2 ^ 32) as HXr.
  { pose proof (u32_range (vcxo / 1000 * (if dbl then 2 else 1))) as HX. fold X in HX.
    split; [apply Z.div_pos; lia|]. apply Z.div_lt_upper_bound; nia. }
  rewrite u32_small in Hpfd by done.
  rewrite Z.div_div in Hpfd by lia. done.
Qed.

End Contract.

End ParserAndSolver.

(** ** The channel loops of the setup *)

Lemma set_bit_spec mask k i :
  0 <= k -> 0 <= i ->
  Z.testbit (Z.lor mask (Z.shiftl 1 k)) i = Z.testbit mask i || (i =? k).
Proof.
  intros Hk Hi. rewrite Z.lor_spec, Z.shiftl_1_l, Z.pow2_bits_eqb by done.
  by rewrite (Z.eqb_sym k i).
Qed.

Section SetupLoops.
Context {bus : Type} `{SpiBus bus}.
Variable TRISTATE : Z.

Lemma setup_channels_Done channels : forall i active_mask (st st' : ad9523_state bus) mask',
  Forall (fun chan => 0 <= channel_num chan) channels ->
  setup_channels i channels active_mask st = Done (inr mask', st') ->
  exists tr,
    trace st' = trace st ++ tr /\
    (forall i, 0 <= i ->
       Z.testbit mask' i = true <->
       Z.testbit active_mask i = true \/
       (i < AD9523_NUM_CHAN /\ exists chan, chan ∈ channels /\ channel_num chan = i)) /\
    (forall chan, chan ∈ channels -> channel_num chan < AD9523_NUM_CHAN ->
       exists w, 0 <= w /\
         Wr (AD9523_CHANNEL_CLOCK_DIST (channel_num chan)) (channel_clock_dist chan) w ∈ tr).
Proof.
  induction channels as [|chan channels IH]; intros k active_mask st st' mask' Hnn Hrun.
  - injection Hrun as <- <-. exists []. rewrite app_nil_r. split; [done|]. split.
    + intros i Hi. split; [by left|]. intros [? | (_ & c & Hc & _)]; [done|].
      by apply elem_of_nil in Hc.
    + intros c Hc. by apply elem_of_nil in Hc.
  - apply Forall_cons in Hnn as [Hnum Hnn]. cbn [setup_channels] in Hrun.
    destruct (Z.ltb_spec (channel_num chan) AD9523_NUM_CHAN) as [Hlt|Hge].
    + apply drv_bind_Done in Hrun as (w & st1 & E1 & Hrun).
      apply ad9523_write_trace in E1.
      destruct (Z.ltb_spec w 0); [done|].
      apply drv_bind_Done in Hrun as (r2 & st2 & E2 & Hrun).
      apply vco_out_map_trace in E2 as [tr2 E2].
      destruct (Z.ltb_spec r2 0); [done|].
      destruct (Z.leb_spec AD9523_NUM_CHAN k); [done|].
      apply IH in Hrun as (tr & Htr & Hmask & Hwr); [|done].
      exists ([Wr (AD9523_CHANNEL_CLOCK_DIST (channel_num chan)) (channel_clock_dist chan) w]
                ++ tr2 ++ tr).
      split; [rewrite Htr, E2, E1; by rewrite <- !app_assoc|]. split.
      * intros i Hi. rewrite Hmask by done. rewrite set_bit_spec by done.
        rewrite orb_true_iff, Z.eqb_eq. split.
        -- intros [[? | ->] | (Hi14 & c & Hc & Hci)].
           ++ by left.
           ++ right. split; [done|]. exists chan. split; [by left | done].
           ++ right. split; [done|]. exists c. split; [by right | done].
        -- intros [? | (Hi14 & c & Hc & Hci)]; [left; by left|].
           apply elem_of_cons in Hc as [-> | Hc].
           ++ left. by right.
           ++ right. split; [done|]. by exists c.
      * intros c Hc Hc14. apply elem_of_cons in Hc as [-> | Hc].
        -- exists w. split; [done|]. by left.
        -- destruct (Hwr c Hc Hc14) as (w' & Hw' & Hin). exists w'. split; [done|].
           right. apply elem_of_app. right. done.
    + apply IH in Hrun as (tr & Htr & Hmask & Hwr); [|done].
      exists tr. split; [done|]. split.
      * intros i Hi. rewrite Hmask by done. split.
        -- intros [? | (Hi14 & c & Hc & Hci)]; [by left|].
           right. split; [done|]. exists c. split; [by right | done].
        -- intros [? | (Hi14 & c & Hc & Hci)]; [by left|].
           apply elem_of_cons in Hc as [-> | Hc]; [lia|].
           right. split; [done|]. by exists c.
      * intros c Hc Hc14. apply elem_of_cons in Hc as [-> | Hc]; [lia|].
        by apply Hwr.
Qed.

Lemma setup_unused_Done bits : forall active_mask (st st' : ad9523_state bus),
  setup_unused TRISTATE bits active_mask st = Done (None, st') ->
  exists tr,
    trace st' = trace st ++ tr /\
    forall i, i ∈ bits -> Z.testbit active_mask i = false ->
      exists w, 0 <= w /\
        Wr (AD9523_CHANNEL_CLOCK_DIST i)
           (Z.lor (AD9523_CLK_DIST_DRIVER_MODE TRISTATE) AD9523_CLK_DIST_PWR_DOWN_EN) w ∈ tr.
Proof.
  induction bits as [|b bits IH]; intros active_mask st st' Hrun.
  - injection Hrun as <-. exists []. rewrite app_nil_r. split; [done|].
    intros i Hi. by apply elem_of_nil in Hi.
  - cbn [setup_unused] in Hrun. destruct (Z.testbit active_mask b) eqn:Hb.
    + apply IH in Hrun as (tr & Htr & Hwr). exists tr. split; [done|].
      intros i Hi Hclear. apply elem_of_cons in Hi as [-> | Hi]; [congruence|].
      by apply Hwr.
    + apply drv_bind_Done in Hrun as (w & st1 & E1 & Hrun).
      apply ad9523_write_trace in E1.
      destruct (Z.ltb_spec w 0); [done|].
      apply IH in Hrun as (tr & Htr & Hwr).
      eexists (_ :: tr). split; [rewrite Htr, E1; by rewrite <- app_assoc|].
      intros i Hi Hclear. apply elem_of_cons in Hi as [-> | Hi].
      * exists w. split; [done|]. by left.
      * destruct (Hwr i Hi Hclear) as (w' & Hw' & Hin). exists w'. split; [done|].
        by right.
Qed.

(** X21. Whatever the transport does: when the two channel loops of
    the setup are left without an error, each of the 14 channel
    registers has been written with success.  A channel that the
    platform data lists has been written with the configuration of an
    entry that names it; a channel that no entry names has been written
    with the tristate driver mode and the power-down bit. *)
Theorem setup_outputs_programs_every_channel channels (st st' : ad9523_state bus) :
  Forall (fun chan => 0 <= channel_num chan) channels ->
  setup_outputs TRISTATE channels st = Done (None, st') ->
  exists tr,
    trace st' = trace st ++ tr /\
    forall i, 0 <= i < AD9523_NUM_CHAN ->
      exists val w,
        0 <= w /\ Wr (AD9523_CHANNEL_CLOCK_DIST i) val w ∈ tr /\
        ((exists chan, chan ∈ channels /\ channel_num chan = i /\
                       val = channel_clock_dist chan)
         \/
         ((forall chan, chan ∈ channels -> channel_num chan <> i) /\
          val = Z.lor (AD9523_CLK_DIST_DRIVER_MODE TRISTATE) AD9523_CLK_DIST_PWR_DOWN_EN)).
Proof.
  intros Hnn Hrun. unfold setup_outputs in Hrun.
  apply drv_bind_Done in Hrun as (r & st1 & E1 & Hrun).
  destruct r as [ret|mask]; [done|].
  apply setup_channels_Done in E1 as (tr1 & Htr1 & Hmask & Hwr1); [|done].
  apply setup_unused_Done in Hrun as (tr2 & Htr2 & Hwr2).
  exists (tr1 ++ tr2). split; [rewrite Htr2, Htr1; by rewrite <- app_assoc|].
  intros i Hi.
  destruct (Z.testbit mask i) eqn:Hbit.
  - apply Hmask in Hbit; [|lia].
    destruct Hbit as [Hbit | (_ & chan & Hc & Hci)].
    { by rewrite Z.bits_0 in Hbit. }
    destruct (Hwr1 chan Hc ltac:(lia)) as (w & Hw & Hin).
    exists (channel_clock_dist chan), w. split; [done|]. rewrite <- Hci. split.
    + apply elem_of_app. by left.
    + left. by exists chan.
  - destruct (Hwr2 i) as (w & Hw & Hin); [apply elem_of_seqZ; lia | done |].
    eexists _, w. split; [done|]. split; [apply elem_of_app; right; exact Hin|].
    right. split; [|done]. intros chan Hc Hci.
    assert (Z.testbit mask i = true) as Hset; [|congruence].
    apply Hmask; [lia|]. right. split; [lia|]. by exists chan.
Qed.

End SetupLoops.

(** ** The PLL2 part of the setup *)

Lemma lor_disjoint hi k lo :
  0 <= k -> 0 <= lo < 2 ^ k -> Z.lor (Z.shiftl hi k) lo = hi * 2 ^ k + lo.
Proof.
  intros Hk Hlo. pose proof (Z.add_lor_land (Z.shiftl hi k) lo) as Hadd.
  assert (Z.land (Z.shiftl hi k) lo = 0) as Hand.
  { apply Z.bits_inj'. intros n Hn. rewrite Z.land_spec, Z.bits_0.
    destruct (Z.ltb_spec n k).
    - by rewrite Z.shiftl_spec_low.
    - rewrite <- (Z.mod_small lo (2 ^ k)) by done.
      rewrite Z.mod_pow2_bits_high by lia. apply andb_false_r. }
  rewrite Z.shiftl_mul_pow2 in * by done. lia.
Qed.

Lemma feedback_divider_field a b :
  0 <= a <= 3 -> 0 <= b <= 63 ->
  Z.land (u32 (Z.lor (AD9523_PLL2_FB_NDIV_A_CNT a) (AD9523_PLL2_FB_NDIV_B_CNT b)) mod 2 ^ 8)
         (Z.ones 8) = 64 * a + b.
Proof.
  intros Ha Hb. unfold AD9523_PLL2_FB_NDIV_A_CNT, AD9523_PLL2_FB_NDIV_B_CNT.
  change 0x3 with (Z.ones 2). change 0x3F with (Z.ones 6).
  rewrite !Z.land_ones by lia. rewrite Z.shiftl_0_r.
  change (2 ^ 2) with 4. change (2 ^ 6) with 64. change (2 ^ 8) with 256.
  rewrite (Z.mod_small a), (Z.mod_small b) by lia.
  rewrite (lor_disjoint a 6 b) by (change (2 ^ 6) with 64; lia).
  change (2 ^ 6) with 64.
  rewrite u32_small by lia. do 2 rewrite (Z.mod_small (a * 64 + b) 256) by lia. lia.
Qed.

Lemma r2_divider_field r2 :
  0 <= r2 <= 31 ->
  Z.land (u32 (AD9523_PLL2_R2_DIVIDER_VAL r2) mod 2 ^ 8) (Z.ones 8) = r2.
Proof.
  intros Hr. unfold AD9523_PLL2_R2_DIVIDER_VAL. change 0x1F with (Z.ones 5).
  rewrite !Z.land_ones by lia. rewrite Z.shiftl_0_r.
  change (2 ^ 5) with 32. change (2 ^ 8) with 256.
  rewrite (Z.mod_small r2 32) by lia. rewrite u32_small by lia.
  do 2 rewrite (Z.mod_small r2 256) by lia. done.
Qed.

Lemma set_vco_out_freq_run {bus} i x (st : ad9523_state bus) :
  0 <= i < Z.of_nat (length (vco_out_freq st)) ->
  set_vco_out_freq i x st =
    Done (tt, mk_state (spi st) (is_enabled st) (<[Z.to_nat i := x]> (vco_out_freq st))
                       (vco_out_map st) (trace st)).
Proof.
  intros Hi. unfold set_vco_out_freq.
  destruct (Z.ltb_spec i 0); [lia|]. by destruct (Z.leb_spec (Z.of_nat (length (vco_out_freq st))) i); [lia|].
Qed.

Ltac mock_write_step :=
  match goal with
  | |- context [or_return (ad9523_write ?a ?v) ?k (mk_state (mk_mock ?r []) ?e ?q ?m ?x)] =>
      rewrite (or_return_run (ad9523_write a v) k _ _ _ (mock_write_ok r e q m x a v));
      change (0 <? 0) with false; cbv iota
  end.

Ltac set_freq_step :=
  match goal with
  | |- context [(set_vco_out_freq ?i ?x ≫= ?f) ?s] =>
      rewrite (drv_bind_run (set_vco_out_freq i x) f s _ _
                 (set_vco_out_freq_run i x s ltac:(vm_compute; done)));
      cbn [spi is_enabled vco_out_freq vco_out_map trace]
  end.

Ltac other_register :=
  rewrite mock_reg_insert_ne by (intros E; vm_compute in E; discriminate E).

(** X22. On the register-file peripheral, for dividers that pass the
    range checks of [ad9523_parse_dt] and a 32-bit VCXO frequency: the
    PLL2 part of the setup succeeds, and the registers then hold the
    plan without loss.  The feedback register reads back the A and B
    counters, the R2 register reads back R2, the VCO divider register
    holds M1 - 3 and M2 - 3 with both power-down bits clear, and bit 5
    of the control register is the doubler flag.  The three source
    frequencies become VCO / M1, VCO / M2 and the VCXO frequency, where
    VCO = vcxo * (2 or 1) * (4 * B + A) / R2. *)
Theorem setup_pll2_stores_plan (st : ad9523_state mock_bus) pdata aux :
  faults (spi st) = [] -> length (vco_out_freq st) = 3%nat ->
  parse_dt_pll2_check pdata = 0 -> 0 <= pll2_ndiv_a_cnt pdata ->
  0 <= vcxo_freq aux < 2 ^ 32 ->
  let vco := vcxo_freq aux * (if pll2_freq_doubler_en pdata then 2 else 1) *
             AD9523_PLL2_FB_NDIV (pll2_ndiv_a_cnt pdata) (pll2_ndiv_b_cnt pdata)
             / pll2_r2_div pdata in
  exists st',
    setup_pll2 pdata aux st = Done (0, st') /\
    vco_out_freq st' =
      [vco / pll2_vco_div_m1 pdata; vco / pll2_vco_div_m2 pdata; vcxo_freq aux] /\
    (let ab := mock_reg (spi st') AD9523_PLL2_FEEDBACK_DIVIDER_AB in
     Z.shiftr ab 6 = pll2_ndiv_a_cnt pdata /\ Z.land ab 0x3F = pll2_ndiv_b_cnt pdata) /\
    mock_reg (spi st') AD9523_PLL2_R2_DIVIDER = pll2_r2_div pdata /\
    (let d := mock_reg (spi st') AD9523_PLL2_VCO_DIVIDER in
     Z.land d 0x3 + 3 = pll2_vco_div_m1 pdata /\
     Z.land (Z.shiftr d 4) 0x3 + 3 = pll2_vco_div_m2 pdata /\
     Z.testbit d 2 = false /\ Z.testbit d 6 = false) /\
    Z.testbit (mock_reg (spi st') AD9523_PLL2_CTRL) 5 = pll2_freq_doubler_en pdata.
Proof.
  intros Hfl Hfr Hcheck Ha Hvcxo vco.
  destruct st as [[rg fl] en fr mp tr]. destruct pdata as [a b dbl r2 m1 m2].
  cbn [spi faults vco_out_freq pll2_ndiv_a_cnt pll2_ndiv_b_cnt pll2_freq_doubler_en
       pll2_r2_div pll2_vco_div_m1 pll2_vco_div_m2] in *.
  subst fl.
  destruct fr as [|f0 [|f1 [|f2 [|]]]]; try done.
  assert (a <= 3 /\ 3 <= b <= 63 /\ 1 <= r2 <= 31 /\ 3 <= m1 <= 5 /\ 3 <= m2 <= 5)
    as (Ha3 & Hb & Hr2 & Hm1 & Hm2).
  { unfold parse_dt_pll2_check in Hcheck.
    cbn [pll2_ndiv_a_cnt pll2_ndiv_b_cnt pll2_freq_doubler_en pll2_r2_div
         pll2_vco_div_m1 pll2_vco_div_m2] in Hcheck.
    unfold EINVAL in Hcheck.
    repeat match type of Hcheck with
           | context [?x <? ?y] => destruct (Z.ltb_spec x y)
           | context [?x >? ?y] => rewrite (Z.gtb_ltb x y) in Hcheck
           | context [?x =? ?y] => destruct (Z.eqb_spec x y)
           end; cbn [orb] in Hcheck; try discriminate Hcheck; lia. }
  assert (setup_vco_freq (vcxo_freq aux) (mk_pdata a b dbl r2 m1 m2) = Done vco) as Hvco.
  { unfold setup_vco_freq.
    cbn [pll2_ndiv_a_cnt pll2_ndiv_b_cnt pll2_freq_doubler_en pll2_r2_div].
    rewrite (u32_small r2) by lia. rewrite udiv_nonzero by lia.
    unfold AD9523_PLL2_FB_NDIV. rewrite Z.mod_small; [done|].
    change (2 ^ 64) with (2 ^ 32 * 2 ^ 32). destruct dbl; nia. }
  unfold setup_pll2.
  cbn [pll2_ndiv_a_cnt pll2_ndiv_b_cnt pll2_freq_doubler_en pll2_r2_div
       pll2_vco_div_m1 pll2_vco_div_m2].
  do 3 mock_write_step.
  rewrite Hvco. unfold lift_outcome at 1. rewrite drv_bind_run with (a := vco)
    (st' := mk_state (mk_mock _ []) en [f0; f1; f2] mp _) by reflexivity.
  do 2 mock_write_step.
  destruct (Z.eqb_spec m1 0); [lia|]. destruct (Z.eqb_spec m2 0); [lia|]. cbn [negb].
  rewrite ?drv_bind_assoc.
  do 3 set_freq_step.
  cbn [spi is_enabled vco_out_freq vco_out_map trace].
  mock_write_step. rewrite mock_write_ok.
  eexists. split; [reflexivity|]. cbn [spi vco_out_freq].
  split; [reflexivity|].
  change (2 ^ (8 * AD9523_TRANSF_LEN AD9523_PLL2_FEEDBACK_DIVIDER_AB)) with (2 ^ 8).
  change (2 ^ (8 * AD9523_TRANSF_LEN AD9523_PLL2_R2_DIVIDER)) with (2 ^ 8).
  split; [|split; [|split]].
  - do 5 other_register. rewrite mock_reg_insert by reflexivity.
    change (Z.shiftr 0xFFFFFF (8 * (3 - AD9523_TRANSF_LEN AD9523_PLL2_FEEDBACK_DIVIDER_AB)))
      with (Z.ones 8).
    rewrite feedback_divider_field by lia. cbn zeta.
    change 0x3F with (Z.ones 6). rewrite Z.land_ones, Z.shiftr_div_pow2 by lia.
    change (2 ^ 6) with 64. split.
    + rewrite Z.mul_comm, Z.div_add_l by lia. rewrite (Z.div_small b) by lia. lia.
    + rewrite Z.add_comm, Z.mul_comm, Z.mod_add by lia. apply Z.mod_small. lia.
  - other_register. rewrite mock_reg_insert by reflexivity.
    change (Z.shiftr 0xFFFFFF (8 * (3 - AD9523_TRANSF_LEN AD9523_PLL2_R2_DIVIDER)))
      with (Z.ones 8).
    apply r2_divider_field. lia.
  - do 2 other_register. rewrite mock_reg_insert by reflexivity.
    assert (m1 = 3 \/ m1 = 4 \/ m1 = 5) as [-> | [-> | ->]] by lia;
      assert (m2 = 3 \/ m2 = 4 \/ m2 = 5) as [-> | [-> | ->]] by lia;
      vm_compute; done.
  - do 4 other_register. rewrite mock_reg_insert by reflexivity.
    destruct dbl; vm_compute; done.
Qed.

(** ** The properties at concrete inputs *)

Ltac closed_bound := vm_compute; split; congruence.

Lemma mock_state_sized rg f0 f1 f2 : state_sized (mock_state (mk_mock rg []) [f0; f1; f2]).
Proof.
  repeat split. apply Forall_replicate. unfold AD9523_VCO1. lia.
Qed.

(** X1 for the two-byte customer version register holding 0x1234. *)
Lemma ad9523_read_result_witness :
  let b := mk_mock {[AD9523_ADDR AD9523_EEPROM_CUSTOMER_VERSION_ID := 0x1234]} [] in
  ((spi_sync_read b
      (Z.lor (Z.lor AD9523_READ (AD9523_CNT 2)) (AD9523_ADDR AD9523_EEPROM_CUSTOMER_VERSION_ID))
      2).2.1 < 0 /\
   mock_reg b AD9523_EEPROM_CUSTOMER_VERSION_ID =
     (spi_sync_read b
        (Z.lor (Z.lor AD9523_READ (AD9523_CNT 2)) (AD9523_ADDR AD9523_EEPROM_CUSTOMER_VERSION_ID))
        2).2.1)
  \/
  (0 <= (spi_sync_read b
           (Z.lor (Z.lor AD9523_READ (AD9523_CNT 2))
                  (AD9523_ADDR AD9523_EEPROM_CUSTOMER_VERSION_ID)) 2).2.1 /\
   0 <= mock_reg b AD9523_EEPROM_CUSTOMER_VERSION_ID < 2 ^ (8 * 2)).
Proof.
  intros b.
  exact (ad9523_read_result AD9523_EEPROM_CUSTOMER_VERSION_ID (mock_state b []) _ _
           ltac:(closed_bound)
           (mock_read_ok _ _ _ _ _ AD9523_EEPROM_CUSTOMER_VERSION_ID)).
Defined.

(** X2 for the two-byte customer version register: the value 0x12345
    reads back as 0x2345. *)
Lemma write_then_read_witness :
  exists st1 st2,
    ad9523_write AD9523_EEPROM_CUSTOMER_VERSION_ID 0x12345 (mock_state (mk_mock ∅ []) [])
      = Done (0, st1) /\
    ad9523_read AD9523_EEPROM_CUSTOMER_VERSION_ID st1
      = Done (u32 0x12345 mod 2 ^ (8 * AD9523_TRANSF_LEN AD9523_EEPROM_CUSTOMER_VERSION_ID), st2).
Proof.
  apply (write_then_read (mock_state (mk_mock ∅ []) []) AD9523_EEPROM_CUSTOMER_VERSION_ID
           0x12345); [reflexivity | closed_bound].
Defined.

(** X3 for enabling channel 2. *)
Lemma raw_write_then_read_witness :
  let st := mock_state (mk_mock ∅ []) [] in
  exists st1 st2,
    ad9523_write_raw 2 1 0 IIO_CHAN_INFO_RAW st = Done (0, st1) /\
    is_enabled st1 !! Z.to_nat 2 = Some (negb (1 =? 0)) /\
    ad9523_read_raw 2 true IIO_CHAN_INFO_RAW st1
      = Done ((IIO_VAL_INT, Some (if 1 =? 0 then 0 else 1), None), st2) /\
    AD9523_CLK_DIST_DIV_REV (mock_reg (spi st1) (AD9523_CHANNEL_CLOCK_DIST 2))
      = AD9523_CLK_DIST_DIV_REV (mock_reg (spi st) (AD9523_CHANNEL_CLOCK_DIST 2)) /\
    AD9523_CLK_DIST_DIV_PHASE_REV (mock_reg (spi st1) (AD9523_CHANNEL_CLOCK_DIST 2))
      = AD9523_CLK_DIST_DIV_PHASE_REV (mock_reg (spi st) (AD9523_CHANNEL_CLOCK_DIST 2)).
Proof.
  intros st.
  apply (raw_write_then_read st 2 1); [reflexivity | closed_bound | reflexivity].
Defined.

(** X4 for 3.141592 rad on channel 0 with divider 2. *)
Lemma phase_write_then_read_witness :
  let st := mock_state (mk_mock {[AD9523_ADDR (AD9523_CHANNEL_CLOCK_DIST 0) := 256]} []) [] in
  exists st1 st2 v v2,
    ad9523_write_raw 0 3 141592 IIO_CHAN_INFO_PHASE st = Done (0, st1) /\
    ad9523_read_raw 0 true IIO_CHAN_INFO_PHASE st1
      = Done ((IIO_VAL_INT_PLUS_MICRO, Some v, Some v2), st2) /\
    0 <= v2 < 1000000 /\
    0 <= v * 1000000 + v2 <= 3 * 1000000 + 141592 /\
    ((3 * 1000000 + 141592) * 2 < 64 * 3141592 ->
     (3 * 1000000 + 141592 - (v * 1000000 + v2)) * 2 < 3141592 + 2).
Proof.
  intros st.
  assert (AD9523_CLK_DIST_DIV_REV (mock_reg (spi st) (AD9523_CHANNEL_CLOCK_DIST 0)) = 2)
    as Hdiv by (vm_compute; reflexivity).
  destruct (phase_write_then_read st 0 3 141592) as (st1 & st2 & v & v2 & Hrun);
    rewrite ?Hdiv in *;
    [reflexivity | closed_bound | lia | lia | lia |].
  by exists st1, st2, v, v2.
Defined.

(** X5 for channel 5 and the second source. *)
Lemma vco_out_map_records_request_witness :
  let st := mock_state (mk_mock ∅ []) [] in
  exists ret st' r,
    ad9523_vco_out_map 5 1 st = Done (ret, st') /\
    is_enabled st' = is_enabled st /\ vco_out_freq st' = vco_out_freq st /\
    ((r < 0 /\ ret = r /\
      vco_out_map st' = <[Z.to_nat 5 := 1]> (vco_out_map st) /\
      trace st' = trace st ++ [Rd AD9523_PLL1_OUTPUT_CTRL r])
     \/
     (0 <= r /\
      vco_out_map st' =
        <[Z.to_nat 5 := if negb (1 =? 0) && (5 <=? 3) then AD9523_VCXO else 1]>
          (vco_out_map st) /\
      exists v, trace st' = trace st ++ [Rd AD9523_PLL1_OUTPUT_CTRL r;
                                         Wr AD9523_PLL1_OUTPUT_CTRL v ret])).
Proof.
  intros st.
  apply (vco_out_map_records_request 5 1 st); [lia | lia | reflexivity].
Defined.

(** X6 for a frequency request on channel 4. *)
Lemma write_raw_keeps_state_sized_witness :
  exists ret st',
    ad9523_write_raw 4 250000000 0 IIO_CHAN_INFO_FREQUENCY
      (mock_state (mk_mock ∅ []) [1000000000; 750000000; 122880000]) = Done (ret, st') /\
    state_sized st'.
Proof.
  apply (write_raw_keeps_state_sized 4 250000000 0 IIO_CHAN_INFO_FREQUENCY
           (mock_state (mk_mock ∅ []) [1000000000; 750000000; 122880000]));
    [apply mock_state_sized | lia].
Defined.

(** X8 for enabling channel 2. *)
Lemma write_raw_commit_unchecked_witness :
  let st := mock_state (mk_mock ∅ []) [] in
  exists st',
    ad9523_write_raw 2 1 0 IIO_CHAN_INFO_RAW st = Done (0, st') /\
    exists tr reg c,
      trace st' = trace st ++ tr ++
        [Wr (AD9523_CHANNEL_CLOCK_DIST 2) reg 0;
         Wr AD9523_IO_UPDATE AD9523_IO_UPDATE_EN c].
Proof.
  intros st.
  assert (exists st', ad9523_write_raw 2 1 0 IIO_CHAN_INFO_RAW st = Done (0, st'))
    as [st' Hrun] by (eexists; vm_compute; reflexivity).
  exists st'. split; [exact Hrun|].
  apply (write_raw_commit_unchecked 2 1 0 IIO_CHAN_INFO_RAW st st' 0 Hrun). lia.
Defined.

(** X9 for a frequency of 0 Hz on channel 1. *)
Lemma write_raw_rejects_witness :
  let st := mock_state (mk_mock ∅ []) [] in
  exists r st',
    ad9523_write_raw 1 0 0 IIO_CHAN_INFO_FREQUENCY st
      = Done (if r <? 0 then r else - EINVAL, st') /\
    trace st' = trace st ++ [Rd (AD9523_CHANNEL_CLOCK_DIST 1) r] /\
    is_enabled st' = is_enabled st /\ vco_out_freq st' = vco_out_freq st /\
    vco_out_map st' = vco_out_map st.
Proof.
  intros st.
  apply (write_raw_rejects 1 0 0 IIO_CHAN_INFO_FREQUENCY st).
  right. split; [reflexivity | lia].
Defined.

(** X10 for output 3. *)
Lemma clk_prepare_marks_enabled_witness :
  let st := mock_state (mk_mock ∅ []) [] in
  exists ret st' r,
    ad9523_clk_prepare 3 st = Done (ret, st') /\
    ((r < 0 /\ ret = r /\ is_enabled st' = is_enabled st /\
      trace st' = trace st ++ [Rd (AD9523_CHANNEL_CLOCK_DIST 3) r])
     \/
     (0 <= r /\
      is_enabled st' = <[Z.to_nat 3 := true]> (is_enabled st) /\
      ad9523_clk_is_enabled 3 st' = Done (1, st') /\
      exists reg tr,
        trace st' = trace st ++
          [Rd (AD9523_CHANNEL_CLOCK_DIST 3) r;
           Wr (AD9523_CHANNEL_CLOCK_DIST 3) reg ret] ++ tr)).
Proof.
  intros st.
  apply (clk_prepare_marks_enabled 3 st); [closed_bound | reflexivity].
Defined.

(** X11 for output 3 and a transfer that fails with [-EIO]. *)
Lemma clk_recalc_rate_of_failed_read_witness :
  let st := mock_state (mk_mock ∅ [- EIO]) [] in
  exists st1,
    ad9523_read (AD9523_CHANNEL_CLOCK_DIST 3) st = Done (- EIO, st1) /\
    ad9523_clk_recalc_rate 3 st = Done (2 ^ 64 + - EIO, st1).
Proof.
  intros st.
  assert (exists st1, ad9523_read (AD9523_CHANNEL_CLOCK_DIST 3) st = Done (- EIO, st1))
    as [st1 Hrun] by (eexists; vm_compute; reflexivity).
  exists st1. split; [exact Hrun|].
  apply (clk_recalc_rate_of_failed_read 3 st st1 (- EIO)); [closed_bound | exact Hrun |].
  unfold EIO. lia.
Defined.

(** X12 for the register 0x0F4. *)
Lemma reg_access_accesses_witness :
  let st := mock_state (mk_mock ∅ []) [] in
  (exists w c st',
     ad9523_reg_access 0x0F4 0x11 false st = Done ((w, None), st') /\
     trace st' = trace st ++
       [Wr (Z.lor 0x0F4 AD9523_R1B) 0x11 w;
        Wr AD9523_IO_UPDATE AD9523_IO_UPDATE_EN c])
  /\
  (exists r st',
     ad9523_reg_access 0x0F4 0x11 true st
       = Done ((if r <? 0 then r else 0, if r <? 0 then None else Some r), st') /\
     trace st' = trace st ++ [Rd (Z.lor 0x0F4 AD9523_R1B) r] /\
     r < 256).
Proof.
  intros st. apply (reg_access_accesses 0x0F4 0x11 st). lia.
Defined.

(** X13 for the text "0" written to the synchronisation attribute. *)
Lemma store_without_access_witness :
  let st := mock_state (mk_mock ∅ []) [] in
  ad9523_store 5 AD9523_SYNC (0, false) 2 st =
    Done (if 0 <? 0 then 0 else if negb false then slong 2 else - ENODEV, st).
Proof.
  intros st. apply (store_without_access 5 AD9523_SYNC 0 false 2 st).
  right. left. reflexivity.
Defined.

(** X14 for the status bit 3. *)
Lemma show_reports_status_bit_witness :
  let st := mock_state (mk_mock ∅ []) [] in
  exists r st',
    ad9523_show 3 st
      = Done (if r <? 0 then inl r else inr (if Z.testbit r 3 then 1 else 0), st') /\
    trace st' = trace st ++ [Rd AD9523_READBACK_0 r].
Proof.
  intros st. apply (show_reports_status_bit 3 st). lia.
Defined.

(** X15 for output 0, a 1 GHz first source and a quarter of it. *)
Lemma clk_round_rate_exact_witness :
  let st := mock_state (mk_mock ∅ []) [1000000000; 750000000; 122880000] in
  ad9523_clk_round_rate 0 250000000 st = Done (250000000, st) /\
  (0 <= 0 <= 3 -> 0 < 122880000 < 2 ^ 62 ->
   ad9523_clk_round_rate 0 122880000 st = Done (122880000, st)) /\
  ad9523_clk_round_rate 0 0 st = Done (0, st).
Proof.
  intros st.
  apply (clk_round_rate_exact 0 250000000 4 st 1000000000 750000000 122880000);
    [reflexivity | lia | lia | lia | lia | lia].
Defined.

(** X16 for output 5 and a rate of 250 MHz. *)
Lemma set_rate_then_recalc_rate_witness :
  let st := mock_state (mk_mock ∅ []) [1000000000; 750000000; 122880000] in
  exists r st1 st2,
    ad9523_clk_round_rate 5 250000000 st = Done (r, st) /\
    ad9523_clk_set_rate 5 250000000 st = Done (0, st1) /\
    ad9523_clk_recalc_rate 5 st1 = Done (r, st2).
Proof.
  intros st.
  apply (set_rate_then_recalc_rate st 5 250000000 1000000000 750000000 122880000);
    [reflexivity | apply mock_state_sized | reflexivity | lia | lia | lia | lia | lia].
Defined.

(** X18 for a 122.88 MHz oscillator and a 100 MHz target, which no
    multiplier brings into the range of the VCO. *)
Lemma parse_dt_reports_solver_failure_witness :
  parse_dt_pll2 approximate (dt_m1_freq 100000000) (fun _ => false)
    16 122880000 0 pdata_zalloc = Done (- EINVAL, pdata_zalloc).
Proof.
  apply (parse_dt_reports_solver_failure approximate (dt_m1_freq 100000000) (fun _ => false)
           16 122880000 0 (- EINVAL) pdata_zalloc);
    [vm_compute; intros [E _]; discriminate E | vm_compute; reflexivity
    | vm_compute; discriminate].
Defined.

(** X19 for a 122.88 MHz oscillator and a 983.04 MHz target. *)
Lemma parse_dt_accepts_solver_plan_witness :
  parse_dt_pll2 approximate (dt_m1_freq 983040000) (fun _ => false)
    16 122880000 0 pdata_zalloc = Done (0, mk_pdata 0 6 false 1 3 3).
Proof.
  apply (parse_dt_accepts_solver_plan approximate (dt_m1_freq 983040000) (fun _ => false)
           approximate_numerator 16 122880000 0 (mk_pdata 0 6 false 1 3 3));
    [vm_compute; intros [E _]; discriminate E | vm_compute; reflexivity
    | vm_compute; discriminate | closed_bound].
Defined.

(** X20 for a 122.88 MHz oscillator and a 983.04 MHz target. *)
Lemma solver_plan_ratio_and_pfd_witness :
  let p' := mk_pdata 0 6 false 1 3 3 in
  exists vco n r,
    vco_in_range vco /\
    ((n, r) = approximate vco (122880000 / 1000) 255 31 \/
     (n, r) = approximate vco (u32 (122880000 / 1000 * 2)) 255 31) /\
    AD9523_PLL2_FB_NDIV (pll2_ndiv_a_cnt p') (pll2_ndiv_b_cnt p') * r
      = n * pll2_r2_div p' /\
    0 < pll2_r2_div p' /\
    u32 (122880000 / 1000 * (if pll2_freq_doubler_en p' then 2 else 1)) / pll2_r2_div p'
      <= 259000.
Proof.
  intros p'.
  apply (solver_plan_ratio_and_pfd approximate approximate_numerator
           (fun num den => proj2 (approximate_bounds num den 255 31 ltac:(lia) ltac:(lia)))
           16 122880000 983040000 0 pdata_zalloc p').
  vm_compute. reflexivity.
Defined.

(** X21 for a platform data that lists channel 0 and channel 5. *)
Lemma setup_outputs_programs_every_channel_witness :
  let st := mock_state (mk_mock ∅ []) [] in
  let channels := [mk_channel_spec 0 false false false false false 3 0 4;
                   mk_channel_spec 5 false true false true false 3 1 8] in
  exists st',
    setup_outputs 0 channels st = Done (None, st') /\
    exists tr,
      trace st' = trace st ++ tr /\
      forall i, 0 <= i < AD9523_NUM_CHAN ->
        exists val w,
          0 <= w /\ Wr (AD9523_CHANNEL_CLOCK_DIST i) val w ∈ tr /\
          ((exists chan, chan ∈ channels /\ channel_num chan = i /\
                         val = channel_clock_dist chan)
           \/
           ((forall chan, chan ∈ channels -> channel_num chan <> i) /\
            val = Z.lor (AD9523_CLK_DIST_DRIVER_MODE 0) AD9523_CLK_DIST_PWR_DOWN_EN)).
Proof.
  intros st channels.
  assert (exists st', setup_outputs 0 channels st = Done (None, st'))
    as [st' Hrun] by (eexists; vm_compute; reflexivity).
  exists st'. split; [exact Hrun|].
  apply (setup_outputs_programs_every_channel 0 channels st st'); [|exact Hrun].
  repeat constructor; cbn; lia.
Defined.

(** X22 for the plan of a 122.88 MHz oscillator and a 983.04 MHz target. *)
Lemma setup_pll2_stores_plan_witness :
  let st := mock_state (mk_mock ∅ []) [0; 0; 0] in
  let pdata := mk_pdata 0 6 false 1 3 3 in
  let aux := mk_pll2_pdata 122880000 420000 0 7 0 false in
  let vco := 122880000 * 1 * AD9523_PLL2_FB_NDIV 0 6 / 1 in
  exists st',
    setup_pll2 pdata aux st = Done (0, st') /\
    vco_out_freq st' = [vco / 3; vco / 3; 122880000] /\
    (let ab := mock_reg (spi st') AD9523_PLL2_FEEDBACK_DIVIDER_AB in
     Z.shiftr ab 6 = 0 /\ Z.land ab 0x3F = 6) /\
    mock_reg (spi st') AD9523_PLL2_R2_DIVIDER = 1 /\
    (let d := mock_reg (spi st') AD9523_PLL2_VCO_DIVIDER in
     Z.land d 0x3 + 3 = 3 /\
     Z.land (Z.shiftr d 4) 0x3 + 3 = 3 /\
     Z.testbit d 2 = false /\ Z.testbit d 6 = false) /\
    Z.testbit (mock_reg (spi st') AD9523_PLL2_CTRL) 5 = false.
Proof.
  intros st pdata aux vco.
  apply (setup_pll2_stores_plan st pdata aux);
    [reflexivity | reflexivity | vm_compute; reflexivity | cbn; lia | closed_bound].
Defined.
